(** * A shallow embedding of [app.py]: PDF parsing comparison

    The program compares four PDF-to-text extraction back ends behind a
    Streamlit page and keeps the results of the bundled example documents in
    a flat directory of cache files.  This development embeds the parts of
    the script that are its own (path handling, the cache wrapper, the four
    adapters around their library calls, the orchestration of one script
    run and the display guard) and proves the properties of the
    specification about them.

    Conventions of the embedding:
    - a Python [str] and a Python [bytes] value are both a [string] (a
      sequence of 8-bit characters; a [str] is taken as its UTF-8 text);
      what the script reads as text is stated of files that hold UTF-8
      ([utf8_valid]), and what it shows of result sets with text under
      the methods and bytes under the document ([typed_results]);
    - an integer index is a [Z] where Python can return [-1], a [nat]
      otherwise;
    - code that can raise returns an [Outcome]; code with effects is a
      function from a state to an outcome and the state it leaves behind,
      the state being kept when an exception is raised;
    - third-party libraries (pdf2image, pytesseract, docling, pymupdf4llm,
      the Mistral client, base64) are parameters of the model. *)

From Stdlib Require Import ZArith Ascii String Lia.
From stdpp Require Import gmap strings list fin_maps pretty.

Local Open Scope Z_scope.

(** ** Python strings *)

Module Str.

(** [c in s] for a one-character [c]. *)
Fixpoint mem (c : ascii) (s : string) : bool :=
  match s with
  | EmptyString => false
  | String a s' => if Ascii.eqb a c then true else mem c s'
  end.

(** [s.rfind(c)]: the highest index of [c] in [s], [-1] when absent. *)
Fixpoint rfind (c : ascii) (s : string) : Z :=
  match s with
  | EmptyString => -1
  | String a s' =>
      let r := rfind c s' in
      if 0 <=? r then r + 1
      else if Ascii.eqb a c then 0 else -1
  end.

(** [s[n:]] for [0 <= n]. *)
Fixpoint drop (n : nat) (s : string) : string :=
  match n, s with
  | O, _ => s
  | S _, EmptyString => EmptyString
  | S n', String _ s' => drop n' s'
  end.

(** [s[:n]] for [0 <= n]. *)
Fixpoint take (n : nat) (s : string) : string :=
  match n, s with
  | O, _ => EmptyString
  | S _, EmptyString => EmptyString
  | S n', String a s' => String a (take n' s')
  end.

(** [s[i:j]] for [0 <= i]. *)
Definition slice (i j : nat) (s : string) : string :=
  take (j - i) (drop i s).

(** [s.startswith(c)] for a one-character [c]. *)
Definition startswith (c : ascii) (s : string) : bool :=
  match s with
  | String a _ => Ascii.eqb a c
  | EmptyString => false
  end.

(** [s.endswith(c)] for a one-character [c]. *)
Fixpoint endswith (c : ascii) (s : string) : bool :=
  match s with
  | EmptyString => false
  | String a EmptyString => Ascii.eqb a c
  | String _ s' => endswith c s'
  end.

(** [s.replace(a, b)] for one-character [a] and [b]. *)
Fixpoint replace (a b : ascii) (s : string) : string :=
  match s with
  | EmptyString => EmptyString
  | String c s' => String (if Ascii.eqb c a then b else c) (replace a b s')
  end.

(** [sub in s]: substring test. *)
Fixpoint contains (sub s : string) : bool :=
  if String.prefix sub s then true
  else match s with
       | EmptyString => false
       | String _ s' => contains sub s'
       end.

(** [not s]: the truth value of a string is its non-emptiness. *)
Definition falsy (s : string) : bool :=
  match s with EmptyString => true | _ => false end.

End Str.

(** ** [os.path] on a POSIX system *)

Module OsPath.

Definition sep : ascii := "/"%char.
Definition extsep : ascii := "."%char.

(** [posixpath.basename]: [i = p.rfind('/') + 1; return p[i:]]. *)
Definition basename (p : string) : string :=
  let i := Str.rfind sep p + 1 in
  Str.drop (Z.to_nat i) p.

(** The [while filenameIndex < dotIndex] loop of [genericpath._splitext]:
    [true] when a character other than the dot is met in
    [p[from : from + steps]]. *)
Fixpoint skip_leading_dots (p : string) (from steps : nat) : bool :=
  match steps with
  | O => false
  | S n =>
      if negb (String.eqb (Str.slice from (from + 1) p)
                          (String extsep EmptyString))
      then true
      else skip_leading_dots p (S from) n
  end.

(** [posixpath.splitext], that is [genericpath._splitext(p, '/', None, '.')]:
    the extension starts at the last dot of the last path component;
    leading dots of that component do not start an extension. *)
Definition splitext (p : string) : string * string :=
  let sepIndex := Str.rfind sep p in
  let dotIndex := Str.rfind extsep p in
  if (sepIndex <? dotIndex) &&
     skip_leading_dots p (Z.to_nat (sepIndex + 1))
                         (Z.to_nat (dotIndex - (sepIndex + 1)))
  then (Str.take (Z.to_nat dotIndex) p, Str.drop (Z.to_nat dotIndex) p)
  else (p, EmptyString).

(** [posixpath.join(a, b)] with one component [b]. *)
Definition join (a b : string) : string :=
  if Str.startswith sep b then b
  else if Str.falsy a || Str.endswith sep a then a +:+ b
  else a +:+ String sep b.

End OsPath.

(** ** The cache key *)

(** [get_cache_filename(example_path, method_slug)]. *)
Definition get_cache_filename (example_path method_slug : string) : string :=
  let base := fst (OsPath.splitext (OsPath.basename example_path)) in
  OsPath.join "cache" (base +:+ "_" +:+ method_slug +:+ ".md").

(** ** Exceptions, outcomes and effects *)

Inductive Exn : Type :=
| FileNotFoundError (path : string)
| IsADirectoryError (path : string)
| KeyError (key : string)
| LibraryError (msg : string).

Inductive Outcome (A : Type) : Type :=
| Ok (a : A)
| Raise (e : Exn).

Arguments Ok {A} a.
Arguments Raise {A} e.

(** A computation over a state [St]: the state it leaves is kept when it
    raises, as the effects of a Python statement are when a later one
    fails. *)
Definition M (St A : Type) : Type := St → Outcome A * St.

Global Instance M_ret {St} : MRet (M St) := λ A a s, (Ok a, s).

Global Instance M_bind {St} : MBind (M St) := λ A B k m s,
  match m s with
  | (Ok a, s') => k a s'
  | (Raise e, s') => (Raise e, s')
  end.

Definition raise {St A} (e : Exn) : M St A := λ s, (Raise e, s).
Definition get {St} : M St St := λ s, (Ok s, s).
Definition modify {St} (f : St → St) : M St unit := λ s, (Ok tt, f s).

(** A library call: it returns or raises and leaves the state alone. *)
Definition call {St A} (o : Outcome A) : M St A := λ s, (o, s).

(** [try: body  except Exception: handler]. *)
Definition try_except {St A} (body : M St A) (handler : Exn → M St A) : M St A :=
  λ s, match body s with
       | (Ok a, s') => (Ok a, s')
       | (Raise e, s') => handler e s'
       end.

(** [for x in xs: body(x)]. *)
Fixpoint for_each {St A} (xs : list A) (body : A → M St unit) : M St unit :=
  match xs with
  | [] => mret tt
  | x :: xs' => body x;; for_each xs' body
  end.

(** ** The operating system as the script sees it *)

Record OS : Type := mkOS {
  files : gmap string string;
    (** regular files under the working directory, by relative path *)
  dirs : gset string;
    (** directories under the working directory *)
  tmpdir : list string;
    (** the files made by [tempfile], oldest first: the n-th one made is
        the n-th element, and nothing in the script removes one *)
  environ : gmap string string;
  ssl_unverified : bool
    (** [ssl._create_default_https_context] has been replaced by the
        unverified context *)
}.

Definition set_files (f : gmap string string → gmap string string) (o : OS) : OS :=
  mkOS (f (files o)) (dirs o) (tmpdir o) (environ o) (ssl_unverified o).
Definition set_dirs (f : gset string → gset string) (o : OS) : OS :=
  mkOS (files o) (f (dirs o)) (tmpdir o) (environ o) (ssl_unverified o).
Definition set_tmpdir (f : list string → list string) (o : OS) : OS :=
  mkOS (files o) (dirs o) (f (tmpdir o)) (environ o) (ssl_unverified o).
Definition set_ssl_unverified (b : bool) (o : OS) : OS :=
  mkOS (files o) (dirs o) (tmpdir o) (environ o) b.

Definition CR : ascii := "013"%char.
Definition LF : ascii := "010"%char.

(** What a text-mode read with the default [newline=None] does to the
    decoded text: ["\r\n"] and a lone ["\r"] both become ["\n"]. *)
Fixpoint universal_newlines (s : string) : string :=
  match s with
  | EmptyString => EmptyString
  | String c s' =>
      if Ascii.eqb c CR then
        match s' with
        | String c' s'' =>
            if Ascii.eqb c' LF then String LF (universal_newlines s'')
            else String LF (universal_newlines s')
        | EmptyString => String LF EmptyString
        end
      else String c (universal_newlines s')
  end.

(** The directory a relative path lies in: what comes before its last
    separator; for a path without separator, the working directory, which
    is the empty string. *)
Definition parent (path : string) : string :=
  Str.take (Z.to_nat (Str.rfind OsPath.sep path)) path.

Module Os.

(** [os.path.exists(path)]. *)
Definition path_exists (path : string) (o : OS) : bool :=
  bool_decide (is_Some (files o !! path)) || bool_decide (path ∈ dirs o).

(** [os.makedirs(path)] for a path that does not exist. *)
Definition makedirs (path : string) : M OS unit :=
  modify (set_dirs (λ d, {[path]} ∪ d)).

(** [os.environ.get(name)]. *)
Definition environ_get (name : string) : M OS (option string) :=
  o ← get; mret (environ o !! name).

(** [with open(path, "rb") as f: f.read()]. *)
Definition read_bytes (path : string) : M OS string :=
  o ← get;
  match files o !! path with
  | Some content => mret content
  | None =>
      if bool_decide (path ∈ dirs o) then raise (IsADirectoryError path)
      else raise (FileNotFoundError path)
  end.

(** [with open(path, "r", encoding="utf-8") as f: f.read()], for a file
    that holds UTF-8 text: the text is decoded (a [str] being its UTF-8
    text, the bytes stay as they are) and its line endings are
    translated.  On bytes that are not UTF-8 Python raises
    [UnicodeDecodeError]; the model has no such read: what is stated of a
    file found on disk is stated of a file that is [utf8_valid], and what
    the script has written is the text of a [str]. *)
Definition read_text (path : string) : M OS string :=
  content ← read_bytes path; mret (universal_newlines content).

(** [with open(path, "w", encoding="utf-8") as f: f.write(text)] on a
    POSIX system, where writing leaves ["\n"] as it is.  The file is
    created or truncated; its directory has to exist.  The text is that
    of a [str] that can be encoded (one with a lone surrogate, which
    Python refuses with [UnicodeEncodeError] after it has made the file,
    has no string here); and what stands where the directory should be is
    taken not to be a regular file, for which Python raises
    [NotADirectoryError]. *)
Definition write_text (path text : string) : M OS unit :=
  o ← get;
  if bool_decide (path ∈ dirs o) then raise (IsADirectoryError path)
  else if Str.falsy (parent path) || bool_decide (parent path ∈ dirs o)
  then modify (set_files (λ f, <[path := text]> f))
  else raise (FileNotFoundError path).

End Os.

(** ** Byte streams *)

(** An [io.BytesIO]: its buffer and the read position. *)
Record BytesIO : Type := mkBytesIO {
  buffer : string;
  position : nat
}.

(** [BytesIO(data)]. *)
Definition BytesIO_new (data : string) : BytesIO := mkBytesIO data 0.

(** [stream.read()]: the bytes from the position on; the position moves
    to the end. *)
Definition BytesIO_read (b : BytesIO) : string * BytesIO :=
  (Str.drop (position b) (buffer b),
   mkBytesIO (buffer b) (Nat.max (position b) (String.length (buffer b)))).

(** The bytes [stream.read()] would return now. *)
Definition remaining (b : BytesIO) : string := fst (BytesIO_read b).

(** ** The extraction adapters *)

(** An adapter runs on the stream it is given and on the operating
    system: the stream argument of the Python function is the stream
    component of the state on entry, and is read in place. *)
Definition Parser : Type := M (BytesIO * OS) string.

(** The name of the n-th temporary file.  [tempfile] draws a random name
    that is not taken, in a directory of its own choice that is not the
    working directory; only that the names are distinct and lie outside
    [files] matters here, so the files are kept in [tmpdir] and named by
    their index. *)
Definition tmp_name (n : nat) : string := "/tmp/tmp" +:+ pretty n +:+ ".pdf".

(** The shared opening of the four adapters:
[[
    with tempfile.NamedTemporaryFile(delete=False, suffix=".pdf") as tmp:
        tmp.write(pdf_stream.read())
        tmp_path = tmp.name
]]
    [tmp_path] is the index of the new file in [tmpdir]. *)
Definition write_temp_copy : M (BytesIO * OS) nat :=
  λ '(stream, o),
    let '(data, stream') := BytesIO_read stream in
    (Ok (length (tmpdir o)), (stream', set_tmpdir (λ t, t ++ [data]) o)).

(** A library opening the temporary file [tmp_path] and working on its
    content. *)
Definition on_tmp_file {A} (tmp_path : nat) (lib : string → Outcome A)
    : M (BytesIO * OS) A :=
  λ '(stream, o),
    match tmpdir o !! tmp_path with
    | Some content => (lib content, (stream, o))
    | None => (Raise (FileNotFoundError (tmp_name tmp_path)), (stream, o))
    end.

(** The third-party libraries, as functions of what they are given. *)
Record Libraries : Type := mkLibraries {
  Image : Type;
  (** [pdf2image.convert_from_path], on the content of the file *)
  convert_from_path : string → Outcome (list Image);
  (** [pytesseract.image_to_string] *)
  image_to_string : Image → Outcome string;
  (** [DocumentConverter().convert(path).document.export_to_markdown()] *)
  docling_convert_to_markdown : string → Outcome string;
  (** [pymupdf4llm.to_markdown] *)
  pymupdf_to_markdown : string → Outcome string;
  (** [client.files.upload(file={file_name, content}, purpose="ocr").id],
      for a client made with the given key *)
  mistral_files_upload : string → string → string → Outcome string;
  (** [client.files.get_signed_url(file_id=...).url] *)
  mistral_get_signed_url : string → string → Outcome string;
  (** [[page.markdown for page in client.ocr.process(model, document).pages]] *)
  mistral_ocr_process : string → string → string → Outcome (list string);
  (** [base64.b64encode(data).decode('utf-8')] *)
  b64encode : string → string
}.

(** An operating-system computation run inside an adapter. *)
Definition in_os {A} (m : M OS A) : M (BytesIO * OS) A :=
  λ '(stream, o), let '(r, o') := m o in (r, (stream, o')).

Definition newline : string := String LF EmptyString.

(** [not api_key]: [None] and the empty string are both false. *)
Definition credential (api_key : option string) : option string :=
  match api_key with
  | Some key => if Str.falsy key then None else Some key
  | None => None
  end.

Definition mistral_key_unset_message : string :=
  "Mistral API key is not set in environment variables.".

Section Adapters.

Context (L : Libraries).

(** [f"### Page {i+1}\n{text}\n\n"]. *)
Definition page_section (i : nat) (text : string) : string :=
  "### Page " +:+ pretty (i + 1)%nat +:+ newline +:+ text +:+ newline +:+ newline.

(** The loop of [parse_with_pytesseract] over [enumerate(images)], from
    index [i] on, with the text accumulated so far. *)
Fixpoint ocr_pages (i : nat) (images : list (Image L)) (ocr_output : string)
    : M (BytesIO * OS) string :=
  match images with
  | [] => mret ocr_output
  | img :: rest =>
      text ← call (image_to_string L img);
      ocr_pages (S i) rest (ocr_output +:+ page_section i text)
  end.

Definition parse_with_pytesseract : Parser :=
  tmp_path ← write_temp_copy;
  images ← on_tmp_file tmp_path (convert_from_path L);
  ocr_pages 0 images EmptyString.

Definition parse_with_docling : Parser :=
  tmp_path ← write_temp_copy;
  in_os (modify (set_ssl_unverified true));;
  docling_md ← on_tmp_file tmp_path (docling_convert_to_markdown L);
  mret docling_md.

Definition parse_with_pymupdf : Parser :=
  tmp_path ← write_temp_copy;
  md_text ← on_tmp_file tmp_path (pymupdf_to_markdown L);
  mret md_text.

(** [for page in ocr_response.pages: output += page.markdown + "\n\n"]. *)
Fixpoint join_pages (pages : list string) (output : string) : string :=
  match pages with
  | [] => output
  | page :: rest => join_pages rest (output +:+ page +:+ newline +:+ newline)
  end.

Definition parse_with_mistral : Parser :=
  tmp_path ← write_temp_copy;
  api_key ← in_os (Os.environ_get "MISTRAL_API_KEY");
  match credential api_key with
  | None => mret mistral_key_unset_message
  | Some key =>
      uploaded_pdf ← on_tmp_file tmp_path
        (mistral_files_upload L key (OsPath.basename (tmp_name tmp_path)));
      signed_url ← call (mistral_get_signed_url L key uploaded_pdf);
      pages ← call (mistral_ocr_process L key "mistral-ocr-latest" signed_url);
      mret (join_pages pages EmptyString)
  end.

End Adapters.

(** ** Session state, the page and the world of a script run *)

(** A value of a result set: extracted text, or the bytes of the document. *)
Inductive Value : Type :=
| Text (s : string)
| Bytes (b : string).

(** What a value holds, as the page takes it: the text of a method's
    entry for [st.markdown], the bytes of the document's entry for
    [base64.b64encode].  The script stores text under the methods and
    bytes under ["Original Document"], and the page is described for such
    result sets ([typed_results]): the [TypeError] of [base64.b64encode]
    on a [str] is not in the model. *)
Definition payload (v : Value) : string :=
  match v with Text s => s | Bytes b => b end.

(** A Python [dict] with string keys: insertion-ordered. *)
Definition Dict : Type := list (string * Value).

(** [d[k] = v]: an existing key keeps its place. *)
Fixpoint dict_set (k : string) (v : Value) (d : Dict) : Dict :=
  match d with
  | [] => [(k, v)]
  | (k', v') :: d' =>
      if String.eqb k' k then (k, v) :: d' else (k', v') :: dict_set k v d'
  end.

(** [d[k]], [None] standing for the [KeyError]. *)
Fixpoint dict_get (k : string) (d : Dict) : option Value :=
  match d with
  | [] => None
  | (k', v') :: d' => if String.eqb k' k then Some v' else dict_get k d'
  end.

(** [k in d]. *)
Definition dict_mem (k : string) (d : Dict) : bool :=
  bool_decide (is_Some (dict_get k d)).

(** [list(d.keys())]. *)
Definition dict_keys (d : Dict) : list string := d.*1.

(** What the script puts on the page, in order. *)
Inductive Ui : Type :=
| Title (text : string)
| Header (text : string)
| Info (text : string)
| Spinner (text : string)
| Markdown (body : string) (unsafe_allow_html : bool)
| SidebarHeader (text : string)
| SidebarFileUploader (label : string)
| SidebarRadio (label : string) (options : list string)
| SidebarSuccess (text : string)
| SidebarInfo (text : string)
| SidebarError (text : string).

Record World : Type := mkWorld {
  os : OS;
  session_state : gmap string Dict;
    (** [st.session_state]: it outlives a script run, also a failed one *)
  screen : list Ui;
    (** what this run has put on the page, oldest first *)
  invocations : nat
    (** how many times a parser function has been called so far; no code
        reads it *)
}.

Definition set_os (f : OS → OS) (w : World) : World :=
  mkWorld (f (os w)) (session_state w) (screen w) (invocations w).
Definition set_session_state (f : gmap string Dict → gmap string Dict)
    (w : World) : World :=
  mkWorld (os w) (f (session_state w)) (screen w) (invocations w).
Definition set_screen (f : list Ui → list Ui) (w : World) : World :=
  mkWorld (os w) (session_state w) (f (screen w)) (invocations w).
Definition set_invocations (f : nat → nat) (w : World) : World :=
  mkWorld (os w) (session_state w) (screen w) (f (invocations w)).

(** An operating-system computation run by the script. *)
Definition with_os {A} (m : M OS A) : M World A :=
  λ w, let '(r, o') := m (os w) in (r, set_os (λ _, o') w).

(** [parser_function(pdf_stream)]: the call is counted, the parser runs on
    the stream and the operating system, and the stream is dropped. *)
Definition invoke (parser_function : Parser) (pdf_stream : BytesIO)
    : M World string :=
  λ w, let '(r, (_, o')) := parser_function (pdf_stream, os w) in
       (r, set_os (λ _, o') (set_invocations S w)).

(** A Streamlit display call. *)
Definition st (u : Ui) : M World unit :=
  modify (set_screen (λ scr, scr ++ [u])).

(** [key in st.session_state]. *)
Definition session_has (key : string) (w : World) : bool :=
  bool_decide (is_Some (session_state w !! key)).

(** [st.session_state[key] = {}]. *)
Definition session_new_dict (key : string) : M World unit :=
  modify (set_session_state (λ ss, <[key := []]> ss)).

(** [st.session_state[key]]. *)
Definition session_get (key : string) : M World Dict :=
  w ← get;
  match session_state w !! key with
  | Some d => mret d
  | None => raise (KeyError key)
  end.

(** [st.session_state[key][k] = v]: the dictionary held by the session is
    updated in place. *)
Definition session_setitem (key k : string) (v : Value) : M World unit :=
  d ← session_get key;
  modify (set_session_state (λ ss, <[key := dict_set k v d]> ss)).

(** ** The cache wrapper *)

(** [get_cached_conversion(example_path, method_slug, parser_function)]. *)
Definition get_cached_conversion (example_path method_slug : string)
    (parser_function : Parser) : M World string :=
  let cache_file := get_cache_filename example_path method_slug in
  w ← get;
  if Os.path_exists cache_file (os w) then
    result ← with_os (Os.read_text cache_file);
    mret result
  else
    pdf_bytes ← with_os (Os.read_bytes example_path);
    let pdf_stream := BytesIO_new pdf_bytes in
    result ← invoke parser_function pdf_stream;
    with_os (Os.write_text cache_file result);;
    mret result.

(** ** One run of the script *)

Inductive ExampleChoice : Type :=
| ExampleOcrPdf
| ExampleNonOcrPdf.

Definition example_label (c : ExampleChoice) : string :=
  match c with
  | ExampleOcrPdf => "Example OCR PDF"
  | ExampleNonOcrPdf => "Example Non-OCR PDF"
  end.

(** What the user has done on the page when the script runs. *)
Record Inputs : Type := mkInputs {
  uploaded_file : option string;
    (** the bytes of the uploaded file, if there is one *)
  example_choice : ExampleChoice;
  method_choice : nat
    (** the position picked in the method selector, when it is shown *)
}.

Inductive PdfSource : Type :=
| Uploaded
| Example.

Definition original_document : string := "Original Document".
Definition processing_message : string := "Processing document... please wait.".
Definition method_selector_label : string := "Select a parsing method".

(** [if pdf_bytes:] is false for [None] and for an empty document. *)
Definition has_content (pdf_bytes : option string) : option string :=
  match pdf_bytes with
  | Some b => if Str.falsy b then None else Some b
  | None => None
  end.

Definition double_quote : string := String "034"%char EmptyString.

(** The value of [st.sidebar.radio(label, options)]: the option picked,
    the first one when the pick is out of range. *)
Definition radio_value (options : list string) (pick : nat) : string :=
  match options !! pick with
  | Some m => m
  | None => hd EmptyString options
  end.

Section Script.

Context (L : Libraries).

(** [display_pdf(file_bytes)]. *)
Definition display_pdf (file_bytes : string) : M World unit :=
  let base64_pdf := b64encode L file_bytes in
  let pdf_display :=
    "<iframe src=" +:+ double_quote +:+ "data:application/pdf;base64,"
      +:+ base64_pdf +:+ double_quote
      +:+ " width=" +:+ double_quote +:+ "100%" +:+ double_quote
      +:+ " height=" +:+ double_quote +:+ "1000" +:+ double_quote
      +:+ " type=" +:+ double_quote +:+ "application/pdf" +:+ double_quote
      +:+ "></iframe>" in
  st (Markdown pdf_display true).

(** Lines 119-120: the cache directory is made when nothing has its
    name. *)
Definition ensure_cache_directory : M World unit :=
  w ← get;
  if negb (Os.path_exists "cache" (os w))
  then with_os (Os.makedirs "cache")
  else mret tt.

Definition example_path_of (choice : ExampleChoice) : string :=
  if String.eqb (example_label choice) "Example OCR PDF"
  then "examples/Ocr.pdf" else "examples/Non_Ocr.pdf".

(** Lines 133-147: the source of the document and its bytes, [None]
    when the example file cannot be read. *)
Definition load_pdf (inp : Inputs) : M World (PdfSource * option string) :=
  match uploaded_file inp with
  | Some data =>
      st (SidebarSuccess "PDF uploaded successfully!");;
      mret (Uploaded, Some data)
  | None =>
      let example_path := example_path_of (example_choice inp) in
      pdf_bytes ←
        try_except
          (b ← with_os (Os.read_bytes example_path);
           st (SidebarInfo ("Using " +:+ example_label (example_choice inp)));;
           mret (Some b))
          (λ e,
             st (SidebarError ("Example file not found: " +:+ example_path));;
             mret None);
      mret (Example, pdf_bytes)
  end.

Definition uploaded_methods : list (string * Parser) :=
  [ ("Pytesseract OCR", parse_with_pytesseract L);
    ("Docling Conversion", parse_with_docling L);
    ("PyMuPDF Conversion", parse_with_pymupdf L);
    ("Mistral OCR", parse_with_mistral L) ].

Definition example_methods : list (string * Parser * string) :=
  [ ("Pytesseract OCR", parse_with_pytesseract L, "pytesseract");
    ("Docling Conversion", parse_with_docling L, "docling");
    ("PyMuPDF Conversion", parse_with_pymupdf L, "pymupdf");
    ("Mistral OCR", parse_with_mistral L, "mistral") ].

(** Lines 152-164: the result set of an uploaded document. *)
Definition process_uploaded (pdf_bytes : string) : M World Dict :=
  w ← get;
  (if negb (session_has "results" w) then
     st (Spinner "Processing uploaded PDF, please wait...");;
     session_new_dict "results";;
     for_each uploaded_methods (λ '(method_name, parser),
       let pdf_stream := BytesIO_new pdf_bytes in
       r ← invoke parser pdf_stream;
       session_setitem "results" method_name (Text r));;
     session_setitem "results" original_document (Bytes pdf_bytes)
   else mret tt);;
  session_get "results".

Definition example_key_of (choice : ExampleChoice) : string :=
  "results_example_" +:+ Str.replace " " "_" (example_label choice).

(** Lines 166-179: the result set of an example document. *)
Definition process_example (choice : ExampleChoice) (pdf_bytes : string)
    : M World Dict :=
  let example_path := example_path_of choice in
  let example_key := example_key_of choice in
  w ← get;
  (if negb (session_has example_key w) then
     st (Spinner "Processing example PDF, please wait...");;
     session_new_dict example_key;;
     for_each example_methods (λ '(method_name, parser, slug),
       r ← get_cached_conversion example_path slug parser;
       session_setitem example_key method_name (Text r));;
     session_setitem example_key original_document (Bytes pdf_bytes)
   else mret tt);;
  session_get example_key.

(** [results[k]]. *)
Definition getitem (results : Dict) (k : string) : M World Value :=
  match dict_get k results with
  | Some v => mret v
  | None => raise (KeyError k)
  end.

(** Lines 181-192: the display guard and the method selector. *)
Definition show_results (inp : Inputs) (results : Dict) : M World unit :=
  if negb (dict_mem original_document results) then
    st (SidebarInfo processing_message);;
    st (Info processing_message)
  else
    st (SidebarHeader "Method Options");;
    let options := dict_keys results in
    st (SidebarRadio method_selector_label options);;
    let selected_method := radio_value options (method_choice inp) in
    st (Header selected_method);;
    if String.eqb selected_method original_document then
      v ← getitem results original_document;
      display_pdf (payload v)
    else
      v ← getitem results selected_method;
      st (Markdown (payload v) false).

(** The script, top to bottom. *)
Definition script (inp : Inputs) : M World unit :=
  ensure_cache_directory;;
  st (Title "Chemical Document Parsing Comparison");;
  st (SidebarHeader "PDF Selection");;
  st (SidebarFileUploader "Upload a PDF");;
  st (SidebarRadio "Or select an example PDF"
        [example_label ExampleOcrPdf; example_label ExampleNonOcrPdf]);;
  '(pdf_source, pdf_bytes) ← load_pdf inp;
  match has_content pdf_bytes with
  | Some pdf_bytes =>
      results ←
        match pdf_source with
        | Uploaded => process_uploaded pdf_bytes
        | Example => process_example (example_choice inp) pdf_bytes
        end;
      show_results inp results
  | None =>
      st (Info "Please upload a PDF or select an example from the sidebar.")
  end.

(** A new run starts from an empty page; the operating system and the
    session are those the run before has left. *)
Definition rerun (inp : Inputs) (w : World) : Outcome unit * World :=
  script inp (set_screen (λ _, []) w).

End Script.

(** ** Vocabulary of the properties *)

(** A string of dots only (the empty one included): [splitext] sees no
    extension after such a name. *)
Fixpoint all_dots (s : string) : bool :=
  match s with
  | EmptyString => true
  | String a s' => Ascii.eqb a OsPath.extsep && all_dots s'
  end.

(** [name] and [ext] are the stem and the extension of a file name
    [name.ext]: no separator in either, no dot in the extension, and a
    stem that is not made of dots. *)
Definition stem_and_extension (name ext : string) : Prop :=
  Str.mem OsPath.sep name = false ∧ all_dots name = false ∧
  Str.mem OsPath.sep ext = false ∧ Str.mem OsPath.extsep ext = false.

(** The cache key as the specification words it: the stem of the
    document, ['_'], the method identifier and ['.md'], under [cache]. *)
Definition cache_key_of_stem (stem method_slug : string) : string :=
  "cache/" +:+ stem +:+ "_" +:+ method_slug +:+ ".md".

(** The output of local OCR as the specification words it: for the pages
    numbered from [n] on, a heading [### Page N] followed by the text of
    the page. *)
Fixpoint page_sections_from (n : nat) (texts : list string) : string :=
  match texts with
  | [] => EmptyString
  | text :: rest =>
      "### Page " +:+ pretty n +:+ newline +:+ text +:+ newline +:+ newline
        +:+ page_sections_from (S n) rest
  end.

(** The stream once read to its end. *)
Definition exhausted (b : BytesIO) : BytesIO := snd (BytesIO_read b).

(** The operating system with one more temporary file. *)
Definition with_temp_copy (data : string) (o : OS) : OS :=
  set_tmpdir (λ t, t ++ [data]) o.

Definition method_names : list string :=
  ["Pytesseract OCR"; "Docling Conversion"; "PyMuPDF Conversion"; "Mistral OCR"].

(** The keys of a complete result set, in the order of the selector. *)
Definition result_set_names : list string := method_names ++ [original_document].

(** *** The adapters as functions of the document *)

(** What the loop of [parse_with_pytesseract] computes, without the state
    it runs in. *)
Fixpoint ocr_text (L : Libraries) (i : nat) (images : list (Image L))
    (ocr_output : string) : Outcome string :=
  match images with
  | [] => Ok ocr_output
  | img :: rest =>
      match image_to_string L img with
      | Ok text => ocr_text L (S i) rest (ocr_output +:+ page_section i text)
      | Raise e => Raise e
      end
  end.

Definition pytesseract_text (L : Libraries) (doc : string) : Outcome string :=
  match convert_from_path L doc with
  | Ok images => ocr_text L 0 images EmptyString
  | Raise e => Raise e
  end.

(** What [parse_with_mistral] computes for the document in the temporary
    file of index [tmp_path], given the value of [MISTRAL_API_KEY]. *)
Definition mistral_text (L : Libraries) (api_key : option string)
    (tmp_path : nat) (doc : string) : Outcome string :=
  match credential api_key with
  | None => Ok mistral_key_unset_message
  | Some key =>
      match mistral_files_upload L key (OsPath.basename (tmp_name tmp_path)) doc with
      | Ok uploaded_pdf =>
          match mistral_get_signed_url L key uploaded_pdf with
          | Ok signed_url =>
              match mistral_ocr_process L key "mistral-ocr-latest" signed_url with
              | Ok pages => Ok (join_pages pages EmptyString)
              | Raise e => Raise e
              end
          | Raise e => Raise e
          end
      | Raise e => Raise e
      end
  end.

(** The outcomes of the four methods on an uploaded document, in the
    order of the loop, when the first temporary file gets index [n]. *)
Definition extraction_outcomes (L : Libraries) (api_key : option string)
    (n : nat) (doc : string) : list (string * Outcome string) :=
  [ ("Pytesseract OCR", pytesseract_text L doc);
    ("Docling Conversion", docling_convert_to_markdown L doc);
    ("PyMuPDF Conversion", pymupdf_to_markdown L doc);
    ("Mistral OCR", mistral_text L api_key (n + 3) doc) ].

(** The entries of the methods that returned before the first one that
    raised, and the exception of that one. *)
Fixpoint collect_until_failure (outcomes : list (string * Outcome string))
    : Dict * option Exn :=
  match outcomes with
  | [] => ([], None)
  | (name, Ok text) :: rest =>
      let '(d, failure) := collect_until_failure rest in
      ((name, Text text) :: d, failure)
  | (name, Raise e) :: _ => ([], Some e)
  end.

(** *** Temporary files *)

(** An adapter that reads its stream to the end, leaves one more
    temporary file holding what it read, and touches nothing else on
    disk or in the environment, whether it returns or raises. *)
Definition leaves_temp_copy (parser : Parser) : Prop :=
  ∀ stream o,
    let '(_, (stream', o')) := parser (stream, o) in
    stream' = exhausted stream ∧
    tmpdir o' = tmpdir o ++ [remaining stream] ∧
    files o' = files o ∧ dirs o' = dirs o ∧ environ o' = environ o.

(** An adapter after whose call, returned or failed, the temporary files
    are those there were before. *)
Definition temp_copy_deleted (parser : Parser) : Prop :=
  ∀ stream o, tmpdir (parser (stream, o)).2.2 = tmpdir o.

(** The temporary files [T] are still there, in their places. *)
Definition keeps_temp_files (T : list string) (w : World) : Prop :=
  T `prefix_of` tmpdir (os w).

(** *** Result sets *)

(** A dictionary of results is complete, or it holds the entries of the
    first methods only and no original document. *)
Definition dict_ok (d : Dict) : Prop :=
  dict_keys d = result_set_names ∨ dict_keys d `prefix_of` method_names.

Definition session_ok (ss : gmap string Dict) : Prop :=
  ∀ key d, ss !! key = Some d → dict_ok d.

(** Every method selector on the page offers the five entries. *)
Definition selectors_complete (scr : list Ui) : Prop :=
  ∀ options, SidebarRadio method_selector_label options ∈ scr →
             options = result_set_names.

(** The worlds a session goes through: it starts with an empty session;
    the script is run again on every interaction, whatever the run before
    did and however it ended; the libraries need not behave in one run as
    in another (a remote service, a call that is cut short); and the
    operating system may change between two runs. *)
Inductive reachable : World → Prop :=
| reachable_start (o : OS) : reachable (mkWorld o ∅ [] 0)
| reachable_rerun (L : Libraries) (inp : Inputs) (w : World) :
    reachable w → reachable (rerun L inp w).2
| reachable_os (f : OS → OS) (w : World) :
    reachable w → reachable (set_os f w).

(** *** The run on an uploaded document, as a function *)

(** The operating system once the first [j] methods have been called on
    [doc]: one temporary copy for each, and certificate checks off from
    the second method (docling) on. *)
Definition after_methods (j : nat) (doc : string) (o : OS) : OS :=
  mkOS (files o) (dirs o) (tmpdir o ++ replicate j doc) (environ o)
       (if bool_decide (2 ≤ j)%nat then true else ssl_unverified o).

(** What processing an uploaded document does in a session without
    results: the methods run in order up to the first one that raises;
    when none raises the original document completes the set, otherwise
    the exception ends the run and the set is left as it stands. *)
Definition uploaded_run (L : Libraries) (doc : string) (w : World)
    : Outcome Dict * World :=
  let '(d, failure) :=
    collect_until_failure
      (extraction_outcomes L (environ (os w) !! "MISTRAL_API_KEY")
         (length (tmpdir (os w))) doc) in
  let scr := screen w ++ [Spinner "Processing uploaded PDF, please wait..."] in
  match failure with
  | None =>
      let results := d ++ [(original_document, Bytes doc)] in
      (Ok results,
       mkWorld (after_methods 4 doc (os w))
         (<["results" := results]> (session_state w)) scr
         (invocations w + 4))
  | Some e =>
      (Raise e,
       mkWorld (after_methods (S (length d)) doc (os w))
         (<["results" := d]> (session_state w)) scr
         (invocations w + S (length d)))
  end.

(** The operating system after lines 119-120. *)
Definition with_cache_directory (o : OS) : OS :=
  if Os.path_exists "cache" o then o else set_dirs (λ d, {["cache"]} ∪ d) o.

(** The top of the page, put there by every run. *)
Definition page_top : list Ui :=
  [ Title "Chemical Document Parsing Comparison";
    SidebarHeader "PDF Selection";
    SidebarFileUploader "Upload a PDF";
    SidebarRadio "Or select an example PDF"
      [example_label ExampleOcrPdf; example_label ExampleNonOcrPdf] ].

(** The world in which the document is processed: the cache directory
    is there and the page shows its top and the message about the
    source. *)
Definition loaded (source_message : Ui) (w : World) : World :=
  mkWorld (with_cache_directory (os w)) (session_state w)
    (screen w ++ page_top ++ [source_message]) (invocations w).

(** What [show_results] does on an empty page: its outcome and what it
    shows. *)
Definition page_of (L : Libraries) (inp : Inputs) (results : Dict)
    : Outcome unit * list Ui :=
  let r := show_results L inp results
             (mkWorld (mkOS ∅ ∅ [] ∅ false) ∅ [] 0) in
  (r.1, screen r.2).

(** *** Hoare triples *)

(** [hoare P m Q E]: from a state where [P] holds, [m] returns [a] in a
    state where [Q a] holds or raises [e] in a state where [E e] holds. *)
Definition hoare {St A} (P : St → Prop) (m : M St A)
    (Q : A → St → Prop) (E : Exn → St → Prop) : Prop :=
  ∀ s, P s →
    match m s with
    | (Ok a, s') => Q a s'
    | (Raise e, s') => E e s'
    end.

(** [stable I m]: [m] keeps the invariant [I], returning or raising. *)
Definition stable {St A} (I : St → Prop) (m : M St A) : Prop :=
  hoare I m (λ _, I) (λ _, I).

(** *** The result set while it is filled *)

(** The session is [ss0] but for the dictionary under [key], whose keys
    are [ks], and the page shows [scr0]. *)
Definition filling (key : string) (ss0 : gmap string Dict) (scr0 : list Ui)
    (ks : list string) (w : World) : Prop :=
  ∃ d, session_state w = <[key := d]> ss0 ∧ dict_keys d = ks ∧ screen w = scr0.

(** A step that leaves the session and the page as they are. *)
Definition off_stage {A} (act : M World A) : Prop :=
  ∀ ss scr, stable (λ w, session_state w = ss ∧ screen w = scr) act.

(** The invariant of a session: every dictionary of results is complete
    or still without its original document, and every method selector on
    the page offers a complete set. *)
Definition all_or_nothing (w : World) : Prop :=
  session_ok (session_state w) ∧ selectors_complete (screen w).

(** The common shape of the two branches that process a document: when
    the session has no dictionary under [key], one is made and filled by
    the steps in order and completed by the original document; the
    dictionary of the session is the result. *)
Definition fill_result_set (key message : string)
    (steps : list (string * M World string)) (pdf_bytes : string)
    : M World Dict :=
  w ← get;
  (if negb (session_has key w) then
     st (Spinner message);;
     session_new_dict key;;
     for_each steps (λ step,
       step.2 ≫= λ r, session_setitem key step.1 (Text r));;
     session_setitem key original_document (Bytes pdf_bytes)
   else mret tt);;
  session_get key.

(** The steps of the uploaded branch. *)
Definition uploaded_steps (L : Libraries) (pdf_bytes : string)
    : list (string * M World string) :=
  (λ '(method_name, parser), (method_name, invoke parser (BytesIO_new pdf_bytes)))
    <$> uploaded_methods L.

(** The steps of the example branch. *)
Definition example_steps (L : Libraries) (choice : ExampleChoice)
    : list (string * M World string) :=
  (λ '(method_name, parser, slug),
     (method_name, get_cached_conversion (example_path_of choice) slug parser))
    <$> example_methods L.

(** The world with other regular files and directories on disk. *)
Definition on_disk (fs : gmap string string) (ds : gset string) (w : World)
    : World :=
  set_os (λ o, mkOS fs ds (tmpdir o) (environ o) (ssl_unverified o)) w.

(** *** Sample libraries and worlds *)

(** Libraries whose rasteriser gives [pages] (an image being the text on
    it), whose converters give [markdown], and whose OCR service reads
    one page. *)
Definition sample_libraries (pages : Outcome (list string))
    (markdown : Outcome string) : Libraries :=
  {| Image := string;
     convert_from_path := λ _, pages;
     image_to_string := λ img, Ok img;
     docling_convert_to_markdown := λ _, markdown;
     pymupdf_to_markdown := λ _, markdown;
     mistral_files_upload := λ _ name _, Ok name;
     mistral_get_signed_url := λ _ file_id, Ok ("https://files/" +:+ file_id);
     mistral_ocr_process := λ _ _ _, Ok ["page"];
     b64encode := λ data, data |}.

(** A working directory with the first example document and an empty
    cache directory, and no credential in the environment. *)
Definition sample_os : OS :=
  mkOS {[ "examples/Ocr.pdf" := "%PDF-1.7" ]} {[ "examples"; "cache" ]} [] ∅ false.

Definition sample_world : World := mkWorld sample_os ∅ [] 0.

(** A text with a Windows line ending: [Title\r\nBody]. *)
Definition crlf_text : string := "Title" +:+ String CR (String LF "Body").

(** The same text with a POSIX line ending: [Title\nBody]. *)
Definition lf_text : string := "Title" +:+ String LF "Body".

(** ** Vocabulary of the further properties *)

(** The stem of a document: what [get_cache_filename] keeps of its path. *)
Definition stem_of (example_path : string) : string :=
  fst (OsPath.splitext (OsPath.basename example_path)).

(** The operating system with another environment. *)
Definition with_environ (env : gmap string string) (o : OS) : OS :=
  mkOS (files o) (dirs o) (tmpdir o) env (ssl_unverified o).

(** The output of the cloud method as a function of the pages of the
    response: the markdown of each page followed by an empty line. *)
Fixpoint pages_markdown (pages : list string) : string :=
  match pages with
  | [] => EmptyString
  | page :: rest => page +:+ newline +:+ newline +:+ pages_markdown rest
  end.

(** A parser that never turns the certificate checks back on. *)
Definition keeps_checks_off (parser : Parser) : Prop :=
  ∀ stream o,
    ssl_unverified o = true → ssl_unverified (parser (stream, o)).2.2 = true.

(** The session key of the result set of a run: [results] for an uploaded
    document, the key of the example otherwise. *)
Definition source_key (inp : Inputs) : string :=
  match uploaded_file inp with
  | Some _ => "results"
  | None => example_key_of (example_choice inp)
  end.

(** The source a run takes its document from. *)
Definition source_of (inp : Inputs) : PdfSource :=
  match uploaded_file inp with
  | Some _ => Uploaded
  | None => Example
  end.

(** What the sidebar says about the source, the example file being read
    or not. *)
Definition source_message (inp : Inputs) (pdf_bytes : option string) : Ui :=
  match uploaded_file inp, pdf_bytes with
  | Some _, _ => SidebarSuccess "PDF uploaded successfully!"
  | None, Some _ =>
      SidebarInfo ("Using " +:+ example_label (example_choice inp))
  | None, None =>
      SidebarError ("Example file not found: "
                    +:+ example_path_of (example_choice inp))
  end.

(** The bytes a run works on: the uploaded ones, or those of the example
    file when it can be read. *)
Definition loaded_bytes (inp : Inputs) (o : OS) : option string :=
  match uploaded_file inp with
  | Some data => Some data
  | None => files o !! example_path_of (example_choice inp)
  end.

Definition please_upload : Ui :=
  Info "Please upload a PDF or select an example from the sidebar.".

(** The frame [display_pdf] builds around the document. *)
Definition pdf_frame (L : Libraries) (file_bytes : string) : string :=
  "<iframe src=" +:+ double_quote +:+ "data:application/pdf;base64,"
    +:+ b64encode L file_bytes +:+ double_quote
    +:+ " width=" +:+ double_quote +:+ "100%" +:+ double_quote
    +:+ " height=" +:+ double_quote +:+ "1000" +:+ double_quote
    +:+ " type=" +:+ double_quote +:+ "application/pdf" +:+ double_quote
    +:+ "></iframe>".

(** The identifiers of the methods in the cache, in the order of the
    loop. *)
Definition method_slugs : list string :=
  ["pytesseract"; "docling"; "pymupdf"; "mistral"].

(** The cache files of an example document. *)
Definition cache_files_of (choice : ExampleChoice) : list string :=
  get_cache_filename (example_path_of choice) <$> method_slugs.

(** The regular files [fs0] are on disk with their contents, every other
    regular file is among [allowed], and the directories are [ds]. *)
Definition disk_grown_by (fs0 : gmap string string) (allowed : list string)
    (ds : gset string) (w : World) : Prop :=
  fs0 ⊆ files (os w) ∧
  (∀ path, is_Some (files (os w) !! path) →
           is_Some (fs0 !! path) ∨ path ∈ allowed) ∧
  dirs (os w) = ds.

(** The files a run may make: none for an uploaded document, the cache
    files of the example otherwise. *)
Definition new_files_of (inp : Inputs) : list string :=
  match uploaded_file inp with
  | Some _ => []
  | None => cache_files_of (example_choice inp)
  end.

(** [m] calls a parser [j] times, [j] at most [k], and leaves [j] more
    temporary files. *)
Definition calls_at_most (k : nat) {A} (m : M World A) : Prop :=
  ∀ w, ∃ j, (j ≤ k)%nat ∧
            invocations (m w).2 = (invocations w + j)%nat ∧
            length (tmpdir (os (m w).2)) = (length (tmpdir (os w)) + j)%nat.

(** Libraries like the sample ones whose OCR cannot read a page without
    text. *)
Definition strict_ocr_libraries (pages : list string) : Libraries :=
  {| Image := string;
     convert_from_path := λ _, Ok pages;
     image_to_string := λ img,
       if Str.falsy img then Raise (LibraryError "empty page") else Ok img;
     docling_convert_to_markdown := λ _, Ok EmptyString;
     pymupdf_to_markdown := λ _, Ok EmptyString;
     mistral_files_upload := λ _ name _, Ok name;
     mistral_get_signed_url := λ _ file_id, Ok file_id;
     mistral_ocr_process := λ _ _ _, Ok [];
     b64encode := λ data, data |}.

(** ** Vocabulary of the revised properties *)

(** *** UTF-8 *)

(** A continuation byte, [0x80] to [0xBF]. *)
Definition utf8_continuation (c : ascii) : bool :=
  (128 <=? nat_of_ascii c)%nat && (nat_of_ascii c <=? 191)%nat.

(** Whether the bytes are well-formed UTF-8, as the strict decoder of a
    text-mode read with [encoding="utf-8"] accepts them: sequences of one
    to four bytes in their shortest form, no surrogate and nothing above
    U+10FFFF. *)
Fixpoint utf8_valid (s : string) : bool :=
  match s with
  | EmptyString => true
  | String a s1 =>
      let b0 := nat_of_ascii a in
      if (b0 <=? 127)%nat then utf8_valid s1
      else
        match s1 with
        | EmptyString => false
        | String b s2 =>
            let b1 := nat_of_ascii b in
            if (194 <=? b0)%nat && (b0 <=? 223)%nat then
              utf8_continuation b && utf8_valid s2
            else
              match s2 with
              | EmptyString => false
              | String c s3 =>
                  if (224 <=? b0)%nat && (b0 <=? 239)%nat then
                    (if (b0 =? 224)%nat then (160 <=? b1)%nat && (b1 <=? 191)%nat
                     else if (b0 =? 237)%nat then
                            (128 <=? b1)%nat && (b1 <=? 159)%nat
                          else utf8_continuation b)
                    && utf8_continuation c && utf8_valid s3
                  else
                    match s3 with
                    | EmptyString => false
                    | String d s4 =>
                        if (240 <=? b0)%nat && (b0 <=? 244)%nat then
                          (if (b0 =? 240)%nat then
                             (144 <=? b1)%nat && (b1 <=? 191)%nat
                           else if (b0 =? 244)%nat then
                                  (128 <=? b1)%nat && (b1 <=? 143)%nat
                                else utf8_continuation b)
                          && utf8_continuation c && utf8_continuation d
                          && utf8_valid s4
                        else false
                    end
              end
        end
  end.

(** *** Typed result sets *)

(** An entry as the script stores them: the bytes of the document under
    [Original Document], a text under any other name. *)
Definition typed_entry (entry : string * Value) : bool :=
  match entry.2 with
  | Bytes _ => String.eqb entry.1 original_document
  | Text _ => negb (String.eqb entry.1 original_document)
  end.

Definition typed_results (d : Dict) : bool := forallb typed_entry d.

(** *** The loop over the methods, as a function *)

(** The steps run in order from the world [w] until one raises: the
    entries of the steps that returned, the exception of the step that
    raised when there is one, and the world the last step run has
    left.  The steps after the one that raised are not run. *)
Fixpoint run_until_failure (steps : list (string * M World string))
    (w : World) : Dict * option Exn * World :=
  match steps with
  | [] => ([], None, w)
  | step :: rest =>
      match step.2 w with
      | (Ok text, w') =>
          let '(d, failure, w'') := run_until_failure rest w' in
          ((step.1, Text text) :: d, failure, w'')
      | (Raise e, w') => ([], Some e, w')
      end
  end.

(** What filling a result set does in a session that has none under
    [key]: the steps run in order up to the first one that raises; when
    none raises the original document completes the set, otherwise the
    exception ends the run and the set is left as it stands. *)
Definition fill_run (key message : string)
    (steps : list (string * M World string)) (doc : string) (w : World)
    : Outcome Dict * World :=
  let '(d, failure, w1) := run_until_failure steps w in
  let scr := screen w ++ [Spinner message] in
  match failure with
  | None =>
      let results := d ++ [(original_document, Bytes doc)] in
      (Ok results,
       mkWorld (os w1) (<[key := results]> (session_state w)) scr
         (invocations w1))
  | Some e =>
      (Raise e,
       mkWorld (os w1) (<[key := d]> (session_state w)) scr (invocations w1))
  end.

(** The run on an example document, in a session without a result set
    for it: the steps are the calls of the cache wrapper. *)
Definition example_run (L : Libraries) (choice : ExampleChoice) (doc : string)
    (w : World) : Outcome Dict * World :=
  fill_run (example_key_of choice) "Processing example PDF, please wait..."
    (example_steps L choice) doc w.

(** A step that reads nothing of a world but its operating system and
    its count of calls, and changes nothing else. *)
Definition backstage {A} (act : M World A) : Prop :=
  ∀ w ss scr,
    act (mkWorld (os w) ss scr (invocations w))
    = ((act w).1, mkWorld (os (act w).2) ss scr (invocations (act w).2)).

(** *** The result set of an upload *)



(** * Properties

    The properties of the specification are numbered C1 to C10; each is
    stated, with its number, before the theorem that settles it.  Where
    the script does not do what the specification says, the departure is
    shown on a sample run and the behaviour of the script is stated and
    proved in its place. *)

(** ** Strings and paths *)

Module StrFacts.
Import Str.

Lemma app_nil_l (t : string) : EmptyString +:+ t = t.
Proof. reflexivity. Qed.

Lemma app_cons (a : ascii) (s t : string) :
  String a s +:+ t = String a (s +:+ t).
Proof. reflexivity. Qed.

Lemma app_assoc (s t u : string) : (s +:+ t) +:+ u = s +:+ t +:+ u.
Proof. induction s as [|a s IH]; [done|]. by rewrite !app_cons, IH. Qed.

Lemma app_nil_r (s : string) : s +:+ EmptyString = s.
Proof. induction s as [|a s IH]; [done|]. by rewrite app_cons, IH. Qed.

Lemma mem_app (c : ascii) (s t : string) :
  mem c (s +:+ t) = mem c s || mem c t.
Proof.
  induction s as [|a s IH]; [done|].
  rewrite app_cons. simpl. by destruct (Ascii.eqb a c).
Qed.

Lemma rfind_lower (c : ascii) (s : string) : -1 ≤ rfind c s.
Proof.
  induction s as [|a s IH]; simpl; [lia|].
  destruct (Z.leb_spec 0 (rfind c s)); [lia|].
  destruct (Ascii.eqb a c); lia.
Qed.

Lemma rfind_upper (c : ascii) (s : string) :
  rfind c s < Z.of_nat (String.length s).
Proof.
  induction s as [|a s IH]; simpl String.length; simpl rfind; [lia|].
  destruct (Z.leb_spec 0 (rfind c s)); [lia|].
  destruct (Ascii.eqb a c); lia.
Qed.

Lemma rfind_absent (c : ascii) (s : string) :
  mem c s = false → rfind c s = -1.
Proof.
  induction s as [|a s IH]; simpl; [done|].
  destruct (Ascii.eqb a c); [done|]. intros H. by rewrite (IH H).
Qed.

Lemma rfind_present (c : ascii) (s : string) :
  mem c s = true → 0 ≤ rfind c s.
Proof.
  induction s as [|a s IH]; simpl; [done|].
  destruct (Z.leb_spec 0 (rfind c s)) as [Hr|Hr]; [lia|].
  destruct (Ascii.eqb a c); [lia|]. intros H. specialize (IH H). lia.
Qed.

(** The last occurrence in a concatenation is the last one of the
    right part when there is one. *)
Lemma rfind_app (c : ascii) (s t : string) :
  rfind c (s +:+ t) =
    if 0 <=? rfind c t then Z.of_nat (String.length s) + rfind c t
    else rfind c s.
Proof.
  induction s as [|a s IH].
  - rewrite app_nil_l. simpl String.length. simpl (rfind c EmptyString).
    destruct (Z.leb_spec 0 (rfind c t)); [lia|].
    pose proof (rfind_lower c t). lia.
  - rewrite app_cons. simpl rfind. rewrite IH. simpl String.length.
    destruct (Z.leb_spec 0 (rfind c t)).
    + destruct (Z.leb_spec 0 (Z.of_nat (String.length s) + rfind c t)); lia.
    + done.
Qed.

Lemma drop_app_length (s t : string) : drop (String.length s) (s +:+ t) = t.
Proof. induction s as [|a s IH]; [by destruct t|]. by rewrite app_cons. Qed.

Lemma take_app_length (s t : string) : take (String.length s) (s +:+ t) = s.
Proof.
  induction s as [|a s IH]; [by destruct t|].
  rewrite app_cons. simpl. by rewrite IH.
Qed.

Lemma mem_take (c : ascii) (n : nat) (s : string) :
  mem c s = false → mem c (take n s) = false.
Proof.
  revert n. induction s as [|a s IH]; intros [|n]; simpl; try done.
  destruct (Ascii.eqb a c); [done|]. apply IH.
Qed.

(** Nothing after the last occurrence of [c] contains [c]. *)
Lemma mem_drop_rfind (c : ascii) (s : string) :
  mem c (drop (Z.to_nat (rfind c s + 1)) s) = false.
Proof.
  induction s as [|a s IH]; [done|].
  simpl rfind. pose proof (rfind_lower c s) as Hlo.
  destruct (Z.leb_spec 0 (rfind c s)) as [Hr|Hr].
  - replace (Z.to_nat (rfind c s + 1 + 1)) with (S (Z.to_nat (rfind c s + 1))) by lia.
    exact IH.
  - replace (rfind c s) with (-1) in IH by lia. simpl in IH.
    destruct (Ascii.eqb a c) eqn:Hac; simpl.
    + exact IH.
    + by rewrite Hac.
Qed.

Lemma startswith_app (c : ascii) (s t : string) :
  mem c s = false → startswith c t = false → startswith c (s +:+ t) = false.
Proof.
  destruct s as [|a s]; [done|]. rewrite app_cons. simpl.
  by destruct (Ascii.eqb a c).
Qed.

Lemma slice_one (pre : string) (a : ascii) (t : string) :
  slice (String.length pre) (String.length pre + 1) (pre +:+ String a t)
  = String a EmptyString.
Proof.
  unfold slice. rewrite drop_app_length.
  replace (String.length pre + 1 - String.length pre)%nat with 1%nat by lia.
  done.
Qed.
End StrFacts.

Module OsPathFacts.
Import Str StrFacts OsPath.

Lemma basename_no_sep (p : string) : mem sep (basename p) = false.
Proof. apply mem_drop_rfind. Qed.

Lemma basename_plain (q : string) : mem sep q = false → basename q = q.
Proof. intros H. unfold basename. by rewrite (rfind_absent _ _ H). Qed.

Lemma basename_strips_directory (dir q : string) :
  mem sep q = false → basename (dir +:+ String sep q) = q.
Proof.
  intros H. unfold basename. rewrite rfind_app. simpl rfind.
  rewrite (rfind_absent _ _ H). simpl.
  replace (Z.to_nat (Z.of_nat (String.length dir) + 0 + 1))
    with (String.length (dir +:+ String sep EmptyString)).
  - rewrite <- (drop_app_length (dir +:+ String sep EmptyString) q) at 2.
    by rewrite app_assoc.
  - clear. induction dir as [|a d IH]; [done|].
    rewrite app_cons. simpl String.length. lia.
Qed.

Lemma splitext_root_no_sep (q : string) :
  mem sep q = false → mem sep (fst (splitext q)) = false.
Proof.
  intros H. unfold splitext.
  destruct (_ && _); simpl; [by apply mem_take | done].
Qed.

Lemma skip_leading_dots_spec (pre s rest : string) :
  skip_leading_dots (pre +:+ s +:+ rest) (String.length pre) (String.length s)
  = negb (all_dots s).
Proof.
  revert pre. induction s as [|a s IH]; intros pre; [done|].
  simpl String.length. simpl skip_leading_dots.
  rewrite app_cons, slice_one. simpl all_dots. simpl String.eqb.
  destruct (Ascii.eqb a extsep) eqn:Ha; simpl; [|done].
  specialize (IH (pre +:+ String a EmptyString)).
  rewrite app_assoc in IH. rewrite app_cons in IH.
  replace (String.length (pre +:+ String a EmptyString)) with (S (String.length pre)) in IH.
  - rewrite <- IH. done.
  - clear. induction pre as [|b p IHp]; [done|].
    rewrite app_cons. simpl. by rewrite <- IHp.
Qed.

Lemma splitext_stem_ext (name ext : string) :
  stem_and_extension name ext →
  splitext (name +:+ String extsep ext) = (name, String extsep ext).
Proof.
  intros (Hn & Hd & He & Hx). unfold splitext.
  assert (rfind sep (name +:+ String extsep ext) = -1) as ->.
  { apply rfind_absent. rewrite mem_app, Hn. simpl. exact He. }
  assert (rfind extsep (name +:+ String extsep ext)
          = Z.of_nat (String.length name)) as ->.
  { rewrite rfind_app. simpl rfind. rewrite (rfind_absent _ _ Hx). simpl. lia. }
  replace (Z.to_nat (-1 + 1)) with (String.length EmptyString) by done.
  replace (Z.to_nat (Z.of_nat (String.length name) - (-1 + 1)))
    with (String.length name) by lia.
  rewrite <- (app_nil_l (name +:+ String extsep ext)) at 1.
  rewrite skip_leading_dots_spec, Hd. simpl negb.
  rewrite Nat2Z.id, take_app_length, drop_app_length.
  destruct (Z.ltb_spec (-1) (Z.of_nat (String.length name))); [done|lia].
Qed.

Lemma join_cache (b : string) :
  startswith sep b = false → join "cache" b = "cache/" +:+ b.
Proof. intros H. unfold join. by rewrite H. Qed.
End OsPathFacts.

(** The key is always under [cache]: the stem of a base name has no
    separator, so [os.path.join] never takes the second component for an
    absolute path. *)
Lemma get_cache_filename_unfold (example_path method_slug : string) :
  get_cache_filename example_path method_slug
  = cache_key_of_stem
      (fst (OsPath.splitext (OsPath.basename example_path))) method_slug.
Proof.
  unfold get_cache_filename, cache_key_of_stem.
  apply OsPathFacts.join_cache, StrFacts.startswith_app; [|done].
  apply OsPathFacts.splitext_root_no_sep, OsPathFacts.basename_no_sep.
Qed.

(** C3. The cache key is a function of the path of the document and of
    the method identifier: it is the stem [splitext] finds in the base
    name of the path, followed by ['_'], the method identifier and
    ['.md'], under [cache]; for a path [dir/name.ext], and for [name.ext],
    it is [cache/name_method.md]; and the key of [examples/Ocr.pdf] for
    [pymupdf] is [cache/Ocr_pymupdf.md]. *)
Theorem get_cache_filename_key :
  (∀ example_path method_slug,
     get_cache_filename example_path method_slug
     = cache_key_of_stem
         (fst (OsPath.splitext (OsPath.basename example_path))) method_slug) ∧
  (∀ dir name ext method_slug,
     stem_and_extension name ext →
     get_cache_filename (dir +:+ "/" +:+ name +:+ "." +:+ ext) method_slug
     = cache_key_of_stem name method_slug ∧
     get_cache_filename (name +:+ "." +:+ ext) method_slug
     = cache_key_of_stem name method_slug) ∧
  get_cache_filename "examples/Ocr.pdf" "pymupdf" = "cache/Ocr_pymupdf.md".
Proof.
  split; [exact get_cache_filename_unfold|]. split; [|reflexivity].
  intros dir name ext method_slug Hne.
  pose proof Hne as (Hn & Hd & He & Hx).
  assert (Str.mem OsPath.sep (name +:+ "." +:+ ext) = false) as Hq.
  { rewrite StrFacts.mem_app, Hn. exact He. }
  rewrite !get_cache_filename_unfold.
  change (dir +:+ "/" +:+ name +:+ "." +:+ ext)
    with (dir +:+ String OsPath.sep (name +:+ "." +:+ ext)).
  rewrite (OsPathFacts.basename_strips_directory _ _ Hq).
  rewrite (OsPathFacts.basename_plain _ Hq).
  change (name +:+ "." +:+ ext) with (name +:+ String OsPath.extsep ext).
  by rewrite (OsPathFacts.splitext_stem_ext _ _ Hne).
Qed.

Lemma get_cache_filename_key_witness :
  stem_and_extension "Ocr" "pdf" ∧
  get_cache_filename ("examples" +:+ "/" +:+ "Ocr" +:+ "." +:+ "pdf") "pymupdf"
  = cache_key_of_stem "Ocr" "pymupdf".
Proof.
  assert (stem_and_extension "Ocr" "pdf") as H by (repeat split; reflexivity).
  split; [exact H|].
  exact (proj1 (proj1 (proj2 get_cache_filename_key) "examples" "Ocr" "pdf" "pymupdf" H)).
Defined.

(** ** Running computations *)

Lemma bind_run {St A B} (m : M St A) (k : A → M St B) (s : St) :
  (m ≫= k) s
  = match m s with
    | (Ok a, s') => k a s'
    | (Raise e, s') => (Raise e, s')
    end.
Proof. reflexivity. Qed.

Lemma bind_ok {St A B} (m : M St A) (k : A → M St B) (s s' : St) (a : A) :
  m s = (Ok a, s') → (m ≫= k) s = k a s'.
Proof. intros H. by rewrite bind_run, H. Qed.

Lemma bind_raise {St A B} (m : M St A) (k : A → M St B) (s s' : St) (e : Exn) :
  m s = (Raise e, s') → (m ≫= k) s = (Raise e, s').
Proof. intros H. by rewrite bind_run, H. Qed.

(** ** The adapters *)

Section AdapterFacts.

Context (L : Libraries).

Lemma write_temp_copy_run (stream : BytesIO) (o : OS) :
  write_temp_copy (stream, o)
  = (Ok (length (tmpdir o)),
     (exhausted stream, with_temp_copy (remaining stream) o)).
Proof. reflexivity. Qed.

Lemma on_tmp_file_at {A} (lib : string → Outcome A) (tmp_path : nat)
    (stream : BytesIO) (o : OS) (data : string) :
  tmpdir o !! tmp_path = Some data →
  on_tmp_file tmp_path lib (stream, o) = (lib data, (stream, o)).
Proof. intros H. unfold on_tmp_file. by rewrite H. Qed.

Lemma on_tmp_file_new {A} (lib : string → Outcome A)
    (stream : BytesIO) (o : OS) (data : string) :
  on_tmp_file (length (tmpdir o)) lib (stream, with_temp_copy data o)
  = (lib data, (stream, with_temp_copy data o)).
Proof.
  unfold on_tmp_file, with_temp_copy. simpl.
  by rewrite lookup_app_r, Nat.sub_diag by lia.
Qed.

Lemma ocr_pages_text (i : nat) (images : list (Image L)) (acc : string)
    (s : BytesIO * OS) :
  ocr_pages L i images acc s = (ocr_text L i images acc, s).
Proof.
  revert i acc. induction images as [|img rest IH]; intros i acc; [done|].
  simpl. rewrite bind_run. unfold call.
  destruct (image_to_string L img); [apply IH | done].
Qed.

Lemma page_section_eq (i : nat) (text : string) (rest : list string) :
  page_section i text +:+ page_sections_from (S (S i)) rest
  = page_sections_from (S i) (text :: rest).
Proof.
  unfold page_section. simpl page_sections_from.
  rewrite Nat.add_1_r. by rewrite !StrFacts.app_assoc.
Qed.

Lemma ocr_text_returns (i : nat) (images : list (Image L))
    (texts : list string) (acc : string) :
  Forall2 (λ img text, image_to_string L img = Ok text) images texts →
  ocr_text L i images acc = Ok (acc +:+ page_sections_from (S i) texts).
Proof.
  intros H. revert i acc.
  induction H as [|img text rest texts Himg _ IH]; intros i acc.
  - simpl. by rewrite StrFacts.app_nil_r.
  - simpl ocr_text. rewrite Himg, IH.
    by rewrite StrFacts.app_assoc, page_section_eq.
Qed.

Lemma parse_with_pytesseract_run (stream : BytesIO) (o : OS) :
  parse_with_pytesseract L (stream, o)
  = (pytesseract_text L (remaining stream),
     (exhausted stream, with_temp_copy (remaining stream) o)).
Proof.
  unfold parse_with_pytesseract, pytesseract_text.
  rewrite (bind_ok _ _ _ _ _ (write_temp_copy_run stream o)).
  rewrite bind_run, on_tmp_file_new.
  destruct (convert_from_path L (remaining stream)) as [images|e]; [|done].
  apply ocr_pages_text.
Qed.

Lemma parse_with_docling_run (stream : BytesIO) (o : OS) :
  parse_with_docling L (stream, o)
  = (docling_convert_to_markdown L (remaining stream),
     (exhausted stream,
      set_ssl_unverified true (with_temp_copy (remaining stream) o))).
Proof.
  unfold parse_with_docling.
  rewrite (bind_ok _ _ _ _ _ (write_temp_copy_run stream o)).
  rewrite bind_run. simpl. rewrite bind_run.
  rewrite (on_tmp_file_at _ _ _ _ (remaining stream)).
  2:{ simpl. by rewrite lookup_app_r, Nat.sub_diag by lia. }
  by destruct (docling_convert_to_markdown L (remaining stream)).
Qed.

Lemma parse_with_pymupdf_run (stream : BytesIO) (o : OS) :
  parse_with_pymupdf L (stream, o)
  = (pymupdf_to_markdown L (remaining stream),
     (exhausted stream, with_temp_copy (remaining stream) o)).
Proof.
  unfold parse_with_pymupdf.
  rewrite (bind_ok _ _ _ _ _ (write_temp_copy_run stream o)).
  rewrite bind_run, on_tmp_file_new.
  by destruct (pymupdf_to_markdown L (remaining stream)).
Qed.

Lemma parse_with_mistral_run (stream : BytesIO) (o : OS) :
  parse_with_mistral L (stream, o)
  = (mistral_text L (environ o !! "MISTRAL_API_KEY") (length (tmpdir o))
       (remaining stream),
     (exhausted stream, with_temp_copy (remaining stream) o)).
Proof.
  unfold parse_with_mistral, mistral_text.
  rewrite (bind_ok _ _ _ _ _ (write_temp_copy_run stream o)).
  rewrite bind_run. simpl.
  destruct (credential (environ o !! "MISTRAL_API_KEY")) as [key|]; [|done].
  rewrite bind_run.
  change (mkOS (files o) (dirs o) (tmpdir o ++ [remaining stream])
            (environ o) (ssl_unverified o))
    with (with_temp_copy (remaining stream) o).
  rewrite on_tmp_file_new.
  destruct (mistral_files_upload L key _ _) as [uploaded|e]; [|done].
  rewrite bind_run. unfold call.
  destruct (mistral_get_signed_url L key uploaded) as [url|e]; [|done].
  rewrite bind_run.
  by destruct (mistral_ocr_process L key _ url).
Qed.

End AdapterFacts.

(** ** Substrings *)

Module ContainsFacts.
Import Str StrFacts.

Lemma contains_unfold (sub s : string) :
  contains sub s
  = if String.prefix sub s then true
    else match s with
         | EmptyString => false
         | String _ s' => contains sub s'
         end.
Proof. by destruct s. Qed.

Lemma prefix_app (sub t : string) : String.prefix sub (sub +:+ t) = true.
Proof.
  induction sub as [|a sub IH]; [by destruct t|].
  rewrite app_cons. simpl. by destruct (ascii_dec a a).
Qed.

Lemma contains_prefix (sub t : string) : contains sub (sub +:+ t) = true.
Proof. by rewrite contains_unfold, prefix_app. Qed.

Lemma contains_app_r (sub s t : string) :
  contains sub t = true → contains sub (s +:+ t) = true.
Proof.
  intros H. induction s as [|a s IH]; [done|].
  rewrite app_cons, contains_unfold. by destruct (String.prefix _ _).
Qed.

Lemma drop_all (n : nat) (s : string) :
  (String.length s ≤ n)%nat → drop n s = EmptyString.
Proof.
  revert n. induction s as [|a s IH]; intros [|n] H; simpl in *; try done.
  - lia.
  - apply IH. lia.
Qed.
End ContainsFacts.

Lemma exhausted_remaining (stream : BytesIO) : remaining (exhausted stream) = EmptyString.
Proof. unfold remaining, exhausted. simpl. apply ContainsFacts.drop_all. lia. Qed.

Lemma page_sections_from_cons (n : nat) (text : string) (rest : list string) :
  page_sections_from n (text :: rest)
  = ("### Page " +:+ pretty n +:+ newline +:+ text +:+ newline)
      +:+ newline +:+ page_sections_from (S n) rest.
Proof. simpl page_sections_from. by rewrite !StrFacts.app_assoc. Qed.

Lemma page_sections_contain (n k : nat) (texts : list string) (text : string) :
  texts !! k = Some text →
  Str.contains ("### Page " +:+ pretty (n + k)%nat +:+ newline +:+ text +:+ newline)
    (page_sections_from n texts) = true.
Proof.
  revert n k. induction texts as [|t rest IH]; intros n [|k] H;
    try discriminate H; rewrite page_sections_from_cons.
  - injection H as ->. rewrite Nat.add_0_r.
    apply ContainsFacts.contains_prefix.
  - replace (n + S k)%nat with (S n + k)%nat by lia.
    apply ContainsFacts.contains_app_r, ContainsFacts.contains_app_r, IH.
    exact H.
Qed.

(** C4. For a document that rasterises to [n] page images whose OCR gives
    the texts [texts], [parse_with_pytesseract] returns the sections of the
    pages in page order, each a heading [### Page N] (N from 1 to n)
    followed by the text of the page; a page without text has its section
    all the same, and the output for a one-page document contains
    [### Page 1]. *)
Theorem parse_with_pytesseract_sections (L : Libraries) (stream : BytesIO)
    (o : OS) (images : list (Image L)) (texts : list string) :
  convert_from_path L (remaining stream) = Ok images →
  Forall2 (λ img text, image_to_string L img = Ok text) images texts →
  (parse_with_pytesseract L (stream, o)).1 = Ok (page_sections_from 1 texts) ∧
  (∀ k text, texts !! k = Some text →
     Str.contains ("### Page " +:+ pretty (S k) +:+ newline +:+ text +:+ newline)
       (page_sections_from 1 texts) = true) ∧
  (∀ k, texts !! k = Some EmptyString →
     Str.contains ("### Page " +:+ pretty (S k) +:+ newline +:+ newline)
       (page_sections_from 1 texts) = true) ∧
  (length images = 1%nat →
     Str.contains "### Page 1" (page_sections_from 1 texts) = true).
Proof.
  intros Hconv Hocr. split; [|split; [|split]].
  - rewrite parse_with_pytesseract_run. unfold pytesseract_text. simpl.
    rewrite Hconv. by rewrite (ocr_text_returns L 0 images texts EmptyString Hocr).
  - intros k text Hk. apply (page_sections_contain 1 k texts text Hk).
  - intros k Hk. apply (page_sections_contain 1 k texts EmptyString Hk).
  - intros Hlen. apply Forall2_length in Hocr.
    destruct texts as [|text [|]]; simpl in *; first [lia | done].
Qed.

Lemma parse_with_pytesseract_sections_witness :
  (parse_with_pytesseract (sample_libraries (Ok ["Scanned text"; EmptyString]) (Ok EmptyString))
     (BytesIO_new "%PDF-1.7", sample_os)).1
  = Ok (page_sections_from 1 ["Scanned text"; EmptyString]).
Proof.
  apply (parse_with_pytesseract_sections
           (sample_libraries (Ok ["Scanned text"; EmptyString]) (Ok EmptyString))
           (BytesIO_new "%PDF-1.7") sample_os ["Scanned text"; EmptyString]
           ["Scanned text"; EmptyString]).
  - reflexivity.
  - repeat constructor.
Defined.

(** Each adapter leaves the copy it has made of the document. *)
Lemma parse_with_pytesseract_leaves_temp_copy (L : Libraries) :
  leaves_temp_copy (parse_with_pytesseract L).
Proof. intros stream o. by rewrite parse_with_pytesseract_run. Qed.

Lemma parse_with_docling_leaves_temp_copy (L : Libraries) :
  leaves_temp_copy (parse_with_docling L).
Proof. intros stream o. by rewrite parse_with_docling_run. Qed.

Lemma parse_with_pymupdf_leaves_temp_copy (L : Libraries) :
  leaves_temp_copy (parse_with_pymupdf L).
Proof. intros stream o. by rewrite parse_with_pymupdf_run. Qed.

Lemma parse_with_mistral_leaves_temp_copy (L : Libraries) :
  leaves_temp_copy (parse_with_mistral L).
Proof. intros stream o. by rewrite parse_with_mistral_run. Qed.

(** ** Hoare triples *)

Section HoareRules.

Context {St : Type}.
Implicit Types (P I : St → Prop) (E : Exn → St → Prop).

Lemma hoare_ret {A} P (a : A) (Q : A → St → Prop) E :
  (∀ s, P s → Q a s) → hoare P (mret a) Q E.
Proof. intros H s Hs. by apply H. Qed.

Lemma hoare_raise {A} P (e : Exn) (Q : A → St → Prop) E :
  (∀ s, P s → E e s) → hoare P (raise e) Q E.
Proof. intros H s Hs. by apply H. Qed.

Lemma hoare_bind {A B} P (m : M St A) (R : A → St → Prop)
    (k : A → M St B) (Q : B → St → Prop) E :
  hoare P m R E → (∀ a, hoare (R a) (k a) Q E) → hoare P (m ≫= k) Q E.
Proof.
  intros Hm Hk s Hs. rewrite bind_run. specialize (Hm s Hs).
  destruct (m s) as [[a|e] s']; [by apply Hk | done].
Qed.

Lemma hoare_weaken {A} P P' (m : M St A) (Q Q' : A → St → Prop) E E' :
  hoare P' m Q' E' →
  (∀ s, P s → P' s) → (∀ a s, Q' a s → Q a s) → (∀ e s, E' e s → E e s) →
  hoare P m Q E.
Proof.
  intros Hm HP HQ HE s Hs. specialize (Hm s (HP s Hs)).
  destruct (m s) as [[a|e] s']; auto.
Qed.

Lemma hoare_get P (Q : St → St → Prop) E :
  (∀ s, P s → Q s s) → hoare P get Q E.
Proof. intros H s Hs. by apply H. Qed.

Lemma hoare_modify P (f : St → St) (Q : unit → St → Prop) E :
  (∀ s, P s → Q tt (f s)) → hoare P (modify f) Q E.
Proof. intros H s Hs. by apply H. Qed.

Lemma stable_ret {A} I (a : A) : stable I (mret a).
Proof. by intros s Hs. Qed.

Lemma stable_raise {A} I (e : Exn) : stable I (raise (A:=A) e).
Proof. by intros s Hs. Qed.

Lemma stable_get I : stable I get.
Proof. by intros s Hs. Qed.

Lemma stable_call {A} I (o : Outcome A) : stable I (call o).
Proof. intros s Hs. unfold call. by destruct o. Qed.

Lemma stable_bind {A B} I (m : M St A) (k : A → M St B) :
  stable I m → (∀ a, stable I (k a)) → stable I (m ≫= k).
Proof. intros Hm Hk. by apply (hoare_bind _ _ (λ _, I)). Qed.

Lemma stable_modify I (f : St → St) :
  (∀ s, I s → I (f s)) → stable I (modify f).
Proof. intros H s Hs. by apply H. Qed.

Lemma stable_try_except {A} I (body : M St A) (handler : Exn → M St A) :
  stable I body → (∀ e, stable I (handler e)) →
  stable I (try_except body handler).
Proof.
  intros Hb Hh s Hs. unfold try_except. specialize (Hb s Hs).
  destruct (body s) as [[a|e] s']; [done|]. by apply Hh.
Qed.

Lemma stable_for_each {A} I (xs : list A) (body : A → M St unit) :
  Forall (λ x, stable I (body x)) xs → stable I (for_each xs body).
Proof.
  induction 1 as [|x xs Hx _ IH]; simpl; [apply stable_ret|].
  apply stable_bind; [done|]. intros _. exact IH.
Qed.

End HoareRules.

(** The structure of a computation, rule by rule; what is left are the
    primitive steps. *)
Ltac stable_step :=
  lazymatch goal with
  | |- stable _ (mbind _ _) => apply stable_bind; [|intros ?]
  | |- stable _ (mret _) => apply stable_ret
  | |- stable _ (raise _) => apply stable_raise
  | |- stable _ get => apply stable_get
  | |- stable _ (call _) => apply stable_call
  | |- stable _ (try_except _ _) => apply stable_try_except; [|intros ?]
  | |- stable _ (for_each _ _) =>
      apply stable_for_each;
      repeat (apply List.Forall_cons; [cbv beta iota|]); try apply List.Forall_nil
  | |- stable _ (if ?b then _ else _) => destruct b
  | |- stable _ (match ?x with _ => _ end) => destruct x
  end.

(** ** Steps of the script *)

Section WorldSteps.

Implicit Types (I : World → Prop).

Lemma with_os_run {A} (m : M OS A) (w : World) :
  with_os m w = ((m (os w)).1, set_os (λ _, (m (os w)).2) w).
Proof. unfold with_os. by destruct (m (os w)). Qed.

Lemma invoke_run (parser : Parser) (stream : BytesIO) (w : World) :
  invoke parser stream w
  = ((parser (stream, os w)).1,
     set_os (λ _, (parser (stream, os w)).2.2) (set_invocations S w)).
Proof. unfold invoke. by destruct (parser (stream, os w)) as [r [s' o']]. Qed.

Lemma stable_with_os {A} I (m : M OS A) :
  (∀ w, I w → I (set_os (λ _, (m (os w)).2) w)) → stable I (with_os m).
Proof.
  intros H w Hw. rewrite with_os_run.
  destruct (m (os w)).1; by apply H.
Qed.

Lemma stable_invoke I (parser : Parser) (stream : BytesIO) :
  (∀ w, I w →
     I (set_os (λ _, (parser (stream, os w)).2.2) (set_invocations S w))) →
  stable I (invoke parser stream).
Proof.
  intros H w Hw. rewrite invoke_run.
  destruct (parser (stream, os w)).1; by apply H.
Qed.

Lemma stable_st I (u : Ui) :
  (∀ w, I w → I (set_screen (λ scr, scr ++ [u]) w)) → stable I (st u).
Proof. apply stable_modify. Qed.

End WorldSteps.

(** ** The operating-system calls *)

Section OsFacts.

Lemma read_bytes_state (path : string) (o : OS) :
  (Os.read_bytes path o).2 = o.
Proof.
  unfold Os.read_bytes. rewrite bind_run. simpl.
  destruct (files o !! path); [done|]. by destruct (bool_decide _).
Qed.

Lemma read_bytes_found (path content : string) (o : OS) :
  files o !! path = Some content → Os.read_bytes path o = (Ok content, o).
Proof. intros H. unfold Os.read_bytes. rewrite bind_run. simpl. by rewrite H. Qed.

Lemma read_bytes_missing (path : string) (o : OS) :
  files o !! path = None → ∃ e, Os.read_bytes path o = (Raise e, o).
Proof.
  intros H. unfold Os.read_bytes. rewrite bind_run. simpl. rewrite H.
  destruct (bool_decide _); eauto.
Qed.

Lemma read_text_state (path : string) (o : OS) :
  (Os.read_text path o).2 = o.
Proof.
  unfold Os.read_text. rewrite bind_run.
  pose proof (read_bytes_state path o) as H.
  destruct (Os.read_bytes path o) as [[c|e] o']; simpl in *; by subst.
Qed.

Lemma read_text_found (path content : string) (o : OS) :
  files o !! path = Some content →
  Os.read_text path o = (Ok (universal_newlines content), o).
Proof.
  intros H. unfold Os.read_text.
  by rewrite (bind_ok _ _ _ _ _ (read_bytes_found _ _ _ H)).
Qed.

Lemma write_text_run (path text : string) (o : OS) :
  Os.write_text path text o = (Ok tt, set_files (λ f, <[path := text]> f) o)
  ∨ ∃ e, Os.write_text path text o = (Raise e, o).
Proof.
  unfold Os.write_text. rewrite bind_run. simpl.
  destruct (bool_decide (path ∈ dirs o)); [right; eauto|].
  destruct (_ || _); [by left | right; eauto].
Qed.

Lemma write_text_frame (path text : string) (o : OS) :
  tmpdir (Os.write_text path text o).2 = tmpdir o ∧
  dirs (Os.write_text path text o).2 = dirs o ∧
  environ (Os.write_text path text o).2 = environ o.
Proof. by destruct (write_text_run path text o) as [->|[e ->]]. Qed.

End OsFacts.

(** ** Temporary files are never removed *)

Section TempFiles.

Context (L : Libraries).

Lemma os_set_os (f : OS → OS) (w : World) : os (set_os f w) = f (os w).
Proof. reflexivity. Qed.

Lemma adapter_keeps_temp_files (parser : Parser) (stream : BytesIO)
    (T : list string) :
  leaves_temp_copy parser →
  stable (keeps_temp_files T) (invoke parser stream).
Proof.
  intros Hp. apply stable_invoke. intros w Hw. unfold keeps_temp_files in *.
  specialize (Hp stream (os w)).
  destruct (parser (stream, os w)) as [r [s' o']]. simpl.
  destruct Hp as (_ & -> & _). by apply prefix_app_r.
Qed.

Lemma get_cached_conversion_keeps_temp_files (example_path slug : string)
    (parser : Parser) (T : list string) :
  leaves_temp_copy parser →
  stable (keeps_temp_files T) (get_cached_conversion example_path slug parser).
Proof.
  intros Hp. unfold get_cached_conversion, keeps_temp_files.
  repeat stable_step.
  - apply stable_with_os. intros w Hw. by rewrite os_set_os, read_text_state.
  - apply stable_with_os. intros w Hw. by rewrite os_set_os, read_bytes_state.
  - by apply adapter_keeps_temp_files.
  - apply stable_with_os. intros w Hw.
    by rewrite os_set_os, (proj1 (write_text_frame _ _ _)).
Qed.

End TempFiles.

Section ScriptTempFiles.

Context (L : Libraries).

Lemma script_keeps_temp_files (inp : Inputs) (T : list string) :
  stable (keeps_temp_files T) (script L inp).
Proof.
  pose proof (parse_with_pytesseract_leaves_temp_copy L) as Hocr.
  pose proof (parse_with_docling_leaves_temp_copy L) as Hdoc.
  pose proof (parse_with_pymupdf_leaves_temp_copy L) as Hmu.
  pose proof (parse_with_mistral_leaves_temp_copy L) as Hmis.
  unfold script, ensure_cache_directory, load_pdf, process_uploaded,
    process_example, show_results, display_pdf, getitem, uploaded_methods,
    example_methods, session_setitem, session_get, session_new_dict, st,
    keeps_temp_files in *.
  repeat first
    [ stable_step
    | apply stable_modify; intros ? H; exact H
    | apply (adapter_keeps_temp_files _ _ T); assumption
    | apply (get_cached_conversion_keeps_temp_files _ _ _ T); assumption
    | apply stable_with_os; intros ? H; rewrite os_set_os;
      first [ exact H | by rewrite read_bytes_state ] ].
  all: idtac.
Qed.

End ScriptTempFiles.

(** ** The cache wrapper *)

Section CacheWrapper.

Lemma world_eta (w : World) : set_os (λ _, os w) w = w.
Proof. by destruct w. Qed.

Lemma path_exists_file (path content : string) (o : OS) :
  files o !! path = Some content → Os.path_exists path o = true.
Proof.
  intros H. unfold Os.path_exists. rewrite H.
  by rewrite bool_decide_eq_true_2 by eauto.
Qed.

Lemma path_exists_false (path : string) (o : OS) :
  Os.path_exists path o = false → files o !! path = None ∧ path ∉ dirs o.
Proof.
  unfold Os.path_exists. intros [H1 H2]%orb_false_iff.
  apply bool_decide_eq_false in H1, H2. split; [|done].
  destruct (files o !! path) eqn:E; [|done]. destruct H1; eauto.
Qed.

(** A cache hit: the text of the file is returned, whatever the parser
    and whatever the document, and nothing changes. *)
Lemma get_cached_conversion_hit (example_path slug content : string)
    (parser : Parser) (w : World) :
  files (os w) !! get_cache_filename example_path slug = Some content →
  get_cached_conversion example_path slug parser w
  = (Ok (universal_newlines content), w).
Proof.
  intros H. unfold get_cached_conversion. rewrite bind_run. simpl.
  rewrite (path_exists_file _ _ _ H), bind_run, with_os_run.
  rewrite (read_text_found _ _ _ H). simpl. by rewrite world_eta.
Qed.

(** A cache miss: the document is read, the parser is called once, and
    its result is written and returned; when the parser raises nothing
    is written. *)
Lemma get_cached_conversion_miss (example_path slug pdf_bytes : string)
    (parser : Parser) (w : World) :
  Os.path_exists (get_cache_filename example_path slug) (os w) = false →
  files (os w) !! example_path = Some pdf_bytes →
  get_cached_conversion example_path slug parser w
  = let '(r, (_, o')) := parser (BytesIO_new pdf_bytes, os w) in
    let w' := set_os (λ _, o') (set_invocations S w) in
    match r with
    | Ok result =>
        let '(written, o'') :=
          Os.write_text (get_cache_filename example_path slug) result o' in
        match written with
        | Ok _ => (Ok result, set_os (λ _, o'') w')
        | Raise e => (Raise e, set_os (λ _, o'') w')
        end
    | Raise e => (Raise e, w')
    end.
Proof.
  intros Hmiss Hdoc. unfold get_cached_conversion. rewrite bind_run. simpl.
  rewrite Hmiss, bind_run, with_os_run, (read_bytes_found _ _ _ Hdoc).
  simpl. rewrite world_eta, bind_run, invoke_run.
  destruct (parser (BytesIO_new pdf_bytes, os w)) as [[result|e] [s' o']];
    [|done].
  simpl. rewrite bind_run, with_os_run. simpl.
  by destruct (Os.write_text _ result o') as [[[]|e] o''].
Qed.

End CacheWrapper.

(** ** Universal newlines *)

Section UniversalNewlines.

Lemma universal_newlines_without_cr (s : string) :
  Str.mem CR s = false → universal_newlines s = s.
Proof.
  induction s as [|a s IH]; [done|]. simpl.
  destruct (Ascii.eqb a CR); [done|]. intros H. by rewrite (IH H).
Qed.

Lemma universal_newlines_cons (c : ascii) (s : string) :
  universal_newlines (String c s)
  = if Ascii.eqb c CR then
      match s with
      | String c' s'' =>
          if Ascii.eqb c' LF then String LF (universal_newlines s'')
          else String LF (universal_newlines s)
      | EmptyString => String LF EmptyString
      end
    else String c (universal_newlines s).
Proof. reflexivity. Qed.

Lemma universal_newlines_no_cr_upto (n : nat) (s : string) :
  (String.length s ≤ n)%nat → Str.mem CR (universal_newlines s) = false.
Proof.
  revert s. induction n as [|n IH]; intros [|a s] Hlen;
    try done; cbn [String.length] in Hlen; try lia.
  rewrite universal_newlines_cons. destruct (Ascii.eqb a CR) eqn:Ha.
  - destruct s as [|b s]; [done|]. cbn [String.length] in Hlen.
    destruct (Ascii.eqb b LF); cbn [Str.mem];
      change (Ascii.eqb LF CR) with false; cbv iota; apply IH;
      cbn [String.length]; lia.
  - cbn [Str.mem]. rewrite Ha. apply IH. lia.
Qed.

Lemma universal_newlines_no_cr (s : string) :
  Str.mem CR (universal_newlines s) = false.
Proof. by apply (universal_newlines_no_cr_upto (String.length s)). Qed.

Lemma universal_newlines_idempotent (s : string) :
  universal_newlines (universal_newlines s) = universal_newlines s.
Proof. apply universal_newlines_without_cr, universal_newlines_no_cr. Qed.

End UniversalNewlines.

Section CacheRoundTrip.

(** After a call that returned, a second call with the same key returns
    the text of the cache file without calling its parser, whatever that
    parser is, and changes nothing: over the two calls a parser has been
    called at most once.  The text returned is the first result with its
    carriage returns turned into line feeds. *)
Lemma get_cached_conversion_twice (example_path slug : string)
    (f g : Parser) (w w' : World) (r : string) :
  get_cached_conversion example_path slug f w = (Ok r, w') →
  get_cached_conversion example_path slug g w'
  = (Ok (universal_newlines r), w') ∧
  (invocations w' ≤ S (invocations w))%nat ∧
  ∃ content,
    files (os w') !! get_cache_filename example_path slug = Some content ∧
    universal_newlines content = universal_newlines r.
Proof.
  intros Hfirst.
  destruct (Os.path_exists (get_cache_filename example_path slug) (os w))
    eqn:Hex.
  - destruct (files (os w) !! get_cache_filename example_path slug)
      as [content|] eqn:Hfile.
    + rewrite (get_cached_conversion_hit _ _ _ _ _ Hfile) in Hfirst.
      injection Hfirst as <- <-.
      rewrite (get_cached_conversion_hit _ _ _ _ _ Hfile).
      rewrite universal_newlines_idempotent.
      split; [done|]. split; [lia|]. by exists content.
    + exfalso. revert Hfirst. unfold get_cached_conversion.
      rewrite bind_run. simpl. rewrite Hex, bind_run, with_os_run.
      destruct (read_bytes_missing _ _ Hfile) as [e He].
      unfold Os.read_text. by rewrite (bind_raise _ _ _ _ _ He).
  - destruct (files (os w) !! example_path) as [pdf_bytes|] eqn:Hdoc.
    + rewrite (get_cached_conversion_miss _ _ _ _ _ Hex Hdoc) in Hfirst.
      destruct (f (BytesIO_new pdf_bytes, os w)) as [[result|e] [s' o']];
        [|done].
      simpl in Hfirst.
      destruct (write_text_run (get_cache_filename example_path slug)
                  result o') as [Hw|[e Hw]];
        rewrite Hw in Hfirst; [|done].
      injection Hfirst as <- <-.
      assert (files (os (set_os
                (λ _, set_files
                        (λ fs, <[get_cache_filename example_path slug:=result]> fs)
                        o')
                (set_os (λ _, o') (set_invocations S w))))
              !! get_cache_filename example_path slug = Some result) as Hfile
        by apply lookup_insert_eq.
      rewrite (get_cached_conversion_hit _ _ _ _ _ Hfile).
      split; [done|]. split; [simpl; lia|]. by exists result.
    + exfalso. revert Hfirst. unfold get_cached_conversion.
      rewrite bind_run. simpl. rewrite Hex, bind_run, with_os_run.
      destruct (read_bytes_missing _ _ Hdoc) as [e He]. by rewrite He.
Qed.

(** A result without carriage returns comes back unchanged. *)
Lemma get_cached_conversion_round_trip (example_path slug : string)
    (f g : Parser) (w w' : World) (r : string) :
  get_cached_conversion example_path slug f w = (Ok r, w') →
  Str.mem CR r = false →
  get_cached_conversion example_path slug g w' = (Ok r, w').
Proof.
  intros Hfirst Hcr.
  destruct (get_cached_conversion_twice _ _ f g _ _ _ Hfirst) as [-> _].
  by rewrite (universal_newlines_without_cr _ Hcr).
Qed.

(** When the parser raises, so does the wrapper, and it writes nothing:
    the files are those the parser has left. *)
Lemma get_cached_conversion_failure (example_path slug pdf_bytes : string)
    (parser : Parser) (w : World) (e : Exn) :
  Os.path_exists (get_cache_filename example_path slug) (os w) = false →
  files (os w) !! example_path = Some pdf_bytes →
  (parser (BytesIO_new pdf_bytes, os w)).1 = Raise e →
  (get_cached_conversion example_path slug parser w).1 = Raise e ∧
  os (get_cached_conversion example_path slug parser w).2
  = (parser (BytesIO_new pdf_bytes, os w)).2.2.
Proof.
  intros Hex Hdoc Hraise.
  rewrite (get_cached_conversion_miss _ _ _ _ _ Hex Hdoc).
  destruct (parser (BytesIO_new pdf_bytes, os w)) as [r [s' o']].
  simpl in Hraise. by subst r.
Qed.

End CacheRoundTrip.

(** C1, where the code departs from it. A conversion with a Windows line
    ending is returned as computed by the first call and with a POSIX line
    ending by the second, which reads the cache file in text mode: the two
    calls with the same key return different texts. *)
Theorem get_cached_conversion_carriage_return :
  let L := sample_libraries (Ok []) (Ok crlf_text) in
  let first :=
    get_cached_conversion "examples/Ocr.pdf" "pymupdf" (parse_with_pymupdf L)
      sample_world in
  let second :=
    get_cached_conversion "examples/Ocr.pdf" "pymupdf" (parse_with_pymupdf L)
      first.2 in
  first.1 = Ok crlf_text ∧
  files (os first.2) !! "cache/Ocr_pymupdf.md" = Some crlf_text ∧
  second.1 = Ok lf_text ∧
  invocations second.2 = 1%nat ∧
  first.1 ≠ second.1.
Proof. vm_compute. repeat split; discriminate. Qed.

(** ** The session *)

Section SessionFacts.

Lemma st_run (u : Ui) (w : World) :
  st u w = (Ok tt, set_screen (λ scr, scr ++ [u]) w).
Proof. reflexivity. Qed.

Lemma session_get_run (key : string) (d : Dict) (w : World) :
  session_state w !! key = Some d → session_get key w = (Ok d, w).
Proof. intros H. unfold session_get. rewrite bind_run. simpl. by rewrite H. Qed.

Lemma session_setitem_run (key k : string) (v : Value) (d : Dict) (w : World) :
  session_state w !! key = Some d →
  session_setitem key k v w
  = (Ok tt, set_session_state (λ ss, <[key := dict_set k v d]> ss) w).
Proof.
  intros H. unfold session_setitem.
  by rewrite (bind_ok _ _ _ _ _ (session_get_run _ _ _ H)).
Qed.

Lemma session_has_false (key : string) (w : World) :
  session_state w !! key = None → session_has key w = false.
Proof.
  intros H. unfold session_has. rewrite H.
  apply bool_decide_eq_false_2. by intros [? ?].
Qed.

Lemma session_has_true (key : string) (d : Dict) (w : World) :
  session_state w !! key = Some d → session_has key w = true.
Proof.
  intros H. unfold session_has. rewrite H.
  apply bool_decide_eq_true_2. eauto.
Qed.

End SessionFacts.

(** ** Equality of worlds *)

Lemma world_eq (o o' : OS) (ss ss' : gmap string Dict) (scr scr' : list Ui)
    (n n' : nat) :
  o = o' → ss = ss' → scr = scr' → n = n' →
  mkWorld o ss scr n = mkWorld o' ss' scr' n'.
Proof. by intros -> -> -> ->. Qed.

Lemma os_eq (f f' : gmap string string) (d d' : gset string)
    (t t' : list string) (e e' : gmap string string) (b b' : bool) :
  f = f' → d = d' → t = t' → e = e' → b = b' →
  mkOS f d t e b = mkOS f' d' t' e' b'.
Proof. by intros -> -> -> -> ->. Qed.

Lemma run_eq {A} (r r' : Outcome A) (w w' : World) :
  r = r' → w = w' → (r, w) = (r', w').
Proof. by intros -> ->. Qed.

(** Updates of explicit worlds, carried out. *)
Ltac normal_world :=
  unfold set_os, set_session_state, set_screen, set_invocations,
    with_temp_copy, set_tmpdir, set_ssl_unverified, set_files, set_dirs;
  cbn [os session_state screen invocations files dirs tmpdir environ
       ssl_unverified fst snd dict_set String.eqb Ascii.eqb Bool.eqb].

(** Two results of a run are equal when their outcomes are and the
    worlds agree field by field. *)
Ltac solve_world_eq :=
  unfold after_methods; normal_world; cbn [length];
  apply run_eq;
  [ try done
  | apply world_eq;
    [ apply os_eq;
      cbn [replicate]; rewrite <- ?app_assoc; cbn [app]; try done
    | rewrite ?insert_insert_eq; try done
    | try done
    | try lia ] ].

(** ** The uploaded branch *)

Section UploadedBranch.

Context (L : Libraries).

(** One turn of the loop of the uploaded branch. *)
Lemma uploaded_step (name doc : string) (parser : Parser) (d : Dict)
    (w : World) :
  session_state w !! "results" = Some d →
  (invoke parser (BytesIO_new doc)
     ≫= λ r, session_setitem "results" name (Text r)) w
  = let w1 := set_os (λ _, (parser (BytesIO_new doc, os w)).2.2)
                (set_invocations S w) in
    match (parser (BytesIO_new doc, os w)).1 with
    | Ok text =>
        (Ok tt,
         set_session_state
           (λ ss, <["results" := dict_set name (Text text) d]> ss) w1)
    | Raise e => (Raise e, w1)
    end.
Proof.
  intros H. rewrite bind_run, invoke_run.
  destruct (parser (BytesIO_new doc, os w)).1 as [text|e]; [|done].
  by rewrite (session_setitem_run _ _ _ d).
Qed.

Lemma process_uploaded_fresh (doc : string) (w : World) :
  session_state w !! "results" = None →
  process_uploaded L doc w = uploaded_run L doc w.
Proof.
  intros Hfresh.
  unfold process_uploaded, uploaded_run, uploaded_methods, extraction_outcomes.
  rewrite bind_run. cbn [get]. rewrite (session_has_false _ _ Hfresh).
  destruct w as [[fs ds ts env ssl] ss scr n].
  cbn [negb]. rewrite bind_run, bind_run, st_run, bind_run.
  cbn [session_new_dict modify for_each].
  rewrite bind_run, bind_run. normal_world.
  rewrite (uploaded_step _ _ _ []) by apply lookup_insert_eq.
  rewrite parse_with_pytesseract_run.
  change (remaining (BytesIO_new doc)) with doc. normal_world.
  destruct (pytesseract_text L doc) as [t1|e1];
    cbn [collect_until_failure]; [|by solve_world_eq].
  rewrite bind_run, insert_insert_eq.
  rewrite (uploaded_step _ _ _ [("Pytesseract OCR", Text t1)])
    by apply lookup_insert_eq.
  rewrite parse_with_docling_run.
  change (remaining (BytesIO_new doc)) with doc. normal_world.
  destruct (docling_convert_to_markdown L doc) as [t2|e2];
    cbn [collect_until_failure]; [|by solve_world_eq].
  rewrite bind_run, insert_insert_eq.
  rewrite (uploaded_step _ _ _
             [("Pytesseract OCR", Text t1); ("Docling Conversion", Text t2)])
    by apply lookup_insert_eq.
  rewrite parse_with_pymupdf_run.
  change (remaining (BytesIO_new doc)) with doc. normal_world.
  destruct (pymupdf_to_markdown L doc) as [t3|e3];
    cbn [collect_until_failure]; [|by solve_world_eq].
  rewrite bind_run, insert_insert_eq.
  rewrite (uploaded_step _ _ _
             [("Pytesseract OCR", Text t1); ("Docling Conversion", Text t2);
              ("PyMuPDF Conversion", Text t3)])
    by apply lookup_insert_eq.
  rewrite parse_with_mistral_run.
  change (remaining (BytesIO_new doc)) with doc. normal_world.
  rewrite !length_app. cbn [length].
  replace (length ts + 1 + 1 + 1)%nat with (length ts + 3)%nat by lia.
  destruct (mistral_text L _ _ doc) as [t4|e4];
    cbn [collect_until_failure]; [|by solve_world_eq].
  cbn [mret M_ret]. rewrite insert_insert_eq.
  erewrite session_setitem_run by apply lookup_insert_eq.
  erewrite session_get_run by apply lookup_insert_eq.
  normal_world. by solve_world_eq.
Qed.

End UploadedBranch.

(** Running a sequence of steps whose outcomes are known. *)
Ltac run_steps :=
  repeat progress
    (rewrite ?bind_run, ?st_run; cbn [mret M_ret raise get modify fst snd]).

(** ** The script around the processing *)

Section ScriptFrame.

Context (L : Libraries).

Lemma ensure_cache_directory_run (w : World) :
  ensure_cache_directory w = (Ok tt, set_os with_cache_directory w).
Proof.
  unfold ensure_cache_directory. rewrite bind_run.
  cbn [get]. destruct w as [o ss scr n].
  unfold set_os, with_cache_directory. cbn [os session_state screen invocations].
  by destruct (Os.path_exists "cache" o).
Qed.

(** The script up to the processing of the document. *)
Lemma script_top (inp : Inputs) (w : World) :
  script L inp w
  = (load_pdf inp ≫= λ '(pdf_source, pdf_bytes),
       match has_content pdf_bytes with
       | Some pdf_bytes =>
           (match pdf_source with
            | Uploaded => process_uploaded L pdf_bytes
            | Example => process_example L (example_choice inp) pdf_bytes
            end) ≫= show_results L inp
       | None =>
           st (Info "Please upload a PDF or select an example from the sidebar.")
       end)
      (mkWorld (with_cache_directory (os w)) (session_state w)
         (screen w ++ page_top) (invocations w)).
Proof.
  unfold script. rewrite bind_run, ensure_cache_directory_run.
  do 4 (rewrite bind_run, st_run).
  match goal with |- _ ?w1 = _ ?w2 => replace w1 with w2; [done|] end.
  destruct w as [o ss scr n]. unfold set_screen, set_os, page_top.
  cbn [os session_state screen invocations].
  by rewrite <- !app_assoc.
Qed.

Lemma script_uploaded (inp : Inputs) (doc : string) (w : World) :
  uploaded_file inp = Some doc →
  script L inp w
  = match has_content (Some doc) with
    | Some pdf_bytes =>
        (process_uploaded L pdf_bytes ≫= show_results L inp)
          (loaded (SidebarSuccess "PDF uploaded successfully!") w)
    | None =>
        st (Info "Please upload a PDF or select an example from the sidebar.")
          (loaded (SidebarSuccess "PDF uploaded successfully!") w)
    end.
Proof.
  intros Hup. rewrite script_top. unfold load_pdf. rewrite Hup.
  rewrite !bind_run, st_run. cbn [mret M_ret fst snd].
  replace (set_screen _ _)
    with (loaded (SidebarSuccess "PDF uploaded successfully!") w).
  - by destruct (has_content (Some doc)).
  - unfold loaded, set_screen. cbn [os session_state screen invocations].
    by rewrite <- !app_assoc.
Qed.

Lemma process_uploaded_again (doc : string) (d : Dict) (w : World) :
  session_state w !! "results" = Some d →
  process_uploaded L doc w = (Ok d, w).
Proof.
  intros H. unfold process_uploaded. rewrite bind_run. cbn [get].
  rewrite (session_has_true _ _ _ H). cbn [negb].
  rewrite bind_run. cbn [mret M_ret]. by apply session_get_run.
Qed.

(** [show_results] reads nothing of the world and only adds to the
    page. *)
Lemma show_results_run (inp : Inputs) (results : Dict) (w : World) :
  show_results L inp results w
  = ((page_of L inp results).1,
     set_screen (λ scr, scr ++ (page_of L inp results).2) w).
Proof.
  unfold page_of, show_results, display_pdf, getitem.
  destruct w as [o ss scr n].
  destruct (dict_mem original_document results); cbn [negb].
  - destruct (String.eqb (radio_value (dict_keys results) (method_choice inp))
                original_document).
    + destruct (dict_get original_document results); run_steps;
        unfold set_screen; cbn [os session_state screen invocations app];
        by rewrite <- ?app_assoc.
    + destruct (dict_get _ results); run_steps;
        unfold set_screen; cbn [os session_state screen invocations app];
        by rewrite <- ?app_assoc.
  - run_steps.
    unfold set_screen; cbn [os session_state screen invocations app].
    by rewrite <- ?app_assoc.
Qed.

End ScriptFrame.

(** ** Filling a result set *)

Section Filling.

Lemma dict_keys_set_new (k : string) (v : Value) (d : Dict) :
  k ∉ dict_keys d → dict_keys (dict_set k v d) = dict_keys d ++ [k].
Proof.
  unfold dict_keys. induction d as [|[k' v'] d IH]; intros Hk; [done|].
  cbn [dict_set]. destruct (String.eqb_spec k' k) as [->|Hne].
  - exfalso. apply Hk. cbn. by left.
  - cbn. rewrite IH; [done|]. intros Hin. apply Hk. cbn. by right.
Qed.

Lemma dict_get_keys (k : string) (d : Dict) :
  is_Some (dict_get k d) ↔ k ∈ dict_keys d.
Proof.
  unfold dict_keys. induction d as [|[k' v'] d IH]; cbn [dict_get].
  - split; [by intros [? ?] | by intros ?%elem_of_nil].
  - destruct (String.eqb_spec k' k) as [->|Hne]; cbn.
    + split; [intros _; by left | eauto].
    + rewrite IH. split; [by right|].
      intros [?|?]%elem_of_cons; [congruence | done].
Qed.

Lemma dict_mem_keys (k : string) (d : Dict) :
  dict_mem k d = true ↔ k ∈ dict_keys d.
Proof. unfold dict_mem. rewrite bool_decide_eq_true. apply dict_get_keys. Qed.

Context (key : string) (ss0 : gmap string Dict) (scr0 : list Ui).

(** One turn of a loop that fills the set: the step runs off stage and
    its result is stored under a new name; when it raises the set is as
    it was. *)
Lemma fill_step (name : string) (act : M World string) (ks : list string) :
  name ∉ ks → off_stage act →
  hoare (filling key ss0 scr0 ks)
    (act ≫= λ r, session_setitem key name (Text r))
    (λ _, filling key ss0 scr0 (ks ++ [name]))
    (λ _, filling key ss0 scr0 ks).
Proof.
  intros Hname Hact w (d & Hss & Hks & Hscr).
  rewrite bind_run.
  pose proof (Hact (session_state w) (screen w) w (conj eq_refl eq_refl))
    as Hframe.
  destruct (act w) as [[r|e] w1]; destruct Hframe as [Hss1 Hscr1].
  - rewrite (session_setitem_run _ _ _ d)
      by (by rewrite Hss1, Hss, lookup_insert_eq).
    exists (dict_set name (Text r) d). cbn [session_state set_session_state
      screen]. rewrite Hss1, Hss, insert_insert_eq.
    split; [done|]. split; [|congruence].
    rewrite dict_keys_set_new; by rewrite Hks.
  - exists d. split; [congruence|]. split; [done | congruence].
Qed.

(** The loop: it returns with all the names added, or raises with the
    names of the steps before the failing one. *)
Lemma fill_loop {X} (name : X → string) (act : X → M World string)
    (xs : list X) (ks : list string) :
  NoDup (ks ++ (name <$> xs)) →
  (∀ x, x ∈ xs → off_stage (act x)) →
  hoare (filling key ss0 scr0 ks)
    (for_each xs (λ x, act x ≫= λ r, session_setitem key (name x) (Text r)))
    (λ _, filling key ss0 scr0 (ks ++ (name <$> xs)))
    (λ _ w, ∃ j, (j < length xs)%nat ∧
                 filling key ss0 scr0 (ks ++ take j (name <$> xs)) w).
Proof.
  revert ks. induction xs as [|x xs IH]; intros ks Hdup Hact.
  - apply hoare_ret. intros w Hw. by rewrite app_nil_r.
  - cbn [for_each fmap list_fmap].
    apply (hoare_bind _ _ (λ _, filling key ss0 scr0 (ks ++ [name x]))).
    + eapply hoare_weaken.
      * apply fill_step; [|apply Hact; by left].
        apply NoDup_app in Hdup as (_ & Hdup & _).
        intros Hin. apply (Hdup _ Hin). by left.
      * done.
      * done.
      * intros e w Hw. exists 0%nat. cbn. rewrite app_nil_r. split; [lia|done].
    + intros _. eapply hoare_weaken.
      * apply (IH (ks ++ [name x])).
        -- by rewrite <- app_assoc.
        -- intros y Hy. apply Hact. by right.
      * done.
      * intros a w Hw. cbv beta in *. by rewrite <- app_assoc in Hw.
      * intros e w (j & Hj & Hw). exists (S j). split; [cbn; lia|]. cbn [take].
        by rewrite <- app_assoc in Hw.
Qed.

End Filling.

(** ** The two branches that process a document *)

Section Branches.

Context (L : Libraries).

Lemma process_uploaded_shape (doc : string) :
  process_uploaded L doc
  = fill_result_set "results" "Processing uploaded PDF, please wait..."
      (uploaded_steps L doc) doc.
Proof. reflexivity. Qed.

Lemma process_example_shape (choice : ExampleChoice) (doc : string) :
  process_example L choice doc
  = fill_result_set (example_key_of choice)
      "Processing example PDF, please wait..." (example_steps L choice) doc.
Proof. reflexivity. Qed.

Lemma invoke_off_stage (parser : Parser) (stream : BytesIO) :
  off_stage (invoke parser stream).
Proof. intros ss scr. by apply stable_invoke. Qed.

Lemma get_cached_conversion_off_stage (example_path slug : string)
    (parser : Parser) :
  off_stage (get_cached_conversion example_path slug parser).
Proof.
  intros ss scr. unfold get_cached_conversion.
  repeat first
    [ stable_step
    | by apply stable_with_os
    | by apply stable_invoke ].
Qed.

Lemma uploaded_steps_names (doc : string) :
  (uploaded_steps L doc).*1 = method_names.
Proof. reflexivity. Qed.

Lemma example_steps_names (choice : ExampleChoice) :
  (example_steps L choice).*1 = method_names.
Proof. reflexivity. Qed.

Lemma uploaded_steps_off_stage (doc : string) :
  ∀ step, step ∈ uploaded_steps L doc → off_stage step.2.
Proof.
  intros step Hin. unfold uploaded_steps, uploaded_methods in Hin.
  cbn in Hin. set_unfold in Hin.
  destruct Hin as [->|[->|[->|[->|[]]]]]; apply invoke_off_stage.
Qed.

Lemma example_steps_off_stage (choice : ExampleChoice) :
  ∀ step, step ∈ example_steps L choice → off_stage step.2.
Proof.
  intros step Hin. unfold example_steps, example_methods in Hin.
  cbn in Hin. set_unfold in Hin.
  destruct Hin as [->|[->|[->|[->|[]]]]];
    apply get_cached_conversion_off_stage.
Qed.

End Branches.

Lemma result_set_names_nodup : NoDup result_set_names.
Proof. apply (bool_decide_unpack _). by vm_compute. Qed.

Lemma method_names_nodup : NoDup method_names.
Proof.
  pose proof result_set_names_nodup as H. unfold result_set_names in H.
  by apply NoDup_app in H as (H & _ & _).
Qed.

Lemma original_document_not_method : original_document ∉ method_names.
Proof.
  pose proof result_set_names_nodup as H. unfold result_set_names in H.
  apply NoDup_app in H as (_ & H & _). intros Hin. apply (H _ Hin). by left.
Qed.

Section FillResultSet.

Context (key message : string) (steps : list (string * M World string))
  (doc : string).

Lemma fill_result_set_again (d : Dict) (w : World) :
  session_state w !! key = Some d →
  fill_result_set key message steps doc w = (Ok d, w).
Proof.
  intros H. unfold fill_result_set. rewrite bind_run. cbn [get].
  rewrite (session_has_true _ _ _ H). cbn [negb].
  rewrite bind_run. cbn [mret M_ret]. by apply session_get_run.
Qed.

Lemma dict_get_set (k : string) (v : Value) (d : Dict) :
  dict_get k (dict_set k v d) = Some v.
Proof.
  induction d as [|[k' v'] d IH]; cbn [dict_set dict_get].
  - by rewrite String.eqb_refl.
  - destruct (String.eqb k' k) eqn:E; cbn [dict_get].
    + by rewrite String.eqb_refl.
    + by rewrite E.
Qed.

(** In a session without a dictionary under [key]: the run returns the
    complete set, now in the session, or raises and leaves in the
    session the entries of the steps before the failing one. *)
Lemma fill_result_set_fresh (w0 : World) :
  steps.*1 = method_names →
  (∀ step, step ∈ steps → off_stage step.2) →
  session_state w0 !! key = None →
  match fill_result_set key message steps doc w0 with
  | (Ok d, w) =>
      dict_keys d = result_set_names ∧
      dict_get original_document d = Some (Bytes doc) ∧
      session_state w = <[key := d]> (session_state w0) ∧
      screen w = screen w0 ++ [Spinner message]
  | (Raise e, w) =>
      ∃ d j, (j < length method_names)%nat ∧
             dict_keys d = take j method_names ∧
             session_state w = <[key := d]> (session_state w0) ∧
             screen w = screen w0 ++ [Spinner message]
  end.
Proof.
  intros Hnames Hoff Hfresh. unfold fill_result_set.
  rewrite bind_run. cbn [get]. rewrite (session_has_false _ _ Hfresh).
  cbn [negb]. rewrite bind_run, bind_run, st_run, bind_run.
  cbn [session_new_dict modify]. rewrite bind_run.
  pose proof (fill_loop key (session_state w0)
                (screen w0 ++ [Spinner message]) fst snd steps []) as Hloop.
  cbn [app] in Hloop. rewrite Hnames in Hloop.
  specialize (Hloop method_names_nodup Hoff).
  match goal with
  | |- context [for_each steps ?body ?w1] =>
      specialize (Hloop w1); destruct (for_each steps body w1) as [[[]|e] w2]
  end.
  - destruct Hloop as (d & Hss & Hks & Hscr).
    { exists []. by rewrite insert_insert_eq || idtac. }
    rewrite (session_setitem_run _ _ _ d)
      by (by rewrite Hss, lookup_insert_eq).
    rewrite (session_get_run _ (dict_set original_document (Bytes doc) d))
      by (cbn; by rewrite Hss, insert_insert_eq, lookup_insert_eq).
    cbn [session_state set_session_state screen].
    rewrite Hss, insert_insert_eq, dict_get_set.
    repeat split; [|done].
    rewrite dict_keys_set_new; rewrite Hks; [done|].
    apply original_document_not_method.
  - destruct Hloop as (j & Hj & d & Hss & Hks & Hscr).
    { exists []. by rewrite insert_insert_eq || idtac. }
    exists d, j. rewrite <- Hnames at 1. by rewrite length_fmap.
Qed.

End FillResultSet.

Lemma try_except_run {St A} (body : M St A) (handler : Exn → M St A) (s : St) :
  try_except body handler s
  = match body s with
    | (Ok a, s') => (Ok a, s')
    | (Raise e, s') => handler e s'
    end.
Proof. reflexivity. Qed.

(** ** A missing example file *)

Lemma with_cache_directory_files (o : OS) :
  files (with_cache_directory o) = files o.
Proof. unfold with_cache_directory. by destruct (Os.path_exists "cache" o). Qed.

(** C9. When no file is uploaded and the example file does not exist, the
    run ends normally: the page shows its top, the message that the
    example file was not found and the invitation to upload or select a
    document; the session is as it was (no result set is made) and no
    parser has been called. *)
Theorem missing_example_file_reported (L : Libraries) (inp : Inputs)
    (w : World) :
  uploaded_file inp = None →
  Os.path_exists (example_path_of (example_choice inp)) (os w) = false →
  rerun L inp w
  = (Ok tt,
     mkWorld (with_cache_directory (os w)) (session_state w)
       (page_top ++
        [ SidebarError ("Example file not found: "
                        +:+ example_path_of (example_choice inp));
          Info "Please upload a PDF or select an example from the sidebar." ])
       (invocations w)).
Proof.
  intros Hup Hmissing. unfold rerun. rewrite script_top.
  apply path_exists_false in Hmissing as [Hfile _].
  destruct w as [o ss scr n].
  unfold load_pdf, set_screen. cbn [os session_state screen invocations app].
  rewrite Hup.
  destruct (read_bytes_missing (example_path_of (example_choice inp))
              (with_cache_directory o)) as [e He].
  { by rewrite with_cache_directory_files. }
  match goal with
  | |- context [with_os ?m] =>
      assert (∀ w, os w = with_cache_directory o → with_os m w = (Raise e, w))
        as Hread
  end.
  { intros w Hw. rewrite with_os_run, Hw, He. cbn [fst snd].
    by rewrite <- Hw, world_eta. }
  rewrite bind_run, bind_run, try_except_run.
  erewrite (bind_raise (with_os _)) by (by apply Hread).
  run_steps. unfold set_screen. cbn [os session_state screen invocations].
  cbn [has_content]. rewrite st_run. unfold set_screen.
  cbn [os session_state screen invocations]. by rewrite <- app_assoc.
Qed.

Lemma missing_example_file_reported_witness :
  rerun (sample_libraries (Ok []) (Ok "# Title"))
    (mkInputs None ExampleNonOcrPdf 0) sample_world
  = (Ok tt,
     mkWorld (with_cache_directory sample_os) ∅
       (page_top ++
        [ SidebarError "Example file not found: examples/Non_Ocr.pdf";
          Info "Please upload a PDF or select an example from the sidebar." ])
       0).
Proof.
  apply (missing_example_file_reported (sample_libraries (Ok []) (Ok "# Title"))
           (mkInputs None ExampleNonOcrPdf 0) sample_world).
  - reflexivity.
  - by vm_compute.
Defined.

(** ** Uploaded documents and the disk *)

Lemma with_cache_directory_frame (o : OS) :
  tmpdir (with_cache_directory o) = tmpdir o ∧
  environ (with_cache_directory o) = environ o.
Proof. unfold with_cache_directory. by destruct (Os.path_exists "cache" o). Qed.

Lemma has_content_nonempty (doc : string) :
  doc ≠ EmptyString → has_content (Some doc) = Some doc.
Proof. by destruct doc. Qed.

Section UploadedAndDisk.

Context (L : Libraries).


Lemma show_results_on_disk (inp : Inputs) (results : Dict)
    (fs : gmap string string) (ds : gset string) (w : World) :
  show_results L inp results (on_disk fs ds w)
  = ((show_results L inp results w).1,
     on_disk fs ds (show_results L inp results w).2).
Proof. by rewrite !show_results_run. Qed.


End UploadedAndDisk.

Section UploadedRecomputed.

Context (L : Libraries).



End UploadedRecomputed.




(** ** The cloud OCR adapter without a credential *)

Lemma rerun_keeps_temp_files (L : Libraries) (inp : Inputs) (w : World)
    (T : list string) :
  keeps_temp_files T w → keeps_temp_files T (rerun L inp w).2.
Proof.
  intros H. unfold rerun.
  pose proof (script_keeps_temp_files L inp T (set_screen (λ _, []) w) H) as Hs.
  by destruct (script L inp _) as [[[]|e] w'].
Qed.

(** ** The certificate checks *)

Lemma write_text_checks (path text : string) (o : OS) :
  ssl_unverified (Os.write_text path text o).2 = ssl_unverified o.
Proof. by destruct (write_text_run path text o) as [->|[e ->]]. Qed.

Lemma adapters_keep_checks_off (L : Libraries) :
  keeps_checks_off (parse_with_pytesseract L) ∧
  keeps_checks_off (parse_with_docling L) ∧
  keeps_checks_off (parse_with_pymupdf L) ∧
  keeps_checks_off (parse_with_mistral L).
Proof.
  split_and!; intros stream o H.
  - by rewrite parse_with_pytesseract_run.
  - by rewrite parse_with_docling_run.
  - by rewrite parse_with_pymupdf_run.
  - by rewrite parse_with_mistral_run.
Qed.

Lemma invoke_keeps_checks_off (parser : Parser) (stream : BytesIO) :
  keeps_checks_off parser →
  stable (λ w, ssl_unverified (os w) = true) (invoke parser stream).
Proof.
  intros Hp. apply stable_invoke. intros w Hw.
  specialize (Hp stream (os w) Hw).
  by destruct (parser (stream, os w)) as [r [s' o']].
Qed.

Lemma script_keeps_checks_off (L : Libraries) (inp : Inputs) :
  stable (λ w, ssl_unverified (os w) = true) (script L inp).
Proof.
  destruct (adapters_keep_checks_off L) as (Hocr & Hdoc & Hmu & Hmis).
  unfold script, ensure_cache_directory, load_pdf, process_uploaded,
    process_example, get_cached_conversion, show_results, display_pdf,
    getitem, uploaded_methods, example_methods, session_setitem, session_get,
    session_new_dict, st.
  repeat first
    [ stable_step
    | apply stable_modify; intros ? H; exact H
    | apply invoke_keeps_checks_off; assumption
    | apply stable_with_os; intros ? H; rewrite os_set_os;
      first [ exact H
            | by rewrite read_bytes_state
            | by rewrite read_text_state
            | by rewrite write_text_checks ] ].
Qed.

(** C8, as the code has it. Each of the four adapters reads its stream to
    the end and leaves one more temporary file, the copy of the document,
    behind, whether it returns or raises; regular files, directories and
    the environment are as before; and no later run of the script removes
    a temporary file.  The state an adapter leaves is exactly this: the
    stream at its end and the operating system with the temporary copy
    added, and after [parse_with_docling] with the certificate checks of
    the process turned off as well; no later run of the script turns
    them on again. *)
Theorem adapters_leave_temp_copy (L : Libraries) :
  leaves_temp_copy (parse_with_pytesseract L) ∧
  leaves_temp_copy (parse_with_docling L) ∧
  leaves_temp_copy (parse_with_pymupdf L) ∧
  leaves_temp_copy (parse_with_mistral L) ∧
  (∀ inp w T, keeps_temp_files T w → keeps_temp_files T (rerun L inp w).2) ∧
  (∀ stream o,
     (parse_with_pytesseract L (stream, o)).2
     = (exhausted stream, with_temp_copy (remaining stream) o) ∧
     (parse_with_docling L (stream, o)).2
     = (exhausted stream,
        set_ssl_unverified true (with_temp_copy (remaining stream) o)) ∧
     (parse_with_pymupdf L (stream, o)).2
     = (exhausted stream, with_temp_copy (remaining stream) o) ∧
     (parse_with_mistral L (stream, o)).2
     = (exhausted stream, with_temp_copy (remaining stream) o)) ∧
  (∀ inp w,
     ssl_unverified (os w) = true →
     ssl_unverified (os (rerun L inp w).2) = true).
Proof.
  split_and!.
  - apply parse_with_pytesseract_leaves_temp_copy.
  - apply parse_with_docling_leaves_temp_copy.
  - apply parse_with_pymupdf_leaves_temp_copy.
  - apply parse_with_mistral_leaves_temp_copy.
  - intros inp w T. apply rerun_keeps_temp_files.
  - intros stream o.
    by rewrite parse_with_pytesseract_run, parse_with_docling_run,
      parse_with_pymupdf_run, parse_with_mistral_run.
  - intros inp w Hw. unfold rerun.
    pose proof (script_keeps_checks_off L inp (set_screen (λ _, []) w) Hw) as H.
    by destruct (script L inp _) as [[[]|e] w'].
Qed.

(** C8, as stated, fails: after [parse_with_pymupdf] has returned, and
    after it has raised, the temporary copy of the document is on disk. *)
Lemma temp_copy_remains :
  parse_with_pymupdf (sample_libraries (Ok []) (Ok "# Title"))
    (BytesIO_new "%PDF-1.7", sample_os)
  = (Ok "# Title",
     (mkBytesIO "%PDF-1.7" 8, with_temp_copy "%PDF-1.7" sample_os)) ∧
  parse_with_pymupdf
    (sample_libraries (Ok []) (Raise (LibraryError "not a PDF")))
    (BytesIO_new "%PDF-1.7", sample_os)
  = (Raise (LibraryError "not a PDF"),
     (mkBytesIO "%PDF-1.7" 8, with_temp_copy "%PDF-1.7" sample_os)) ∧
  tmpdir sample_os = [] ∧
  tmpdir (with_temp_copy "%PDF-1.7" sample_os) = ["%PDF-1.7"] ∧
  ¬ temp_copy_deleted (parse_with_pymupdf (sample_libraries (Ok []) (Ok "# Title"))).
Proof.
  repeat split.
  intros H. specialize (H (BytesIO_new "%PDF-1.7") sample_os). discriminate H.
Qed.

(** C10. Without a credential [parse_with_mistral] still reads its stream
    to the end and writes what it read to a new temporary file before it
    looks for the key: it returns the message about the key, the stream
    is exhausted, the temporary file is on disk, and no later run of the
    script removes it. *)
Theorem parse_with_mistral_without_key_side_effects (L : Libraries)
    (stream : BytesIO) (o : OS) :
  credential (environ o !! "MISTRAL_API_KEY") = None →
  parse_with_mistral L (stream, o)
  = (Ok mistral_key_unset_message,
     (exhausted stream, with_temp_copy (remaining stream) o)) ∧
  remaining (exhausted stream) = EmptyString ∧
  tmpdir (with_temp_copy (remaining stream) o)
  = tmpdir o ++ [remaining stream] ∧
  ∀ inp w,
    keeps_temp_files (tmpdir o ++ [remaining stream]) w →
    keeps_temp_files (tmpdir o ++ [remaining stream]) (rerun L inp w).2.
Proof.
  intros Hkey. split_and!.
  - rewrite parse_with_mistral_run. unfold mistral_text. by rewrite Hkey.
  - apply exhausted_remaining.
  - done.
  - intros inp w. apply rerun_keeps_temp_files.
Qed.

Lemma parse_with_mistral_without_key_side_effects_witness :
  parse_with_mistral (sample_libraries (Ok []) (Ok EmptyString))
    (BytesIO_new "%PDF-1.7", sample_os)
  = (Ok mistral_key_unset_message,
     (exhausted (BytesIO_new "%PDF-1.7"),
      with_temp_copy (remaining (BytesIO_new "%PDF-1.7")) sample_os)).
Proof.
  apply (parse_with_mistral_without_key_side_effects
           (sample_libraries (Ok []) (Ok EmptyString)) (BytesIO_new "%PDF-1.7")
           sample_os).
  reflexivity.
Defined.

(** ** What the page shows of a result set *)

Section Page.

Context (L : Libraries).

Lemma radio_value_in (options : list string) (pick : nat) :
  options ≠ [] → radio_value options pick ∈ options.
Proof.
  intros Hne. unfold radio_value.
  destruct (options !! pick) as [m|] eqn:Hpick.
  - by apply list_elem_of_lookup_2 in Hpick.
  - destruct options; [done|]. by left.
Qed.

Lemma page_of_incomplete (inp : Inputs) (d : Dict) :
  dict_mem original_document d = false →
  page_of L inp d
  = (Ok tt, [SidebarInfo processing_message; Info processing_message]).
Proof. intros H. unfold page_of, show_results. by rewrite H. Qed.

Lemma page_of_complete (inp : Inputs) (d : Dict) :
  dict_keys d = result_set_names →
  ∃ body html,
    page_of L inp d
    = (Ok tt,
       [ SidebarHeader "Method Options";
         SidebarRadio method_selector_label result_set_names;
         Header (radio_value result_set_names (method_choice inp));
         Markdown body html ]).
Proof.
  intros Hkeys. unfold page_of, show_results, display_pdf, getitem.
  assert (dict_mem original_document d = true) as ->.
  { apply dict_mem_keys. rewrite Hkeys. by vm_compute; set_solver. }
  cbn [negb].
  assert (radio_value result_set_names (method_choice inp) ∈ dict_keys d)
    as Hin by (rewrite Hkeys; by apply radio_value_in).
  rewrite Hkeys.
  destruct (String.eqb_spec
              (radio_value result_set_names (method_choice inp))
              original_document) as [Heq|Hne].
  - rewrite Heq in Hin. apply dict_get_keys in Hin as [v Hv].
    rewrite Hv. run_steps. eauto.
  - apply dict_get_keys in Hin as [v Hv]. rewrite Hv. run_steps. eauto.
Qed.

Lemma dict_ok_complete (d : Dict) :
  dict_ok d → dict_mem original_document d = true →
  dict_keys d = result_set_names.
Proof.
  intros [Hd|Hd] Hmem; [done|]. exfalso.
  apply dict_mem_keys in Hmem.
  apply original_document_not_method.
  destruct Hd as [rest ->]. apply elem_of_app. by left.
Qed.

(** A set that is not complete is not offered: the page of a set in
    order offers the five entries or none. *)
Lemma page_of_selectors (inp : Inputs) (d : Dict) :
  dict_ok d → selectors_complete (page_of L inp d).2.
Proof.
  intros Hok options Hin.
  destruct (dict_mem original_document d) eqn:Hmem.
  - destruct (page_of_complete inp d (dict_ok_complete d Hok Hmem))
      as (body & html & Hpage).
    rewrite Hpage in Hin. cbn [snd] in Hin. set_unfold in Hin.
    destruct Hin as [?|[?|[?|[?|[]]]]]; by simplify_eq.
  - rewrite (page_of_incomplete inp d Hmem) in Hin. cbn [snd] in Hin.
    set_unfold in Hin. destruct Hin as [?|[?|[]]]; by simplify_eq.
Qed.

End Page.

(** ** The orchestration *)

(** C2. Without a credential the cloud OCR adapter returns, for every
    stream and every state of the operating system, a message that says the
    key is not set, and does not raise.  In a run on an uploaded document
    the cloud method is then never what ends the run: when the three local
    extractions return, the result set is filled with its five entries,
    the message being the entry of the cloud method, and the selector
    offers them; and a run that raises raises the exception of a local
    extraction. *)
Theorem missing_credential_keeps_result_set (L : Libraries) :
  (∀ stream o,
     credential (environ o !! "MISTRAL_API_KEY") = None →
     (parse_with_mistral L (stream, o)).1 = Ok mistral_key_unset_message) ∧
  mistral_key_unset_message ≠ EmptyString ∧
  Str.contains "API key is not set" mistral_key_unset_message = true ∧
  ∀ inp doc w,
    credential (environ (os w) !! "MISTRAL_API_KEY") = None →
    uploaded_file inp = Some doc → doc ≠ EmptyString →
    session_state w !! "results" = None →
    (∀ t1 t2 t3,
       pytesseract_text L doc = Ok t1 →
       docling_convert_to_markdown L doc = Ok t2 →
       pymupdf_to_markdown L doc = Ok t3 →
       (rerun L inp w).1 = Ok tt ∧
       session_state (rerun L inp w).2 !! "results"
       = Some [ ("Pytesseract OCR", Text t1);
                ("Docling Conversion", Text t2);
                ("PyMuPDF Conversion", Text t3);
                ("Mistral OCR", Text mistral_key_unset_message);
                (original_document, Bytes doc) ] ∧
       SidebarRadio method_selector_label result_set_names
         ∈ screen (rerun L inp w).2) ∧
    (∀ e,
       (rerun L inp w).1 = Raise e →
       pytesseract_text L doc = Raise e ∨
       docling_convert_to_markdown L doc = Raise e ∨
       pymupdf_to_markdown L doc = Raise e).
Proof.
  split_and!; [|done|done|].
  - intros stream o Hkey. rewrite parse_with_mistral_run.
    unfold mistral_text. by rewrite Hkey.
  - intros inp doc w Hkey Hup Hdoc Hfresh.
    unfold rerun. rewrite (script_uploaded L inp doc _ Hup).
    rewrite (has_content_nonempty doc Hdoc), bind_run.
    rewrite process_uploaded_fresh by done.
    unfold uploaded_run, extraction_outcomes, mistral_text, loaded.
    cbn [os set_screen session_state screen invocations].
    rewrite (proj2 (with_cache_directory_frame (os w))), Hkey.
    destruct (pytesseract_text L doc) as [t1|e1];
      [|split; [done | intros e [= ->]; auto]].
    destruct (docling_convert_to_markdown L doc) as [t2|e2];
      [|split; [done | intros e [= ->]; auto]].
    destruct (pymupdf_to_markdown L doc) as [t3|e3];
      [|split; [done | intros e [= ->]; auto]].
    cbn [collect_until_failure app]. rewrite show_results_run.
    destruct (page_of_complete L inp
                [ ("Pytesseract OCR", Text t1);
                  ("Docling Conversion", Text t2);
                  ("PyMuPDF Conversion", Text t3);
                  ("Mistral OCR", Text mistral_key_unset_message);
                  (original_document, Bytes doc) ] eq_refl)
      as (body & html & ->).
    cbn [fst snd set_screen session_state screen].
    split; [|done].
    intros ? ? ? [= <-] [= <-] [= <-].
    split_and!; [done | apply lookup_insert_eq |].
    set_solver.
Qed.

Lemma missing_credential_keeps_result_set_witness :
  (rerun (sample_libraries (Ok ["Scanned text"]) (Ok "# Title"))
     (mkInputs (Some "%PDF-1.7") ExampleOcrPdf 4) sample_world).1 = Ok tt.
Proof.
  apply (proj1 (proj2 (proj2 (proj2 (missing_credential_keeps_result_set
           (sample_libraries (Ok ["Scanned text"]) (Ok "# Title")))))
           (mkInputs (Some "%PDF-1.7") ExampleOcrPdf 4) "%PDF-1.7" sample_world
           eq_refl eq_refl ltac:(discriminate) eq_refl)
           (page_sections_from 1 ["Scanned text"]) "# Title" "# Title");
    reflexivity.
Defined.

(** ** The loops as functions *)

Section Backstage.

Lemma backstage_frame {A} (act : M World A) (w : World) :
  backstage act →
  session_state (act w).2 = session_state w ∧ screen (act w).2 = screen w.
Proof.
  intros H. specialize (H w (session_state w) (screen w)).
  replace (mkWorld (os w) (session_state w) (screen w) (invocations w))
    with w in H by by destruct w.
  destruct (act w) as [r w']. cbn [fst snd] in *.
  injection H as ->. done.
Qed.

Lemma backstage_ret {A} (a : A) : backstage (mret a).
Proof. by intros w ss scr. Qed.

Lemma backstage_bind {A B} (m : M World A) (k : A → M World B) :
  backstage m → (∀ a, backstage (k a)) → backstage (m ≫= k).
Proof.
  intros Hm Hk w ss scr. rewrite !bind_run, (Hm w ss scr).
  destruct (m w) as [[a|e] w']; cbn [fst snd]; [|done].
  apply (Hk a w' ss scr).
Qed.

Lemma backstage_with_os {A} (m : M OS A) : backstage (with_os m).
Proof.
  intros w ss scr. rewrite !with_os_run. cbn [os]. by destruct w.
Qed.

Lemma backstage_invoke (parser : Parser) (stream : BytesIO) :
  backstage (invoke parser stream).
Proof.
  intros w ss scr. rewrite !invoke_run. cbn [os]. by destruct w.
Qed.

Lemma backstage_get_cached_conversion (example_path slug : string)
    (parser : Parser) :
  backstage (get_cached_conversion example_path slug parser).
Proof.
  intros w ss scr. unfold get_cached_conversion.
  rewrite (bind_run get _ w), (bind_run get _ (mkWorld _ _ _ _)).
  cbn [get os].
  destruct (Os.path_exists _ (os w)).
  - apply backstage_bind; [apply backstage_with_os|].
    intros a. apply backstage_ret.
  - apply backstage_bind; [apply backstage_with_os|]. intros pdf_bytes.
    apply backstage_bind; [apply backstage_invoke|]. intros result.
    apply backstage_bind; [apply backstage_with_os|]. intros _.
    apply backstage_ret.
Qed.

Lemma run_until_failure_backstage (steps : list (string * M World string))
    (w : World) (ss : gmap string Dict) (scr : list Ui) :
  (∀ step, step ∈ steps → backstage step.2) →
  run_until_failure steps (mkWorld (os w) ss scr (invocations w))
  = ((run_until_failure steps w).1,
     mkWorld (os (run_until_failure steps w).2) ss scr
       (invocations (run_until_failure steps w).2)).
Proof.
  revert w. induction steps as [|step rest IH]; intros w Hsteps; [done|].
  cbn [run_until_failure].
  rewrite (Hsteps step (ltac:(by left)) w ss scr).
  destruct (step.2 w) as [[text|e] w']; cbn [fst snd]; [|done].
  rewrite IH by (intros y Hy; apply Hsteps; by right).
  by destruct (run_until_failure rest w') as [[d failure] w''].
Qed.

Lemma dict_set_new (k : string) (v : Value) (d : Dict) :
  k ∉ dict_keys d → dict_set k v d = d ++ [(k, v)].
Proof.
  unfold dict_keys. induction d as [|[k' v'] d IH]; intros Hk; [done|].
  cbn [dict_set]. destruct (String.eqb_spec k' k) as [->|Hne].
  - exfalso. apply Hk. cbn. by left.
  - cbn. rewrite IH; [done|]. intros Hin. apply Hk. cbn. by right.
Qed.

(** The loop that fills a result set, as a function: its outcome, the
    dictionary it leaves in the session and the rest of the world are
    those of the steps run until one fails. *)
Lemma for_each_until_failure (key : string)
    (steps : list (string * M World string)) (d0 : Dict)
    (ss0 : gmap string Dict) (w : World) :
  NoDup (dict_keys d0 ++ steps.*1) →
  (∀ step, step ∈ steps → backstage step.2) →
  session_state w = <[key := d0]> ss0 →
  for_each steps
    (λ step, step.2 ≫= λ r, session_setitem key step.1 (Text r)) w
  = (match (run_until_failure steps w).1.2 with
     | None => Ok tt
     | Some e => Raise e
     end,
     mkWorld (os (run_until_failure steps w).2)
       (<[key := d0 ++ (run_until_failure steps w).1.1]> ss0) (screen w)
       (invocations (run_until_failure steps w).2)).
Proof.
  revert d0 w. induction steps as [|step rest IH]; intros d0 w Hdup Hsteps Hss.
  - cbn [for_each run_until_failure fst snd mret M_ret].
    rewrite app_nil_r. destruct w as [o ss scr n].
    cbn [os session_state screen invocations] in *. by subst ss.
  - cbn [for_each run_until_failure]. rewrite bind_run, bind_run.
    destruct (backstage_frame step.2 w (Hsteps step ltac:(by left)))
      as [Hss1 Hscr1].
    destruct (step.2 w) as [[text|e] w1]; cbn [fst snd] in *.
    + rewrite (session_setitem_run _ _ _ d0)
        by (by rewrite Hss1, Hss, lookup_insert_eq).
      rewrite dict_set_new.
      2:{ apply NoDup_app in Hdup as (_ & Hdup & _).
          intros Hin. apply (Hdup _ Hin). cbn. by left. }
      set (w2 := set_session_state _ w1).
      rewrite (IH (d0 ++ [(step.1, Text text)]) w2).
      * assert (w2 = mkWorld (os w1)
                       (<[key := d0 ++ [(step.1, Text text)]]> (session_state w1))
                       (screen w1) (invocations w1)) as -> by done.
        rewrite run_until_failure_backstage
          by (intros y Hy; apply Hsteps; by right).
        destruct (run_until_failure rest w1) as [[d failure] w3].
        cbn [fst snd os screen invocations]. rewrite Hscr1.
        by rewrite <- app_assoc.
      * unfold dict_keys in *. rewrite fmap_app. cbn [fmap list_fmap].
        rewrite <- app_assoc. exact Hdup.
      * intros y Hy. apply Hsteps. by right.
      * unfold w2. cbn [session_state set_session_state].
        by rewrite Hss1, Hss, insert_insert_eq.
    + rewrite app_nil_r. rewrite Hss in Hss1.
      destruct w1 as [o1 ss1 scr1 n1].
      cbn [os session_state screen invocations] in *. by subst ss1 scr1.
Qed.

(** The entries of the steps run are those of the first steps, in
    order, all of them when no step has raised; and they are texts. *)
Lemma run_until_failure_keys (steps : list (string * M World string))
    (w : World) :
  dict_keys (run_until_failure steps w).1.1
  = take (length (run_until_failure steps w).1.1) steps.*1 ∧
  match (run_until_failure steps w).1.2 with
  | None => dict_keys (run_until_failure steps w).1.1 = steps.*1
  | Some _ => (length (run_until_failure steps w).1.1 < length steps)%nat
  end.
Proof.
  revert w. induction steps as [|step rest IH]; intros w; [done|].
  cbn [run_until_failure].
  destruct (step.2 w) as [[text|e] w1]; [|cbn; split; [done|lia]].
  specialize (IH w1).
  destruct (run_until_failure rest w1) as [[d failure] w2].
  cbn [fst snd length] in *. destruct IH as [IH1 IH2].
  unfold dict_keys in *. cbn [fmap list_fmap take fst].
  split; [by rewrite <- IH1|].
  destruct failure; [lia | by rewrite <- IH2].
Qed.

(** Filling a result set in a session that has none under the key. *)
Lemma fill_result_set_run (key message : string)
    (steps : list (string * M World string)) (doc : string) (w : World) :
  NoDup (steps.*1) → original_document ∉ steps.*1 →
  (∀ step, step ∈ steps → backstage step.2) →
  session_state w !! key = None →
  fill_result_set key message steps doc w = fill_run key message steps doc w.
Proof.
  intros Hdup Horig Hsteps Hfresh. unfold fill_result_set, fill_run.
  rewrite bind_run. cbn [get]. rewrite (session_has_false _ _ Hfresh).
  cbn [negb]. rewrite bind_run, bind_run, st_run, bind_run.
  cbn [session_new_dict modify]. rewrite bind_run.
  set (w0 := set_session_state _ _).
  rewrite (for_each_until_failure key steps [] (session_state w) w0);
    [|done|done|by unfold w0; destruct w].
  assert (w0 = mkWorld (os w) (<[key := []]> (session_state w))
                 (screen w ++ [Spinner message]) (invocations w)) as ->
    by (by destruct w).
  rewrite run_until_failure_backstage by done.
  pose proof (run_until_failure_keys steps w) as [_ Hkeys].
  destruct (run_until_failure steps w) as [[d failure] w1].
  cbn [fst snd os screen invocations app] in *.
  destruct failure as [e|]; [done|].
  erewrite session_setitem_run by apply lookup_insert_eq.
  rewrite dict_set_new by (by rewrite Hkeys).
  erewrite session_get_run by apply lookup_insert_eq.
  unfold set_session_state. cbn [os session_state screen invocations].
  by rewrite insert_insert_eq.
Qed.

End Backstage.

(** *** Parser calls *)

Lemma calls_unchanged {A} (m : M World A) :
  (∀ w, invocations (m w).2 = invocations w ∧
        tmpdir (os (m w).2) = tmpdir (os w)) →
  calls_at_most 0 m.
Proof.
  intros H w. destruct (H w) as [Hn Ht]. exists 0%nat.
  rewrite Hn, Ht. split_and!; lia.
Qed.

Lemma calls_weaken {A} (k k' : nat) (m : M World A) :
  calls_at_most k m → (k ≤ k')%nat → calls_at_most k' m.
Proof.
  intros H Hk w. destruct (H w) as (j & Hj & Hn & Ht).
  exists j. split_and!; [lia|done|done].
Qed.

Lemma calls_bind {A B} (k1 k2 : nat) (m : M World A) (f : A → M World B) :
  calls_at_most k1 m → (∀ a, calls_at_most k2 (f a)) →
  calls_at_most (k1 + k2) (m ≫= f).
Proof.
  intros Hm Hf w. rewrite bind_run.
  destruct (Hm w) as (j1 & Hj1 & Hn1 & Ht1).
  destruct (m w) as [[a|e] w1]; cbn [snd] in *.
  - destruct (Hf a w1) as (j2 & Hj2 & Hn2 & Ht2).
    exists (j1 + j2)%nat. rewrite Hn2, Ht2, Hn1, Ht1. split_and!; lia.
  - exists j1. split_and!; [lia|done|done].
Qed.

Lemma calls_ret {A} (a : A) : calls_at_most 0 (mret a).
Proof. by apply calls_unchanged. Qed.

Lemma calls_st (u : Ui) : calls_at_most 0 (st u).
Proof. by apply calls_unchanged. Qed.

Lemma calls_session_new_dict (key : string) :
  calls_at_most 0 (session_new_dict key).
Proof. by apply calls_unchanged. Qed.

Lemma calls_session_get (key : string) : calls_at_most 0 (session_get key).
Proof.
  apply calls_unchanged. intros w. unfold session_get. rewrite bind_run.
  cbn [get]. by destruct (session_state w !! key).
Qed.

Lemma calls_session_setitem (key k : string) (v : Value) :
  calls_at_most 0 (session_setitem key k v).
Proof.
  apply calls_unchanged. intros w. unfold session_setitem, session_get.
  rewrite !bind_run. cbn [get]. by destruct (session_state w !! key).
Qed.

Lemma calls_invoke (parser : Parser) (stream : BytesIO) :
  leaves_temp_copy parser → calls_at_most 1 (invoke parser stream).
Proof.
  intros Hp w. exists 1%nat. rewrite invoke_run.
  specialize (Hp stream (os w)).
  destruct (parser (stream, os w)) as [r [s' o']].
  destruct Hp as (_ & Ht & _).
  cbn [fst snd os set_os set_invocations invocations]. rewrite Ht, length_app.
  cbn [length]. split_and!; lia.
Qed.

Lemma calls_get_cached_conversion (example_path slug : string)
    (parser : Parser) :
  leaves_temp_copy parser →
  calls_at_most 1 (get_cached_conversion example_path slug parser).
Proof.
  intros Hp w. unfold get_cached_conversion. rewrite bind_run. cbn [get].
  destruct (Os.path_exists _ (os w)).
  - exists 0%nat. rewrite bind_run, with_os_run, read_text_state, world_eta.
    destruct (Os.read_text _ (os w)).1; cbn [snd mret M_ret]; split_and!; lia.
  - rewrite bind_run, with_os_run, read_bytes_state, world_eta.
    destruct (Os.read_bytes example_path (os w)).1 as [pdf_bytes|e];
      [|exists 0%nat; cbn [snd]; split_and!; lia].
    rewrite bind_run.
    destruct (calls_invoke parser (BytesIO_new pdf_bytes) Hp w)
      as (j & Hj & Hn & Ht).
    exists j.
    destruct (invoke parser (BytesIO_new pdf_bytes) w) as [[result|e] w1];
      cbn [snd] in *; [|done].
    rewrite bind_run, with_os_run.
    destruct (write_text_frame (get_cache_filename example_path slug) result
                (os w1)) as (Htmp & _).
    destruct (Os.write_text _ result (os w1)) as [[[]|e] o2];
      cbn [fst snd] in *; unfold set_os;
      cbn [os invocations mret M_ret snd]; by rewrite Htmp.
Qed.

Section LoopsAsFunctions.

Context (L : Libraries).

Lemma example_steps_backstage (choice : ExampleChoice) :
  ∀ step, step ∈ example_steps L choice → backstage step.2.
Proof.
  intros step Hin. unfold example_steps, example_methods in Hin.
  cbn in Hin. set_unfold in Hin.
  destruct Hin as [->|[->|[->|[->|[]]]]];
    apply backstage_get_cached_conversion.
Qed.

Lemma process_example_fresh (choice : ExampleChoice) (doc : string)
    (w : World) :
  session_state w !! example_key_of choice = None →
  process_example L choice doc w = example_run L choice doc w.
Proof.
  intros Hfresh. rewrite process_example_shape. unfold example_run.
  apply fill_result_set_run; [| |apply example_steps_backstage|done].
  - rewrite example_steps_names. apply method_names_nodup.
  - rewrite example_steps_names. apply original_document_not_method.
Qed.

Lemma calls_uploaded_steps (doc : string) :
  ∀ step, step ∈ uploaded_steps L doc → calls_at_most 1 step.2.
Proof.
  intros step Hin. unfold uploaded_steps, uploaded_methods in Hin.
  cbn in Hin. set_unfold in Hin.
  destruct Hin as [->|[->|[->|[->|[]]]]]; apply calls_invoke.
  - apply parse_with_pytesseract_leaves_temp_copy.
  - apply parse_with_docling_leaves_temp_copy.
  - apply parse_with_pymupdf_leaves_temp_copy.
  - apply parse_with_mistral_leaves_temp_copy.
Qed.

Lemma calls_example_steps (choice : ExampleChoice) :
  ∀ step, step ∈ example_steps L choice → calls_at_most 1 step.2.
Proof.
  intros step Hin. unfold example_steps, example_methods in Hin.
  cbn in Hin. set_unfold in Hin.
  destruct Hin as [->|[->|[->|[->|[]]]]]; apply calls_get_cached_conversion.
  - apply parse_with_pytesseract_leaves_temp_copy.
  - apply parse_with_docling_leaves_temp_copy.
  - apply parse_with_pymupdf_leaves_temp_copy.
  - apply parse_with_mistral_leaves_temp_copy.
Qed.

(** The steps run until one fails call a parser at most once each. *)
Lemma run_until_failure_calls (steps : list (string * M World string))
    (w : World) :
  (∀ step, step ∈ steps → calls_at_most 1 step.2) →
  ∃ j,
    (j ≤ match (run_until_failure steps w).1.2 with
         | None => length steps
         | Some _ => S (length (run_until_failure steps w).1.1)
         end)%nat ∧
    invocations (run_until_failure steps w).2 = (invocations w + j)%nat ∧
    length (tmpdir (os (run_until_failure steps w).2))
    = (length (tmpdir (os w)) + j)%nat.
Proof.
  revert w. induction steps as [|step rest IH]; intros w Hsteps.
  - exists 0%nat. cbn. split_and!; lia.
  - cbn [run_until_failure].
    destruct (Hsteps step ltac:(by left) w) as (j1 & Hj1 & Hn1 & Ht1).
    destruct (step.2 w) as [[text|e] w1]; cbn [fst snd] in *.
    + destruct (IH w1) as (j2 & Hj2 & Hn2 & Ht2).
      { intros y Hy. apply Hsteps. by right. }
      destruct (run_until_failure rest w1) as [[d failure] w2].
      cbn [fst snd length] in *. exists (j1 + j2)%nat.
      rewrite Hn2, Ht2, Hn1, Ht1. split_and!; [|lia|lia].
      destruct failure; lia.
    + exists j1. cbn [length]. split_and!; [lia|done|done].
Qed.

End LoopsAsFunctions.

(** C5, as stated, fails: when the rasteriser raises on an uploaded
    document the run ends with its exception; the dictionary of results
    is there and empty (no entry holds an error text), no other method
    has been called, and the page stops at the spinner. *)
Lemma first_failure_ends_the_run :
  let L := sample_libraries (Raise (LibraryError "Unable to get page count."))
             (Ok "# Title") in
  let r := rerun L (mkInputs (Some "%PDF-1.7") ExampleOcrPdf 0) sample_world in
  r.1 = Raise (LibraryError "Unable to get page count.") ∧
  session_state r.2 !! "results" = Some [] ∧
  invocations r.2 = 1%nat ∧
  tmpdir (os r.2) = ["%PDF-1.7"] ∧
  screen r.2
  = page_top ++ [ SidebarSuccess "PDF uploaded successfully!";
                  Spinner "Processing uploaded PDF, please wait..." ].
Proof. by vm_compute. Qed.

(** C5, as the code has it. The methods run in their order up to the first
    one that raises. On an uploaded document the run is [uploaded_run]:
    the entries of the methods that returned before are in the session,
    the exception ends the run, the later methods are not called and the
    original document is not added; when all four return, a returned
    error message being a text like another, the set is completed. On an
    example document the run likewise returns the five entries or raises
    with the entries of the first methods only; it is [example_run]: the
    calls of the cache wrapper, one for each method, run in order until
    one raises ([run_until_failure]).  When the first raises the
    dictionary is left empty; when one raises its exception ends the
    run, the entries of the methods before it are those in the session,
    the original document is not among them, the operating system and
    the count of parser calls are those the failing call left, and no
    parser has been called for a later method. *)
Theorem orchestrator_stops_at_first_failure (L : Libraries) (doc : string)
    (choice : ExampleChoice) (w : World) :
  (session_state w !! "results" = None →
   process_uploaded L doc w = uploaded_run L doc w ∧
   ∀ e, (process_uploaded L doc w).1 = Raise e →
        ∃ d, session_state (process_uploaded L doc w).2 !! "results" = Some d ∧
             dict_keys d = take (length d) method_names ∧
             (length d < length method_names)%nat ∧
             dict_mem original_document d = false ∧
             invocations (process_uploaded L doc w).2
             = (invocations w + S (length d))%nat) ∧
  (session_state w !! example_key_of choice = None →
   match process_example L choice doc w with
   | (Ok d, w') =>
       dict_keys d = result_set_names ∧
       session_state w' = <[example_key_of choice := d]> (session_state w)
   | (Raise e, w') =>
       ∃ d j, (j < length method_names)%nat ∧
              dict_keys d = take j method_names ∧
              session_state w' = <[example_key_of choice := d]> (session_state w)
   end) ∧
  (session_state w !! example_key_of choice = None →
   process_example L choice doc w = example_run L choice doc w ∧
   (∀ e w1,
      get_cached_conversion (example_path_of choice) "pytesseract"
        (parse_with_pytesseract L) w = (Raise e, w1) →
      process_example L choice doc w
      = (Raise e,
         mkWorld (os w1) (<[example_key_of choice := []]> (session_state w))
           (screen w ++ [Spinner "Processing example PDF, please wait..."])
           (invocations w1))) ∧
   ∀ e, (process_example L choice doc w).1 = Raise e →
        ∃ d w1,
          run_until_failure (example_steps L choice) w = (d, Some e, w1) ∧
          session_state (process_example L choice doc w).2
          = <[example_key_of choice := d]> (session_state w) ∧
          dict_keys d = take (length d) method_names ∧
          (length d < length method_names)%nat ∧
          dict_mem original_document d = false ∧
          os (process_example L choice doc w).2 = os w1 ∧
          invocations (process_example L choice doc w).2 = invocations w1 ∧
          (invocations w1 ≤ invocations w + S (length d))%nat).
Proof.
  split_and!.
  - intros Hfresh. split; [by apply process_uploaded_fresh|].
    intros e. rewrite (process_uploaded_fresh L doc w Hfresh).
    unfold uploaded_run, extraction_outcomes.
    destruct (pytesseract_text L doc) as [t1|e1];
      [destruct (docling_convert_to_markdown L doc) as [t2|e2];
       [destruct (pymupdf_to_markdown L doc) as [t3|e3];
        [destruct (mistral_text L _ _ doc) as [t4|e4]|]|]|];
      cbn [collect_until_failure fst snd session_state invocations];
      intros He; try discriminate He.
    all: eexists; split; [apply lookup_insert_eq|].
    all: cbn [length]; split_and!.
    all: try reflexivity.
    all: unfold method_names; cbn [length]; lia.
  - intros Hfresh. rewrite process_example_shape.
    pose proof (fill_result_set_fresh (example_key_of choice)
                  "Processing example PDF, please wait..."
                  (example_steps L choice) doc w
                  (example_steps_names L choice)
                  (example_steps_off_stage L choice) Hfresh) as H.
    destruct (fill_result_set _ _ _ _ w) as [[d|e] w'].
    + by destruct H as (? & _ & ? & _).
    + destruct H as (d & j & ? & ? & ? & _). eauto.
  - intros Hfresh. rewrite (process_example_fresh L choice doc w Hfresh).
    split_and!; [done| |].
    + intros e w1 Hfirst. unfold example_run, fill_run, example_steps.
      cbn [example_methods fmap list_fmap run_until_failure snd].
      by rewrite Hfirst.
    + intros e. unfold example_run, fill_run.
      pose proof (run_until_failure_keys (example_steps L choice) w)
        as [Hkeys Hlen].
      destruct (run_until_failure_calls (example_steps L choice) w
                  (calls_example_steps L choice)) as (j & Hj & Hn & _).
      rewrite example_steps_names in Hkeys.
      destruct (run_until_failure (example_steps L choice) w)
        as [[d failure] w1].
      cbn [fst snd] in *. destruct failure as [e'|]; [|done].
      cbn [fst snd session_state os invocations]. intros [= ->].
      exists d, w1. split_and!; try done.
      * unfold dict_mem. apply bool_decide_eq_false. rewrite dict_get_keys.
        rewrite Hkeys. intros Hin%elem_of_take.
        destruct Hin as (i & Hin & _).
        apply original_document_not_method. by eapply list_elem_of_lookup_2.
      * lia.
Qed.

Lemma orchestrator_stops_at_first_failure_witness :
  process_uploaded (sample_libraries (Ok ["Scanned text"]) (Ok "# Title"))
    "%PDF-1.7" sample_world
  = uploaded_run (sample_libraries (Ok ["Scanned text"]) (Ok "# Title"))
      "%PDF-1.7" sample_world.
Proof.
  apply (proj1 (orchestrator_stops_at_first_failure
                  (sample_libraries (Ok ["Scanned text"]) (Ok "# Title"))
                  "%PDF-1.7" ExampleOcrPdf sample_world)).
  reflexivity.
Defined.

(** ** All or nothing *)

Section AllOrNothing.

Context (L : Libraries).

Lemma selectors_complete_app (scr scr' : list Ui) :
  selectors_complete scr → selectors_complete scr' →
  selectors_complete (scr ++ scr').
Proof.
  intros H H' options [Hin|Hin]%elem_of_app; [by apply H | by apply H'].
Qed.

Lemma selectors_complete_other (u : Ui) :
  (∀ options, u ≠ SidebarRadio method_selector_label options) →
  selectors_complete [u].
Proof. intros Hu options Hin%list_elem_of_singleton. by destruct (Hu options). Qed.

Lemma page_top_selectors : selectors_complete page_top.
Proof.
  intros options Hin. unfold page_top in Hin. set_unfold in Hin.
  destruct Hin as [?|[?|[?|[?|[]]]]]; discriminate.
Qed.

Lemma session_ok_insert (key : string) (d : Dict) (ss : gmap string Dict) :
  session_ok ss → dict_ok d → session_ok (<[key := d]> ss).
Proof.
  intros Hss Hd key' d'. rewrite lookup_insert.
  case_decide; [by intros [= <-] | apply Hss].
Qed.

Lemma take_method_names_ok (d : Dict) (j : nat) :
  dict_keys d = take j method_names → dict_ok d.
Proof. intros H. right. rewrite H. exists (drop j method_names). by rewrite take_drop. Qed.

Lemma all_or_nothing_st (u : Ui) :
  (∀ options, u ≠ SidebarRadio method_selector_label options) →
  stable all_or_nothing (st u).
Proof.
  intros Hu. apply stable_st. intros w [Hss Hscr]. split; [done|].
  by apply selectors_complete_app, selectors_complete_other.
Qed.

Lemma all_or_nothing_with_os {A} (m : M OS A) :
  stable all_or_nothing (with_os m).
Proof. by apply stable_with_os. Qed.

Lemma load_pdf_all_or_nothing (inp : Inputs) :
  stable all_or_nothing (load_pdf inp).
Proof.
  unfold load_pdf.
  repeat first
    [ stable_step
    | apply all_or_nothing_with_os
    | by apply all_or_nothing_st ].
Qed.

(** Processing a document keeps the invariant, returning or raising, and
    returns a dictionary that is in order. *)
Lemma fill_result_set_all_or_nothing (key message : string)
    (steps : list (string * M World string)) (doc : string) :
  steps.*1 = method_names →
  (∀ step, step ∈ steps → off_stage step.2) →
  hoare all_or_nothing (fill_result_set key message steps doc)
    (λ d w, all_or_nothing w ∧ dict_ok d) (λ _, all_or_nothing).
Proof.
  intros Hnames Hoff w [Hss Hscr].
  destruct (session_state w !! key) as [d|] eqn:Hkey.
  - rewrite (fill_result_set_again _ _ _ _ d) by done.
    split; [done|]. by apply (Hss key).
  - pose proof (fill_result_set_fresh key message steps doc w
                  Hnames Hoff Hkey) as H.
    destruct (fill_result_set key message steps doc w) as [[d|e] w'].
    + destruct H as (Hkeys & _ & Hss' & Hscr').
      assert (dict_ok d) by by left.
      split; [|done]. split.
      * rewrite Hss'. by apply session_ok_insert.
      * rewrite Hscr'.
        by apply selectors_complete_app, selectors_complete_other.
    + destruct H as (d & j & _ & Hkeys & Hss' & Hscr'). split.
      * rewrite Hss'. apply session_ok_insert; [done|].
        by apply (take_method_names_ok d j).
      * rewrite Hscr'.
        by apply selectors_complete_app, selectors_complete_other.
Qed.

Lemma show_results_all_or_nothing (inp : Inputs) (d : Dict) :
  hoare (λ w, all_or_nothing w ∧ dict_ok d) (show_results L inp d)
    (λ _, all_or_nothing) (λ _, all_or_nothing).
Proof.
  intros w [[Hss Hscr] Hd]. rewrite show_results_run.
  assert (all_or_nothing
            (set_screen (λ scr, scr ++ (page_of L inp d).2) w)) as H.
  { split; [done|]. by apply selectors_complete_app, page_of_selectors. }
  by destruct (page_of L inp d).1.
Qed.

(** A run of the script keeps the invariant, however it ends. *)
Lemma script_all_or_nothing (inp : Inputs) :
  stable all_or_nothing (script L inp).
Proof.
  intros w [Hss Hscr]. rewrite script_top.
  match goal with
  | |- match ?m ?w1 with _ => _ end =>
      assert (stable all_or_nothing m) as Hm; [|apply (Hm w1)]
  end.
  - apply stable_bind; [apply load_pdf_all_or_nothing|].
    intros [pdf_source pdf_bytes].
    destruct (has_content pdf_bytes) as [b|];
      [|by apply all_or_nothing_st].
    apply (hoare_bind _ _ (λ d w, all_or_nothing w ∧ dict_ok d));
      [|apply show_results_all_or_nothing].
    destruct pdf_source.
    + rewrite process_uploaded_shape.
      apply fill_result_set_all_or_nothing;
        [apply uploaded_steps_names | apply uploaded_steps_off_stage].
    + rewrite process_example_shape.
      apply fill_result_set_all_or_nothing;
        [apply example_steps_names | apply example_steps_off_stage].
  - split; [done|]. by apply selectors_complete_app, page_top_selectors.
Qed.

End AllOrNothing.

Lemma reachable_all_or_nothing (w : World) : reachable w → all_or_nothing w.
Proof.
  induction 1 as [o|L inp w _ IH|f w _ IH].
  - split; [intros key d H; cbn [session_state] in H;
              by rewrite lookup_empty in H|].
    by intros options Hin%elem_of_nil.
  - unfold rerun.
    pose proof (script_all_or_nothing L inp (set_screen (λ _, []) w)) as H.
    destruct (script L inp _) as [[[]|e] w']; apply H;
      (split; [apply IH | by intros options Hin%elem_of_nil]).
  - exact IH.
Qed.

(** C6. In every world a session goes through, after a run that returned
    and after a run that was ended while a method was computing, every
    method selector on the page offers the five entries; every dictionary
    of results in the session is complete or holds the entries of the
    first methods only, without the original document; and for such an
    incomplete dictionary the page shows the processing message and
    nothing to select. *)
Theorem result_set_visibility (w : World) :
  reachable w →
  (∀ options,
     SidebarRadio method_selector_label options ∈ screen w →
     options = result_set_names) ∧
  (∀ key d,
     session_state w !! key = Some d →
     dict_keys d = result_set_names ∨ dict_keys d `prefix_of` method_names) ∧
  (∀ L inp key d,
     session_state w !! key = Some d →
     dict_keys d ≠ result_set_names →
     page_of L inp d
     = (Ok tt, [SidebarInfo processing_message; Info processing_message])).
Proof.
  intros [Hss Hscr]%reachable_all_or_nothing. split_and!; [done|done|].
  intros L inp key d Hd Hne. apply page_of_incomplete.
  destruct (dict_mem original_document d) eqn:Hmem; [|done].
  destruct Hne. by apply (dict_ok_complete d (Hss key d Hd)).
Qed.

Lemma result_set_visibility_witness :
  page_of (sample_libraries (Ok []) (Ok "# Title"))
    (mkInputs (Some "%PDF-1.7") ExampleOcrPdf 0) []
  = (Ok tt, [SidebarInfo processing_message; Info processing_message]).
Proof.
  apply (proj2 (proj2 (result_set_visibility
           (rerun (sample_libraries
                     (Raise (LibraryError "Unable to get page count."))
                     (Ok "# Title"))
                  (mkInputs (Some "%PDF-1.7") ExampleOcrPdf 0) sample_world).2
           (reachable_rerun _ _ _ (reachable_start sample_os))))
           (sample_libraries (Ok []) (Ok "# Title"))
           (mkInputs (Some "%PDF-1.7") ExampleOcrPdf 0) "results" []).
  - by vm_compute.
  - discriminate.
Defined.

(** ** Worked examples *)

Example get_cache_filename_hidden :
  get_cache_filename "docs/.hidden" "docling" = "cache/.hidden_docling.md".
Proof. reflexivity. Qed.

Example get_cache_filename_two_dots :
  get_cache_filename "a.b/report.v2.pdf" "mistral" = "cache/report.v2_mistral.md".
Proof. reflexivity. Qed.

Example get_cache_filename_no_extension :
  get_cache_filename "examples/README" "pymupdf" = "cache/README_pymupdf.md".
Proof. reflexivity. Qed.

Example universal_newlines_crlf : universal_newlines crlf_text = lf_text.
Proof. reflexivity. Qed.

(** UTF-8: plain text and an accented letter are, a byte that cannot
    begin a character, a character cut short, an overlong form and a
    surrogate are not. *)
Example utf8_valid_samples :
  utf8_valid crlf_text = true ∧
  utf8_valid ("caf" +:+ String (ascii_of_nat 195) (String (ascii_of_nat 169) EmptyString))
  = true ∧
  utf8_valid (String (ascii_of_nat 255) EmptyString) = false ∧
  utf8_valid (String (ascii_of_nat 226) (String (ascii_of_nat 130) EmptyString))
  = false ∧
  utf8_valid (String (ascii_of_nat 192) (String (ascii_of_nat 128) EmptyString))
  = false ∧
  utf8_valid (String (ascii_of_nat 237)
                (String (ascii_of_nat 160) (String (ascii_of_nat 128) EmptyString)))
  = false.
Proof. by vm_compute. Qed.

(** A result set as the script makes them, and one with a text where the
    bytes of the document belong. *)
Example typed_results_samples :
  typed_results [ ("Pytesseract OCR", Text "one");
                  (original_document, Bytes "%PDF-1.7") ] = true ∧
  typed_results [ (original_document, Text "%PDF-1.7") ] = false.
Proof. by vm_compute. Qed.

(** A run on the first example document calls the four parsers and fills
    the cache, the message of the cloud method included. *)
Example example_run_fills_cache :
  let r := rerun (sample_libraries (Ok ["Scanned text"]) (Ok "# Title"))
             (mkInputs None ExampleOcrPdf 0) sample_world in
  r.1 = Ok tt ∧
  files (os r.2) !! "cache/Ocr_pytesseract.md"
  = Some (page_sections_from 1 ["Scanned text"]) ∧
  files (os r.2) !! "cache/Ocr_docling.md" = Some "# Title" ∧
  files (os r.2) !! "cache/Ocr_pymupdf.md" = Some "# Title" ∧
  files (os r.2) !! "cache/Ocr_mistral.md" = Some mistral_key_unset_message ∧
  dict_keys <$> session_state r.2 !! "results_example_Example_OCR_PDF"
  = Some result_set_names ∧
  invocations r.2 = 4%nat.
Proof. by vm_compute. Qed.

(** The cached message outlives the missing key: in a new session, with
    the key in the environment, the run takes the four texts from the
    cache and calls no parser. *)
Example cached_message_outlives_missing_key :
  let L := sample_libraries (Ok ["Scanned text"]) (Ok "# Title") in
  let inp := mkInputs None ExampleOcrPdf 0 in
  let o := os (rerun L inp sample_world).2 in
  let later :=
    mkWorld (mkOS (files o) (dirs o) (tmpdir o)
               {[ "MISTRAL_API_KEY" := "secret" ]} (ssl_unverified o))
      ∅ [] 0 in
  let r := rerun L inp later in
  r.1 = Ok tt ∧
  (dict_get "Mistral OCR" <$>
     session_state r.2 !! "results_example_Example_OCR_PDF")
  = Some (Some (Text mistral_key_unset_message)) ∧
  invocations r.2 = 0%nat.
Proof. by vm_compute. Qed.

(** * Further properties of the code

    What the code does beyond the properties of the specification: the
    cases of the cache wrapper, the adapters, and what a run of the script
    does to the disk, to the session and to the page.  The properties are
    numbered X1 to X25. *)

(** ** Cache files *)

Module CacheKeyFacts.
Import Str StrFacts OsPath.

Lemma app_inv_head (a x y : string) : a +:+ x = a +:+ y → x = y.
Proof.
  induction a as [|c a IH]; [done|]. rewrite !app_cons. intros [= H]. by apply IH.
Qed.

Lemma rfind_at (c : ascii) (a t : string) :
  mem c t = false → rfind c (a +:+ String c t) = Z.of_nat (String.length a).
Proof.
  intros H. rewrite rfind_app. simpl rfind. rewrite (rfind_absent _ _ H).
  simpl. rewrite Ascii.eqb_refl. simpl. lia.
Qed.

(** A string is cut in one way only at the last occurrence of a
    character. *)
Lemma cut_at_last (c : ascii) (a1 a2 t1 t2 : string) :
  mem c t1 = false → mem c t2 = false →
  a1 +:+ String c t1 = a2 +:+ String c t2 → a1 = a2 ∧ t1 = t2.
Proof.
  intros H1 H2 Heq.
  assert (String.length a1 = String.length a2) as Hlen.
  { apply Nat2Z.inj. rewrite <- (rfind_at c a1 t1 H1), <- (rfind_at c a2 t2 H2).
    by rewrite Heq. }
  assert (a1 = a2) as <-.
  { rewrite <- (take_app_length a1 (String c t1)), Heq, Hlen.
    apply take_app_length. }
  split; [done|]. apply app_inv_head in Heq. by injection Heq.
Qed.

Lemma parent_under (dir q : string) :
  mem sep q = false → parent (dir +:+ String sep q) = dir.
Proof.
  intros H. unfold parent. rewrite (rfind_at _ _ _ H), Nat2Z.id.
  apply take_app_length.
Qed.

End CacheKeyFacts.

Lemma cache_file_name_no_sep (example_path method_slug : string) :
  Str.mem OsPath.sep method_slug = false →
  Str.mem OsPath.sep (stem_of example_path +:+ "_" +:+ method_slug +:+ ".md")
  = false.
Proof.
  intros H. rewrite !StrFacts.mem_app, H. unfold stem_of.
  by rewrite OsPathFacts.splitext_root_no_sep
    by apply OsPathFacts.basename_no_sep.
Qed.

Lemma get_cache_filename_parent (example_path method_slug : string) :
  Str.mem OsPath.sep method_slug = false →
  parent (get_cache_filename example_path method_slug) = "cache".
Proof.
  intros H. rewrite get_cache_filename_unfold.
  apply (CacheKeyFacts.parent_under "cache").
  by apply cache_file_name_no_sep.
Qed.

(** X1. Whatever the path of the document (absolute, with [..] in it,
    without a name), the cache file of a method whose identifier has no
    separator lies directly in [cache]: its directory is [cache] and its
    name is the stem of the document, ['_'], the identifier and ['.md']. *)
Theorem cache_file_lies_in_cache_directory (example_path method_slug : string) :
  Str.mem OsPath.sep method_slug = false →
  parent (get_cache_filename example_path method_slug) = "cache" ∧
  OsPath.basename (get_cache_filename example_path method_slug)
  = stem_of example_path +:+ "_" +:+ method_slug +:+ ".md".
Proof.
  intros H. split; [by apply get_cache_filename_parent|].
  rewrite get_cache_filename_unfold.
  apply (OsPathFacts.basename_strips_directory "cache").
  by apply cache_file_name_no_sep.
Qed.

Lemma cache_file_lies_in_cache_directory_witness :
  parent (get_cache_filename "/etc/../secret.d/report.pdf" "docling") = "cache" ∧
  OsPath.basename (get_cache_filename "/etc/../secret.d/report.pdf" "docling")
  = stem_of "/etc/../secret.d/report.pdf" +:+ "_" +:+ "docling" +:+ ".md".
Proof.
  apply (cache_file_lies_in_cache_directory "/etc/../secret.d/report.pdf" "docling").
  reflexivity.
Defined.

(** X2. For method identifiers without an underscore, as the four of the
    script are, two cache files are the same exactly when the documents
    have the same stem and the methods are the same: the directory and
    the extension of a document do not tell two cache files apart, and
    nothing else is shared. *)
Theorem cache_file_shared_iff_same_stem (p1 p2 s1 s2 : string) :
  Str.mem "_" s1 = false → Str.mem "_" s2 = false →
  get_cache_filename p1 s1 = get_cache_filename p2 s2 ↔
  stem_of p1 = stem_of p2 ∧ s1 = s2.
Proof.
  intros H1 H2. rewrite !get_cache_filename_unfold.
  unfold cache_key_of_stem. fold (stem_of p1) (stem_of p2). split.
  - intros Heq. apply (CacheKeyFacts.app_inv_head "cache/") in Heq.
    change (stem_of p1 +:+ String "_" (s1 +:+ ".md")
            = stem_of p2 +:+ String "_" (s2 +:+ ".md")) in Heq.
    apply CacheKeyFacts.cut_at_last in Heq as [Hstem Hslug];
      [|by rewrite StrFacts.mem_app, ?H1, ?H2..].
    split; [done|].
    change (s1 +:+ String "." "md" = s2 +:+ String "." "md") in Hslug.
    by apply CacheKeyFacts.cut_at_last in Hslug as [? _].
  - by intros [-> ->].
Qed.

Lemma cache_file_shared_iff_same_stem_witness :
  get_cache_filename "examples/Ocr.pdf" "docling"
  = get_cache_filename "archive/2019/Ocr.txt" "docling".
Proof.
  apply (cache_file_shared_iff_same_stem "examples/Ocr.pdf"
           "archive/2019/Ocr.txt" "docling" "docling"); reflexivity || by split.
Defined.

(** ** The cache wrapper, case by case *)

Lemma path_exists_names (path : string) (o : OS) :
  Os.path_exists path o = false ↔ files o !! path = None ∧ path ∉ dirs o.
Proof.
  split; [apply path_exists_false|]. intros [Hf Hd]. unfold Os.path_exists.
  rewrite Hf. apply orb_false_iff. split; apply bool_decide_eq_false_2; [|done].
  by intros [? ?].
Qed.

Lemma write_text_in_directory (path text : string) (o : OS) :
  path ∉ dirs o → parent path ∈ dirs o →
  Os.write_text path text o = (Ok tt, set_files (λ f, <[path := text]> f) o).
Proof.
  intros Hp Hd. unfold Os.write_text. rewrite bind_run. cbn [get].
  rewrite (bool_decide_eq_false_2 _ Hp), (bool_decide_eq_true_2 _ Hd).
  by rewrite orb_true_r.
Qed.

Lemma write_text_no_directory (path text : string) (o : OS) :
  path ∉ dirs o → parent path ≠ EmptyString → parent path ∉ dirs o →
  Os.write_text path text o = (Raise (FileNotFoundError path), o).
Proof.
  intros Hp Hne Hd. unfold Os.write_text. rewrite bind_run. cbn [get].
  rewrite (bool_decide_eq_false_2 _ Hp), (bool_decide_eq_false_2 _ Hd).
  by destruct (parent path).
Qed.

(** The wrapper on a miss, for a parser that leaves the regular files and
    the directories alone: the state in which the result is written. *)
Lemma miss_then_parser (example_path slug pdf_bytes : string)
    (parser : Parser) (w : World) :
  Os.path_exists (get_cache_filename example_path slug) (os w) = false →
  files (os w) !! example_path = Some pdf_bytes →
  leaves_temp_copy parser →
  ∃ r s' o',
    parser (BytesIO_new pdf_bytes, os w) = (r, (s', o')) ∧
    files o' = files (os w) ∧ dirs o' = dirs (os w) ∧
    environ o' = environ (os w) ∧
    tmpdir o' = tmpdir (os w) ++ [pdf_bytes] ∧
    get_cached_conversion example_path slug parser w
    = match r with
      | Ok result =>
          let '(written, o'') :=
            Os.write_text (get_cache_filename example_path slug) result o' in
          match written with
          | Ok _ =>
              (Ok result,
               set_os (λ _, o'') (set_os (λ _, o') (set_invocations S w)))
          | Raise e =>
              (Raise e,
               set_os (λ _, o'') (set_os (λ _, o') (set_invocations S w)))
          end
      | Raise e => (Raise e, set_os (λ _, o') (set_invocations S w))
      end.
Proof.
  intros Hmiss Hdoc Hp.
  rewrite (get_cached_conversion_miss _ _ _ parser w Hmiss Hdoc).
  specialize (Hp (BytesIO_new pdf_bytes) (os w)).
  destruct (parser (BytesIO_new pdf_bytes, os w)) as [r [s' o']].
  destruct Hp as (_ & Ht & Hf & Hd & He).
  exists r, s', o'. by split_and!.
Qed.

(** X3. A cache hit: when the cache file exists and holds UTF-8 text,
    the wrapper returns its text as a text-mode read gives it, whatever
    the parser and whether or not the document still exists; no parser
    is called and nothing changes on disk, in the session or on the
    page.  (On a file that is not UTF-8 the read of line 106 raises
    [UnicodeDecodeError]; nothing is stated of it.) *)
Theorem cache_hit_changes_nothing (example_path slug content : string)
    (parser : Parser) (w : World) :
  files (os w) !! get_cache_filename example_path slug = Some content →
  utf8_valid content = true →
  get_cached_conversion example_path slug parser w
  = (Ok (universal_newlines content), w).
Proof. intros Hfile _. by apply get_cached_conversion_hit. Qed.

Lemma cache_hit_changes_nothing_witness :
  get_cached_conversion "examples/Ocr.pdf" "docling"
    (parse_with_docling (sample_libraries (Ok []) (Raise (LibraryError "no model"))))
    (mkWorld (mkOS {[ "cache/Ocr_docling.md" := crlf_text ]} {[ "cache" ]} [] ∅ false)
       ∅ [] 0)
  = (Ok (universal_newlines crlf_text),
     mkWorld (mkOS {[ "cache/Ocr_docling.md" := crlf_text ]} {[ "cache" ]} [] ∅ false)
       ∅ [] 0).
Proof.
  apply (cache_hit_changes_nothing "examples/Ocr.pdf" "docling" crlf_text).
  - reflexivity.
  - reflexivity.
Defined.

(** The successful miss, step by step. *)
Lemma cache_miss_run (example_path slug pdf_bytes result : string)
    (parser : Parser) (w : World) :
  Str.mem OsPath.sep slug = false →
  "cache" ∈ dirs (os w) →
  Os.path_exists (get_cache_filename example_path slug) (os w) = false →
  files (os w) !! example_path = Some pdf_bytes →
  leaves_temp_copy parser →
  (parser (BytesIO_new pdf_bytes, os w)).1 = Ok result →
  (get_cached_conversion example_path slug parser w).1 = Ok result ∧
  files (os (get_cached_conversion example_path slug parser w).2)
  = <[get_cache_filename example_path slug := result]> (files (os w)) ∧
  tmpdir (os (get_cached_conversion example_path slug parser w).2)
  = tmpdir (os w) ++ [pdf_bytes] ∧
  invocations (get_cached_conversion example_path slug parser w).2
  = S (invocations w) ∧
  session_state (get_cached_conversion example_path slug parser w).2
  = session_state w ∧
  screen (get_cached_conversion example_path slug parser w).2 = screen w.
Proof.
  intros Hslug Hcache Hmiss Hdoc Hp Hr.
  destruct (miss_then_parser _ _ _ _ _ Hmiss Hdoc Hp)
    as (r & s' & o' & Hrun & Hf & Hd & _ & Ht & ->).
  rewrite Hrun in Hr. cbn [fst] in Hr. subst r.
  apply path_exists_names in Hmiss as [_ Hnodir].
  rewrite write_text_in_directory.
  - cbn [fst snd os set_os set_files files tmpdir session_state screen
         invocations set_invocations]. by rewrite Hf, Ht.
  - by rewrite Hd.
  - by rewrite (get_cache_filename_parent _ _ Hslug), Hd.
Qed.

(** X4. A cache miss that succeeds: when the cache file does not exist,
    the directory [cache] does, the document can be read and the parser
    returns a text, the wrapper returns that text and has written it to
    the cache file; the parser has been called once, on a stream of the
    whole document, and has left its temporary copy; no other file, the
    session and the page are as before. *)
Theorem cache_miss_stores_result (example_path slug pdf_bytes result : string)
    (parser : Parser) (w : World) :
  Str.mem OsPath.sep slug = false →
  "cache" ∈ dirs (os w) →
  Os.path_exists (get_cache_filename example_path slug) (os w) = false →
  files (os w) !! example_path = Some pdf_bytes →
  leaves_temp_copy parser →
  (parser (BytesIO_new pdf_bytes, os w)).1 = Ok result →
  (get_cached_conversion example_path slug parser w).1 = Ok result ∧
  files (os (get_cached_conversion example_path slug parser w).2)
  = <[get_cache_filename example_path slug := result]> (files (os w)) ∧
  tmpdir (os (get_cached_conversion example_path slug parser w).2)
  = tmpdir (os w) ++ [pdf_bytes] ∧
  invocations (get_cached_conversion example_path slug parser w).2
  = S (invocations w) ∧
  session_state (get_cached_conversion example_path slug parser w).2
  = session_state w ∧
  screen (get_cached_conversion example_path slug parser w).2 = screen w.
Proof. apply cache_miss_run. Qed.

Lemma cache_miss_stores_result_witness :
  (get_cached_conversion "examples/Ocr.pdf" "pymupdf"
     (parse_with_pymupdf (sample_libraries (Ok []) (Ok "# Title")))
     sample_world).1 = Ok "# Title".
Proof.
  apply (cache_miss_stores_result "examples/Ocr.pdf" "pymupdf" "%PDF-1.7"
           "# Title"
           (parse_with_pymupdf (sample_libraries (Ok []) (Ok "# Title")))
           sample_world).
  - reflexivity.
  - by vm_compute; set_solver.
  - by vm_compute.
  - reflexivity.
  - apply parse_with_pymupdf_leaves_temp_copy.
  - reflexivity.
Defined.

(** X5. A failed conversion is not cached: when the parser raises on a
    miss, the wrapper raises the same exception and writes nothing; the
    cache file still does not exist, so the next call with the same key
    calls a parser again; the temporary copy of the document is left all
    the same. *)
Theorem failed_conversion_is_not_cached (example_path slug pdf_bytes : string)
    (parser : Parser) (w : World) (e : Exn) :
  Os.path_exists (get_cache_filename example_path slug) (os w) = false →
  files (os w) !! example_path = Some pdf_bytes →
  leaves_temp_copy parser →
  (parser (BytesIO_new pdf_bytes, os w)).1 = Raise e →
  (get_cached_conversion example_path slug parser w).1 = Raise e ∧
  files (os (get_cached_conversion example_path slug parser w).2)
  = files (os w) ∧
  Os.path_exists (get_cache_filename example_path slug)
    (os (get_cached_conversion example_path slug parser w).2) = false ∧
  tmpdir (os (get_cached_conversion example_path slug parser w).2)
  = tmpdir (os w) ++ [pdf_bytes] ∧
  invocations (get_cached_conversion example_path slug parser w).2
  = S (invocations w).
Proof.
  intros Hmiss Hdoc Hp Hr.
  destruct (miss_then_parser _ _ _ _ _ Hmiss Hdoc Hp)
    as (r & s' & o' & Hrun & Hf & Hd & _ & Ht & ->).
  rewrite Hrun in Hr. cbn [fst] in Hr. subst r.
  cbn [fst snd os set_os invocations set_invocations].
  split_and!; try done.
  apply path_exists_names. rewrite Hf, Hd. by apply path_exists_names.
Qed.

Lemma failed_conversion_is_not_cached_witness :
  (get_cached_conversion "examples/Ocr.pdf" "pymupdf"
     (parse_with_pymupdf
        (sample_libraries (Ok []) (Raise (LibraryError "not a PDF"))))
     sample_world).1 = Raise (LibraryError "not a PDF").
Proof.
  apply (failed_conversion_is_not_cached "examples/Ocr.pdf" "pymupdf" "%PDF-1.7"
           (parse_with_pymupdf
              (sample_libraries (Ok []) (Raise (LibraryError "not a PDF"))))
           sample_world (LibraryError "not a PDF")).
  - by vm_compute.
  - reflexivity.
  - apply parse_with_pymupdf_leaves_temp_copy.
  - reflexivity.
Defined.



(** X7. The wrapper calls the parser before it opens the cache file for
    writing: when nothing is named [cache], the parser is called and
    leaves its temporary copy, and its result is lost, the wrapper
    raising [FileNotFoundError] for the cache file, which is not
    written. *)
Theorem result_lost_without_cache_directory
    (example_path slug pdf_bytes result : string) (parser : Parser) (w : World) :
  Str.mem OsPath.sep slug = false →
  Os.path_exists "cache" (os w) = false →
  Os.path_exists (get_cache_filename example_path slug) (os w) = false →
  files (os w) !! example_path = Some pdf_bytes →
  leaves_temp_copy parser →
  (parser (BytesIO_new pdf_bytes, os w)).1 = Ok result →
  (get_cached_conversion example_path slug parser w).1
  = Raise (FileNotFoundError (get_cache_filename example_path slug)) ∧
  files (os (get_cached_conversion example_path slug parser w).2)
  = files (os w) ∧
  tmpdir (os (get_cached_conversion example_path slug parser w).2)
  = tmpdir (os w) ++ [pdf_bytes] ∧
  invocations (get_cached_conversion example_path slug parser w).2
  = S (invocations w).
Proof.
  intros Hslug [_ Hcache]%path_exists_names Hmiss Hdoc Hp Hr.
  destruct (miss_then_parser _ _ _ _ _ Hmiss Hdoc Hp)
    as (r & s' & o' & Hrun & Hf & Hd & _ & Ht & ->).
  rewrite Hrun in Hr. cbn [fst] in Hr. subst r.
  apply path_exists_names in Hmiss as [_ Hnodir].
  rewrite write_text_no_directory.
  - cbn [fst snd os set_os invocations set_invocations]. by rewrite Hf, Ht.
  - by rewrite Hd.
  - by rewrite (get_cache_filename_parent _ _ Hslug).
  - by rewrite (get_cache_filename_parent _ _ Hslug), Hd.
Qed.

Lemma result_lost_without_cache_directory_witness :
  (get_cached_conversion "Ocr.pdf" "pymupdf"
     (parse_with_pymupdf (sample_libraries (Ok []) (Ok "# Title")))
     (mkWorld (mkOS {[ "Ocr.pdf" := "%PDF-1.7" ]} ∅ [] ∅ false) ∅ [] 0)).1
  = Raise (FileNotFoundError (get_cache_filename "Ocr.pdf" "pymupdf")).
Proof.
  apply (result_lost_without_cache_directory "Ocr.pdf" "pymupdf" "%PDF-1.7"
           "# Title"
           (parse_with_pymupdf (sample_libraries (Ok []) (Ok "# Title")))
           (mkWorld (mkOS {[ "Ocr.pdf" := "%PDF-1.7" ]} ∅ [] ∅ false) ∅ [] 0)).
  - reflexivity.
  - by vm_compute.
  - by vm_compute.
  - reflexivity.
  - apply parse_with_pymupdf_leaves_temp_copy.
  - reflexivity.
Defined.

(** X8. After a call of the wrapper that returned, a call with the same
    key returns the first result with its carriage returns turned into
    line feeds, the first result itself when it has none, whatever the
    parser it is given; it calls no parser and changes nothing; over the
    two calls a parser has been called at most once. *)
Theorem second_call_reads_cache (example_path slug : string) (f g : Parser)
    (w w' : World) (r : string) :
  get_cached_conversion example_path slug f w = (Ok r, w') →
  get_cached_conversion example_path slug g w'
  = (Ok (universal_newlines r), w') ∧
  (Str.mem CR r = false →
   get_cached_conversion example_path slug g w' = (Ok r, w')) ∧
  (invocations w' ≤ S (invocations w))%nat.
Proof.
  intros Hfirst.
  destruct (get_cached_conversion_twice _ _ f g _ _ _ Hfirst) as (H2 & Hn & _).
  split_and!; [done| |done].
  intros Hcr. by apply (get_cached_conversion_round_trip _ _ f g w).
Qed.

Lemma second_call_reads_cache_witness :
  get_cached_conversion "examples/Ocr.pdf" "pymupdf"
    (parse_with_pymupdf (sample_libraries (Ok []) (Raise (LibraryError "gone"))))
    (get_cached_conversion "examples/Ocr.pdf" "pymupdf"
       (parse_with_pymupdf (sample_libraries (Ok []) (Ok "# Title")))
       sample_world).2
  = (Ok (universal_newlines "# Title"),
     (get_cached_conversion "examples/Ocr.pdf" "pymupdf"
        (parse_with_pymupdf (sample_libraries (Ok []) (Ok "# Title")))
        sample_world).2).
Proof.
  refine (proj1 (second_call_reads_cache "examples/Ocr.pdf" "pymupdf"
           (parse_with_pymupdf (sample_libraries (Ok []) (Ok "# Title")))
           (parse_with_pymupdf
              (sample_libraries (Ok []) (Raise (LibraryError "gone"))))
           sample_world
           (get_cached_conversion "examples/Ocr.pdf" "pymupdf"
              (parse_with_pymupdf (sample_libraries (Ok []) (Ok "# Title")))
              sample_world).2
           "# Title" _)).
  by vm_compute.
Defined.

(** X9. The message about the missing key is cached like a result: on a
    miss without a credential the wrapper around the cloud method writes
    the message to the cache file of the document; from then on, as long
    as that file is there, the wrapper returns the message whatever the
    environment holds, and the service is not called. *)
Theorem missing_key_message_is_cached (L : Libraries)
    (example_path pdf_bytes : string) (w : World) :
  credential (environ (os w) !! "MISTRAL_API_KEY") = None →
  "cache" ∈ dirs (os w) →
  Os.path_exists (get_cache_filename example_path "mistral") (os w) = false →
  files (os w) !! example_path = Some pdf_bytes →
  (get_cached_conversion example_path "mistral" (parse_with_mistral L) w).1
  = Ok mistral_key_unset_message ∧
  files (os (get_cached_conversion example_path "mistral"
               (parse_with_mistral L) w).2)
    !! get_cache_filename example_path "mistral"
  = Some mistral_key_unset_message ∧
  ∀ L' env,
    let later :=
      set_os (with_environ env)
        (get_cached_conversion example_path "mistral"
           (parse_with_mistral L) w).2 in
    get_cached_conversion example_path "mistral" (parse_with_mistral L') later
    = (Ok mistral_key_unset_message, later).
Proof.
  intros Hkey Hcache Hmiss Hdoc.
  assert ((parse_with_mistral L (BytesIO_new pdf_bytes, os w)).1
          = Ok mistral_key_unset_message) as Hr.
  { rewrite parse_with_mistral_run. unfold mistral_text. by rewrite Hkey. }
  destruct (cache_miss_run example_path "mistral" pdf_bytes
              mistral_key_unset_message (parse_with_mistral L) w
              eq_refl Hcache Hmiss Hdoc
              (parse_with_mistral_leaves_temp_copy L) Hr)
    as (Hres & Hfiles & _).
  assert (files (os (get_cached_conversion example_path "mistral"
                       (parse_with_mistral L) w).2)
            !! get_cache_filename example_path "mistral"
          = Some mistral_key_unset_message) as Hfile
    by (rewrite Hfiles; apply lookup_insert_eq).
  split_and!; [done|done|].
  intros L' env later.
  rewrite (get_cached_conversion_hit _ _ mistral_key_unset_message); [done|].
  exact Hfile.
Qed.

Lemma missing_key_message_is_cached_witness :
  (get_cached_conversion "examples/Ocr.pdf" "mistral"
     (parse_with_mistral (sample_libraries (Ok []) (Ok "# Title")))
     sample_world).1
  = Ok mistral_key_unset_message.
Proof.
  apply (missing_key_message_is_cached (sample_libraries (Ok []) (Ok "# Title"))
           "examples/Ocr.pdf" "%PDF-1.7" sample_world).
  - reflexivity.
  - by vm_compute; set_solver.
  - by vm_compute.
  - reflexivity.
Defined.

(** ** The adapters *)

Lemma join_pages_markdown (pages : list string) (output : string) :
  join_pages pages output = output +:+ pages_markdown pages.
Proof.
  revert output. induction pages as [|page rest IH]; intros output.
  - by rewrite StrFacts.app_nil_r.
  - cbn [join_pages pages_markdown]. rewrite IH.
    by rewrite !StrFacts.app_assoc.
Qed.

Lemma pages_markdown_cons (page : string) (rest : list string) :
  pages_markdown (page :: rest)
  = (page +:+ newline +:+ newline) +:+ pages_markdown rest.
Proof. cbn [pages_markdown]. by rewrite !StrFacts.app_assoc. Qed.

Lemma pages_markdown_contains (pages : list string) (k : nat) (page : string) :
  pages !! k = Some page →
  Str.contains (page +:+ newline +:+ newline) (pages_markdown pages) = true.
Proof.
  revert k. induction pages as [|p rest IH]; intros [|k] H; try discriminate H;
    rewrite pages_markdown_cons.
  - injection H as ->. apply ContainsFacts.contains_prefix.
  - apply ContainsFacts.contains_app_r. by apply (IH k).
Qed.

(** X10. With a key in the environment and a service that answers, the
    cloud method returns the markdown of the pages of the response in
    their order, each followed by an empty line; a response without pages
    gives the empty text. *)
Theorem parse_with_mistral_joins_pages (L : Libraries) (stream : BytesIO)
    (o : OS) (key uploaded_pdf signed_url : string) (pages : list string) :
  environ o !! "MISTRAL_API_KEY" = Some key → key ≠ EmptyString →
  mistral_files_upload L key (OsPath.basename (tmp_name (length (tmpdir o))))
    (remaining stream) = Ok uploaded_pdf →
  mistral_get_signed_url L key uploaded_pdf = Ok signed_url →
  mistral_ocr_process L key "mistral-ocr-latest" signed_url = Ok pages →
  (parse_with_mistral L (stream, o)).1 = Ok (pages_markdown pages) ∧
  (∀ k page, pages !! k = Some page →
     Str.contains (page +:+ newline +:+ newline) (pages_markdown pages) = true) ∧
  (pages = [] → (parse_with_mistral L (stream, o)).1 = Ok EmptyString).
Proof.
  intros Hkey Hne Hup Hurl Hocr.
  assert ((parse_with_mistral L (stream, o)).1 = Ok (pages_markdown pages)) as Hrun.
  { rewrite parse_with_mistral_run. unfold mistral_text. rewrite Hkey.
    cbn [credential fst]. destruct key as [|c key]; [done|]. cbn [Str.falsy].
    by rewrite Hup, Hurl, Hocr, join_pages_markdown. }
  split_and!; [done|apply pages_markdown_contains|].
  intros ->. exact Hrun.
Qed.

Lemma parse_with_mistral_joins_pages_witness :
  (parse_with_mistral (sample_libraries (Ok []) (Ok EmptyString))
     (BytesIO_new "%PDF-1.7",
      mkOS ∅ ∅ [] {[ "MISTRAL_API_KEY" := "secret" ]} false)).1
  = Ok (pages_markdown ["page"]).
Proof.
  apply (parse_with_mistral_joins_pages
           (sample_libraries (Ok []) (Ok EmptyString)) (BytesIO_new "%PDF-1.7")
           (mkOS ∅ ∅ [] {[ "MISTRAL_API_KEY" := "secret" ]} false)
           "secret" "tmp0.pdf" "https://files/tmp0.pdf" ["page"]).
  - reflexivity.
  - discriminate.
  - reflexivity.
  - reflexivity.
  - reflexivity.
Defined.

(** X11. [parse_with_docling] turns the certificate checks of the process
    off before it converts, whether the conversion returns or raises; the
    three other adapters leave the setting as it is; and nothing in a run
    of the script turns the checks on again. *)
Theorem docling_turns_certificate_checks_off (L : Libraries) :
  (∀ stream o, ssl_unverified (parse_with_docling L (stream, o)).2.2 = true) ∧
  (∀ stream o,
     ssl_unverified (parse_with_pytesseract L (stream, o)).2.2 = ssl_unverified o ∧
     ssl_unverified (parse_with_pymupdf L (stream, o)).2.2 = ssl_unverified o ∧
     ssl_unverified (parse_with_mistral L (stream, o)).2.2 = ssl_unverified o) ∧
  (∀ inp w,
     ssl_unverified (os w) = true →
     ssl_unverified (os (rerun L inp w).2) = true).
Proof.
  split_and!.
  - intros stream o. by rewrite parse_with_docling_run.
  - intros stream o.
    by rewrite parse_with_pytesseract_run, parse_with_pymupdf_run,
      parse_with_mistral_run.
  - intros inp w Hw. unfold rerun.
    pose proof (script_keeps_checks_off L inp (set_screen (λ _, []) w) Hw) as H.
    by destruct (script L inp _) as [[[]|e] w'].
Qed.

Lemma docling_turns_certificate_checks_off_witness :
  ssl_unverified
    (os (rerun (sample_libraries (Ok []) (Ok "# Title"))
           (mkInputs None ExampleNonOcrPdf 0)
           (mkWorld (set_ssl_unverified true sample_os) ∅ [] 0)).2) = true.
Proof.
  apply (proj2 (proj2 (docling_turns_certificate_checks_off
                         (sample_libraries (Ok []) (Ok "# Title"))))).
  reflexivity.
Defined.

(** ** Loading the document *)

Section Loading.

Context (L : Libraries).

(** [load_pdf] returns whatever the disk holds: an error of the read is
    caught; the operating system and the session are as before. *)
Lemma load_pdf_run (inp : Inputs) (w : World) :
  load_pdf inp w
  = (Ok (source_of inp, loaded_bytes inp (os w)),
     set_screen
       (λ scr, scr ++ [source_message inp (loaded_bytes inp (os w))]) w).
Proof.
  unfold load_pdf, source_of, loaded_bytes, source_message.
  destruct (uploaded_file inp) as [data|]; [by run_steps|].
  rewrite bind_run, try_except_run, bind_run, with_os_run, read_bytes_state.
  rewrite world_eta.
  destruct (files (os w) !! example_path_of (example_choice inp))
    as [content|] eqn:Hfile.
  - rewrite (read_bytes_found _ _ _ Hfile). cbn [fst]. by run_steps.
  - destruct (read_bytes_missing _ _ Hfile) as [e ->]. cbn [fst].
    by run_steps.
Qed.

(** The script from the loading of the document on. *)
Lemma script_loaded (inp : Inputs) (w : World) :
  script L inp w
  = match has_content (loaded_bytes inp (os w)) with
    | Some pdf_bytes =>
        ((match source_of inp with
          | Uploaded => process_uploaded L pdf_bytes
          | Example => process_example L (example_choice inp) pdf_bytes
          end) ≫= show_results L inp)
          (loaded (source_message inp (loaded_bytes inp (os w))) w)
    | None =>
        st please_upload
          (loaded (source_message inp (loaded_bytes inp (os w))) w)
    end.
Proof.
  rewrite script_top, bind_run, load_pdf_run.
  cbn [os]. unfold loaded_bytes at 1 2 3.
  rewrite with_cache_directory_files.
  fold (loaded_bytes inp (os w)).
  replace (set_screen _ _)
    with (loaded (source_message inp (loaded_bytes inp (os w))) w).
  - by destruct (has_content (loaded_bytes inp (os w))).
  - unfold loaded, set_screen. cbn [os session_state screen invocations].
    by rewrite <- !app_assoc.
Qed.

End Loading.

(** X12. [load_pdf] never raises: an uploaded file is taken as it is; an
    example file is read, and any error of the read, a directory in its
    place as well as a missing file, is caught and reported as a file not
    found, the run going on without a document. The operating system and the session are left as they are and
    one message is added to the sidebar. *)
Theorem load_pdf_never_raises (inp : Inputs) (w : World) :
  (load_pdf inp w).1 = Ok (source_of inp, loaded_bytes inp (os w)) ∧
  os (load_pdf inp w).2 = os w ∧
  session_state (load_pdf inp w).2 = session_state w ∧
  invocations (load_pdf inp w).2 = invocations w ∧
  screen (load_pdf inp w).2
  = screen w ++ [source_message inp (loaded_bytes inp (os w))] ∧
  (uploaded_file inp = None →
   files (os w) !! example_path_of (example_choice inp) = None →
   loaded_bytes inp (os w) = None ∧
   source_message inp (loaded_bytes inp (os w))
   = SidebarError ("Example file not found: "
                   +:+ example_path_of (example_choice inp))).
Proof.
  rewrite load_pdf_run. split_and!; try done.
  intros Hup Hfile. unfold source_message, loaded_bytes.
  by rewrite Hup, Hfile.
Qed.

Lemma load_pdf_never_raises_witness :
  loaded_bytes (mkInputs None ExampleOcrPdf 0)
    (os (mkWorld (mkOS ∅ {[ "examples/Ocr.pdf" ]} [] ∅ false) ∅ [] 0)) = None ∧
  source_message (mkInputs None ExampleOcrPdf 0)
    (loaded_bytes (mkInputs None ExampleOcrPdf 0)
       (os (mkWorld (mkOS ∅ {[ "examples/Ocr.pdf" ]} [] ∅ false) ∅ [] 0)))
  = SidebarError "Example file not found: examples/Ocr.pdf".
Proof.
  apply (proj2 (proj2 (proj2 (proj2 (proj2
           (load_pdf_never_raises (mkInputs None ExampleOcrPdf 0)
              (mkWorld (mkOS ∅ {[ "examples/Ocr.pdf" ]} [] ∅ false) ∅ [] 0))))))).
  - reflexivity.
  - reflexivity.
Defined.

(** ** Documents that are not processed *)

(** X13. An empty document is not processed: when the uploaded file, or
    the example file when nothing is uploaded, has no bytes, the run says
    in the sidebar that the upload succeeded, or which example is used,
    and then asks for a document; no parser is called and the session is
    as before. *)
Theorem empty_document_is_not_processed (L : Libraries) (inp : Inputs)
    (w : World) :
  loaded_bytes inp (os w) = Some EmptyString →
  rerun L inp w
  = (Ok tt,
     mkWorld (with_cache_directory (os w)) (session_state w)
       (page_top ++ [source_message inp (Some EmptyString); please_upload])
       (invocations w)).
Proof.
  intros Hbytes. unfold rerun. rewrite script_loaded.
  cbn [os set_screen]. rewrite Hbytes. cbn [has_content Str.falsy].
  rewrite st_run. unfold loaded, set_screen.
  cbn [os session_state screen invocations app].
  by rewrite <- app_assoc.
Qed.

Lemma empty_document_is_not_processed_witness :
  rerun (sample_libraries (Ok []) (Ok "# Title"))
    (mkInputs (Some EmptyString) ExampleOcrPdf 0) sample_world
  = (Ok tt,
     mkWorld (with_cache_directory sample_os) ∅
       (page_top ++ [SidebarSuccess "PDF uploaded successfully!"; please_upload])
       0).
Proof.
  apply (empty_document_is_not_processed
           (sample_libraries (Ok []) (Ok "# Title"))
           (mkInputs (Some EmptyString) ExampleOcrPdf 0) sample_world).
  reflexivity.
Defined.

(** ** The page of a result set *)

Section PageShape.

Context (L : Libraries).

Lemma display_pdf_frame (file_bytes : string) :
  display_pdf L file_bytes = st (Markdown (pdf_frame L file_bytes) true).
Proof. reflexivity. Qed.

(** The page of a set with its original document: the selector offers
    the keys of the set, and the entry picked is shown, the document in a
    frame and a text as markdown. *)
Lemma page_of_selected (inp : Inputs) (d : Dict) :
  dict_mem original_document d = true →
  ∃ v,
    dict_get (radio_value (dict_keys d) (method_choice inp)) d = Some v ∧
    page_of L inp d
    = (Ok tt,
       [ SidebarHeader "Method Options";
         SidebarRadio method_selector_label (dict_keys d);
         Header (radio_value (dict_keys d) (method_choice inp));
         if String.eqb (radio_value (dict_keys d) (method_choice inp))
              original_document
         then Markdown (pdf_frame L (payload v)) true
         else Markdown (payload v) false ]).
Proof.
  intros Hmem.
  assert (radio_value (dict_keys d) (method_choice inp) ∈ dict_keys d) as Hin.
  { apply radio_value_in. apply dict_mem_keys in Hmem.
    intros Hnil. rewrite Hnil in Hmem. by apply elem_of_nil in Hmem. }
  apply dict_get_keys in Hin as [v Hv]. exists v. split; [done|].
  unfold page_of, show_results, getitem, display_pdf, pdf_frame.
  rewrite Hmem. cbn [negb].
  destruct (String.eqb_spec
              (radio_value (dict_keys d) (method_choice inp))
              original_document) as [Heq|Hne].
  - rewrite Heq in Hv. rewrite Hv. by run_steps.
  - rewrite Hv. by run_steps.
Qed.

Lemma page_of_returns (inp : Inputs) (d : Dict) : (page_of L inp d).1 = Ok tt.
Proof.
  destruct (dict_mem original_document d) eqn:Hmem.
  - by destruct (page_of_selected inp d Hmem) as (v & _ & ->).
  - by rewrite page_of_incomplete.
Qed.

End PageShape.

Lemma typed_results_app (d1 d2 : Dict) :
  typed_results (d1 ++ d2) = typed_results d1 && typed_results d2.
Proof. apply forallb_app. Qed.

Lemma run_until_failure_typed (steps : list (string * M World string))
    (w : World) :
  original_document ∉ steps.*1 →
  typed_results (run_until_failure steps w).1.1 = true.
Proof.
  revert w. induction steps as [|step rest IH]; intros w Hnot; [done|].
  cbn [run_until_failure].
  destruct (step.2 w) as [[text|e] w1]; [|done].
  specialize (IH w1).
  destruct (run_until_failure rest w1) as [[d failure] w2].
  cbn [fst snd typed_results forallb typed_entry] in *.
  apply andb_true_iff. split.
  - apply negb_true_iff, String.eqb_neq. intros Heq. apply Hnot.
    rewrite <- Heq. cbn. by left.
  - apply IH. intros Hin. apply Hnot. cbn. by right.
Qed.

(** The result set of an example, made in a session that had none, holds
    texts under the methods and the bytes of the document under
    [original_document]. *)
Lemma process_example_typed (L : Libraries) (choice : ExampleChoice)
    (doc : string) (w : World) (d : Dict) :
  session_state w !! example_key_of choice = None →
  (process_example L choice doc w).1 = Ok d → typed_results d = true.
Proof.
  intros Hfresh. rewrite (process_example_fresh L choice doc w Hfresh).
  unfold example_run, fill_run.
  pose proof (run_until_failure_typed (example_steps L choice) w) as Ht.
  destruct (run_until_failure (example_steps L choice) w)
    as [[d' failure] w1].
  destruct failure; [done|]. cbn [fst snd] in *. intros [= <-].
  rewrite typed_results_app, Ht; [done|].
  rewrite example_steps_names. apply original_document_not_method.
Qed.

Lemma process_uploaded_typed (L : Libraries) (doc : string) (w : World)
    (d : Dict) :
  session_state w !! "results" = None →
  (process_uploaded L doc w).1 = Ok d → typed_results d = true.
Proof.
  intros Hfresh. rewrite (process_uploaded_fresh L doc w Hfresh).
  unfold uploaded_run, extraction_outcomes.
  destruct (pytesseract_text L doc) as [t1|e1];
    [destruct (docling_convert_to_markdown L doc) as [t2|e2];
     [destruct (pymupdf_to_markdown L doc) as [t3|e3];
      [destruct (mistral_text L _ _ doc) as [t4|e4]|]|]|];
    cbn [collect_until_failure fst snd]; intros [= <-]. done.
Qed.

(** X14. [show_results] never raises on a result set as the script makes
    them, with texts under the methods and bytes under the original
    document, whichever entries it has: the entry it looks up is the one
    picked in a selector made of the keys of the dictionary, or the
    original document after the test that it is there. It reads and
    changes nothing but the page, and when the document is there the
    method shown is a key of the set.  (Of a dictionary with a text
    under the original document, for which line 90 raises [TypeError],
    nothing is stated.) *)
Theorem show_results_never_raises (L : Libraries) (inp : Inputs)
    (results : Dict) (w : World) :
  typed_results results = true →
  (show_results L inp results w).1 = Ok tt ∧
  os (show_results L inp results w).2 = os w ∧
  session_state (show_results L inp results w).2 = session_state w ∧
  invocations (show_results L inp results w).2 = invocations w ∧
  (dict_mem original_document results = true →
   radio_value (dict_keys results) (method_choice inp) ∈ dict_keys results ∧
   Header (radio_value (dict_keys results) (method_choice inp))
     ∈ screen (show_results L inp results w).2).
Proof.
  intros _. rewrite show_results_run. cbn [fst snd set_screen os session_state
    invocations screen].
  split_and!; [apply page_of_returns|done|done|done|].
  intros Hmem.
  destruct (page_of_selected L inp results Hmem) as (v & Hv & ->).
  split; [apply dict_get_keys; eauto|].
  cbn [snd]. set_solver.
Qed.

Lemma show_results_never_raises_witness :
  radio_value (dict_keys [(original_document, Bytes "%PDF-1.7")]) 7
    ∈ dict_keys [(original_document, Bytes "%PDF-1.7")] ∧
  Header (radio_value (dict_keys [(original_document, Bytes "%PDF-1.7")]) 7)
    ∈ screen (show_results (sample_libraries (Ok []) (Ok EmptyString))
                (mkInputs None ExampleOcrPdf 7)
                [(original_document, Bytes "%PDF-1.7")] sample_world).2.
Proof.
  apply (proj2 (proj2 (proj2 (proj2
           (show_results_never_raises (sample_libraries (Ok []) (Ok EmptyString))
              (mkInputs None ExampleOcrPdf 7)
              [(original_document, Bytes "%PDF-1.7")] sample_world
              eq_refl))))).
  reflexivity.
Defined.

(** X15. The page renders as HTML nothing but the frame of the original
    document: when [show_results] puts markdown on the page with
    [unsafe_allow_html], the entry picked is the original document and
    the markdown is the frame [display_pdf] builds around its bytes;
    what an extraction method has returned is put there as plain
    markdown. *)
Theorem only_the_document_is_rendered_as_html (L : Libraries) (inp : Inputs)
    (results : Dict) (body : string) :
  Markdown body true ∈ (page_of L inp results).2 →
  radio_value (dict_keys results) (method_choice inp) = original_document ∧
  ∃ v, dict_get original_document results = Some v ∧
       body = pdf_frame L (payload v).
Proof.
  intros Hin. destruct (dict_mem original_document results) eqn:Hmem.
  - destruct (page_of_selected L inp results Hmem) as (v & Hv & Hpage).
    rewrite Hpage in Hin. cbn [snd] in Hin.
    destruct (String.eqb_spec
                (radio_value (dict_keys results) (method_choice inp))
                original_document) as [Heq|Hne].
    + split; [done|]. exists v. rewrite Heq in Hv. split; [done|].
      set_unfold in Hin. destruct Hin as [?|[?|[?|[?|[]]]]]; by simplify_eq.
    + set_unfold in Hin. destruct Hin as [?|[?|[?|[?|[]]]]]; by simplify_eq.
  - rewrite (page_of_incomplete L inp results Hmem) in Hin. cbn [snd] in Hin.
    set_unfold in Hin. destruct Hin as [?|[?|[]]]; by simplify_eq.
Qed.

Lemma only_the_document_is_rendered_as_html_witness :
  radio_value
    (dict_keys [("Mistral OCR", Text "<script>"); (original_document, Bytes "%PDF")])
    1 = original_document ∧
  ∃ v, dict_get original_document
         [("Mistral OCR", Text "<script>"); (original_document, Bytes "%PDF")]
       = Some v ∧
       pdf_frame (sample_libraries (Ok []) (Ok EmptyString)) "%PDF"
       = pdf_frame (sample_libraries (Ok []) (Ok EmptyString)) (payload v).
Proof.
  apply (only_the_document_is_rendered_as_html
           (sample_libraries (Ok []) (Ok EmptyString))
           (mkInputs None ExampleOcrPdf 1)
           [("Mistral OCR", Text "<script>"); (original_document, Bytes "%PDF")]
           (pdf_frame (sample_libraries (Ok []) (Ok EmptyString)) "%PDF")).
  vm_compute. set_solver.
Defined.

(** ** Result sets in the session *)

(** X16. The result set of an upload is made once in a session: as long
    as the session holds a dictionary under [results], a run on an
    uploaded document, this one or another, calls no parser and changes
    neither the session nor the disk but for the directory [cache]; it
    shows the page of that dictionary. A dictionary that a failed run
    has left without its original document is therefore never completed:
    every later run on an upload shows the processing message. *)
Theorem uploaded_results_are_made_once (L : Libraries) (inp : Inputs)
    (doc : string) (d : Dict) (w : World) :
  uploaded_file inp = Some doc → doc ≠ EmptyString →
  session_state w !! "results" = Some d →
  rerun L inp w
  = (Ok tt,
     mkWorld (with_cache_directory (os w)) (session_state w)
       (page_top ++ [SidebarSuccess "PDF uploaded successfully!"]
          ++ (page_of L inp d).2)
       (invocations w)) ∧
  (dict_mem original_document d = false →
   screen (rerun L inp w).2
   = page_top ++ [ SidebarSuccess "PDF uploaded successfully!";
                   SidebarInfo processing_message; Info processing_message ]).
Proof.
  intros Hup Hdoc Hd.
  assert (rerun L inp w
          = (Ok tt,
             mkWorld (with_cache_directory (os w)) (session_state w)
               (page_top ++ [SidebarSuccess "PDF uploaded successfully!"]
                  ++ (page_of L inp d).2)
               (invocations w))) as Hrun.
  { unfold rerun. rewrite script_loaded. unfold loaded_bytes, source_of,
      source_message. cbn [os set_screen]. rewrite Hup.
    rewrite (has_content_nonempty doc Hdoc), bind_run.
    rewrite (process_uploaded_again L doc d) by done.
    rewrite show_results_run, page_of_returns.
    unfold loaded, set_screen. cbn [os session_state screen invocations app].
    by rewrite <- !app_assoc. }
  split; [done|]. intros Hmem. rewrite Hrun. cbn [snd screen].
  by rewrite (page_of_incomplete L inp d Hmem).
Qed.

Lemma uploaded_results_are_made_once_witness :
  screen (rerun (sample_libraries (Ok ["Scanned text"]) (Ok "# Title"))
            (mkInputs (Some "second document") ExampleOcrPdf 0)
            (mkWorld sample_os {[ "results" := [] ]} [] 1)).2
  = page_top ++ [ SidebarSuccess "PDF uploaded successfully!";
                  SidebarInfo processing_message; Info processing_message ].
Proof.
  apply (proj2 (uploaded_results_are_made_once
                  (sample_libraries (Ok ["Scanned text"]) (Ok "# Title"))
                  (mkInputs (Some "second document") ExampleOcrPdf 0)
                  "second document" []
                  (mkWorld sample_os {[ "results" := [] ]} [] 1)
                  eq_refl ltac:(discriminate) eq_refl)).
  reflexivity.
Defined.

(** X17. The result set of an example is made once in a session, under a
    key of its own: as long as the session holds a dictionary under that
    key and the example file can be read and is not empty, a run on the
    example reads no cache file, calls no parser and changes neither the
    session nor the disk but for the directory [cache]; it shows the page
    of that dictionary, whatever the example file and the cache now
    hold. *)
Theorem example_results_are_made_once (L : Libraries) (inp : Inputs)
    (pdf_bytes : string) (d : Dict) (w : World) :
  uploaded_file inp = None →
  files (os w) !! example_path_of (example_choice inp) = Some pdf_bytes →
  pdf_bytes ≠ EmptyString →
  session_state w !! example_key_of (example_choice inp) = Some d →
  rerun L inp w
  = (Ok tt,
     mkWorld (with_cache_directory (os w)) (session_state w)
       (page_top
          ++ [SidebarInfo ("Using " +:+ example_label (example_choice inp))]
          ++ (page_of L inp d).2)
       (invocations w)).
Proof.
  intros Hup Hfile Hdoc Hd.
  unfold rerun. rewrite script_loaded. unfold loaded_bytes, source_of,
    source_message. cbn [os set_screen]. rewrite Hup, Hfile.
  rewrite (has_content_nonempty pdf_bytes Hdoc), bind_run.
  rewrite process_example_shape.
  rewrite (fill_result_set_again _ _ _ _ d) by done.
  rewrite show_results_run, page_of_returns.
  unfold loaded, set_screen. cbn [os session_state screen invocations app].
  by rewrite <- !app_assoc.
Qed.

Lemma example_results_are_made_once_witness :
  rerun (sample_libraries (Ok ["Scanned text"]) (Ok "# Title"))
    (mkInputs None ExampleOcrPdf 0)
    (mkWorld sample_os {[ "results_example_Example_OCR_PDF" := [] ]} [] 0)
  = (Ok tt,
     mkWorld (with_cache_directory sample_os)
       {[ "results_example_Example_OCR_PDF" := [] ]}
       (page_top ++ [SidebarInfo "Using Example OCR PDF"]
          ++ (page_of (sample_libraries (Ok ["Scanned text"]) (Ok "# Title"))
                (mkInputs None ExampleOcrPdf 0) []).2)
       0).
Proof.
  exact (example_results_are_made_once
           (sample_libraries (Ok ["Scanned text"]) (Ok "# Title"))
           (mkInputs None ExampleOcrPdf 0) "%PDF-1.7" []
           (mkWorld sample_os {[ "results_example_Example_OCR_PDF" := [] ]} [] 0)
           eq_refl eq_refl ltac:(discriminate) eq_refl).
Defined.

(** ** What a run does to the disk *)

Section Disk.

Context (L : Libraries) (fs0 : gmap string string) (allowed : list string)
  (ds : gset string).

Lemma invoke_disk (parser : Parser) (stream : BytesIO) :
  leaves_temp_copy parser →
  stable (disk_grown_by fs0 allowed ds) (invoke parser stream).
Proof.
  intros Hp. apply stable_invoke. intros w (Hsub & Hnew & Hd).
  specialize (Hp stream (os w)).
  destruct (parser (stream, os w)) as [r [s' o']].
  destruct Hp as (_ & _ & Hf & Hdd & _).
  unfold disk_grown_by. cbn [os set_os set_invocations fst snd].
  by rewrite Hf, Hdd.
Qed.

(** The wrapper writes its cache file only, and only when nothing has
    its name. *)
Lemma get_cached_conversion_disk (example_path slug : string)
    (parser : Parser) :
  leaves_temp_copy parser →
  get_cache_filename example_path slug ∈ allowed →
  stable (disk_grown_by fs0 allowed ds)
    (get_cached_conversion example_path slug parser).
Proof.
  intros Hp Hin w Hw. unfold get_cached_conversion.
  rewrite bind_run. cbn [get].
  destruct (Os.path_exists (get_cache_filename example_path slug) (os w))
    eqn:Hex.
  - rewrite bind_run, with_os_run, read_text_state, world_eta.
    by destruct (Os.read_text _ (os w)).1.
  - rewrite bind_run, with_os_run, read_bytes_state, world_eta.
    destruct (Os.read_bytes example_path (os w)).1 as [pdf_bytes|e]; [|done].
    rewrite bind_run.
    pose proof (invoke_disk parser (BytesIO_new pdf_bytes) Hp w Hw) as Hinv.
    assert (files (os (invoke parser (BytesIO_new pdf_bytes) w).2)
            = files (os w)) as Hfiles.
    { rewrite invoke_run. specialize (Hp (BytesIO_new pdf_bytes) (os w)).
      destruct (parser (BytesIO_new pdf_bytes, os w)) as [r [s' o']].
      by destruct Hp as (_ & _ & Hf & _). }
    destruct (invoke parser (BytesIO_new pdf_bytes) w) as [[result|e] w1];
      [|done].
    cbn [snd] in Hfiles. rewrite bind_run, with_os_run.
    destruct (write_text_run (get_cache_filename example_path slug) result
                (os w1)) as [->|[e ->]]; cbn [fst snd]; [|by rewrite world_eta].
    destruct Hinv as (Hsub & Hnew & Hd).
    apply path_exists_names in Hex as [Hnone _]. rewrite <- Hfiles in Hnone.
    unfold disk_grown_by, set_os, set_files. cbn [os files dirs].
    split_and!; [| |done].
    + etrans; [exact Hsub|]. by apply insert_subseteq.
    + intros path [c Hc].
      destruct (decide (path = get_cache_filename example_path slug))
        as [->|Hne].
      * by right.
      * cbn [os files] in Hc. rewrite lookup_insert_ne in Hc by done.
        apply Hnew. eauto.
Qed.

Lemma st_disk (u : Ui) : stable (disk_grown_by fs0 allowed ds) (st u).
Proof. apply stable_st. by intros w Hw. Qed.

Lemma process_uploaded_disk (inp : Inputs) (doc : string) :
  stable (disk_grown_by fs0 allowed ds)
    (process_uploaded L doc ≫= show_results L inp).
Proof.
  pose proof (parse_with_pytesseract_leaves_temp_copy L) as Hocr.
  pose proof (parse_with_docling_leaves_temp_copy L) as Hdoc.
  pose proof (parse_with_pymupdf_leaves_temp_copy L) as Hmu.
  pose proof (parse_with_mistral_leaves_temp_copy L) as Hmis.
  unfold process_uploaded, show_results, display_pdf, getitem,
    uploaded_methods, session_setitem, session_get, session_new_dict, st.
  repeat first
    [ stable_step
    | apply stable_modify; intros ? H; exact H
    | apply invoke_disk; assumption ].
Qed.

Lemma process_example_disk (inp : Inputs) (choice : ExampleChoice)
    (doc : string) :
  (∀ path, path ∈ cache_files_of choice → path ∈ allowed) →
  stable (disk_grown_by fs0 allowed ds)
    (process_example L choice doc ≫= show_results L inp).
Proof.
  intros Hall.
  pose proof (parse_with_pytesseract_leaves_temp_copy L) as Hocr.
  pose proof (parse_with_docling_leaves_temp_copy L) as Hdoc.
  pose proof (parse_with_pymupdf_leaves_temp_copy L) as Hmu.
  pose proof (parse_with_mistral_leaves_temp_copy L) as Hmis.
  unfold process_example, show_results, display_pdf, getitem,
    example_methods, session_setitem, session_get, session_new_dict, st.
  repeat first
    [ stable_step
    | apply stable_modify; intros ? H; exact H
    | apply get_cached_conversion_disk;
      [ assumption
      | apply Hall; unfold cache_files_of, method_slugs;
        cbn [fmap list_fmap]; set_solver ] ].
Qed.

End Disk.

(** The disk after a run: the files there were, with the new files the
    source allows, and the directories with [cache]. *)
Lemma rerun_disk (L : Libraries) (inp : Inputs) (w : World) :
  disk_grown_by (files (os w)) (new_files_of inp)
    (dirs (with_cache_directory (os w))) (rerun L inp w).2.
Proof.
  unfold rerun. rewrite script_loaded.
  set (w0 := loaded _ _).
  assert (disk_grown_by (files (os w)) (new_files_of inp)
            (dirs (with_cache_directory (os w))) w0) as Hw0.
  { unfold disk_grown_by, w0, loaded. cbn [os set_screen].
    rewrite with_cache_directory_files. split_and!; [done| |done].
    intros path Hpath. by left. }
  destruct (has_content _) as [pdf_bytes|].
  - unfold source_of, new_files_of in *.
    destruct (uploaded_file inp) as [data|].
    + pose proof (process_uploaded_disk L _ _ _ inp pdf_bytes w0 Hw0) as H.
      by destruct ((process_uploaded L pdf_bytes ≫= show_results L inp) w0)
        as [[[]|e] w'].
    + pose proof (process_example_disk L _ _ _ inp (example_choice inp)
                    pdf_bytes (λ _ H, H) w0 Hw0) as H.
      by destruct ((process_example L (example_choice inp) pdf_bytes
                      ≫= show_results L inp) w0) as [[[]|e] w'].
  - by rewrite st_run.
Qed.

(** X18. A run never changes or removes a regular file: the files there
    were before are there after it with the same contents. The only
    files it makes are cache files of the example it processes, none at
    all for an uploaded document; and the only directory it makes is
    [cache]. *)
Theorem run_only_adds_cache_files (L : Libraries) (inp : Inputs) (w : World) :
  files (os w) ⊆ files (os (rerun L inp w).2) ∧
  (∀ path,
     is_Some (files (os (rerun L inp w).2) !! path) →
     is_Some (files (os w) !! path) ∨
     (uploaded_file inp = None ∧ path ∈ cache_files_of (example_choice inp))) ∧
  dirs (os w) ⊆ dirs (os (rerun L inp w).2) ∧
  dirs (os (rerun L inp w).2) ⊆ {[ "cache" ]} ∪ dirs (os w).
Proof.
  destruct (rerun_disk L inp w) as (Hsub & Hnew & Hd).
  split_and!; [done| | |].
  - intros path Hpath. destruct (Hnew path Hpath) as [?|Hin]; [by left|].
    right. unfold new_files_of in Hin.
    destruct (uploaded_file inp); [by apply elem_of_nil in Hin | done].
  - rewrite Hd. unfold with_cache_directory.
    destruct (Os.path_exists "cache" (os w)); [done|].
    apply union_subseteq_r.
  - rewrite Hd. unfold with_cache_directory.
    destruct (Os.path_exists "cache" (os w)); [|done].
    apply union_subseteq_r.
Qed.

Lemma run_only_adds_cache_files_witness :
  is_Some (files (os sample_world) !! "cache/Ocr_docling.md") ∨
  (uploaded_file (mkInputs None ExampleOcrPdf 0) = None ∧
   "cache/Ocr_docling.md"
     ∈ cache_files_of (example_choice (mkInputs None ExampleOcrPdf 0))).
Proof.
  apply (proj1 (proj2 (run_only_adds_cache_files
                         (sample_libraries (Ok ["Scanned text"]) (Ok "# Title"))
                         (mkInputs None ExampleOcrPdf 0) sample_world))
           "cache/Ocr_docling.md").
  vm_compute. eauto.
Defined.

(** X19. After a run, however it ended, something is named [cache]: the
    directory is made at the top of the script when nothing has that
    name, and nothing in the run removes it. When a regular file has
    that name, no directory is made. *)
Theorem cache_exists_after_a_run (L : Libraries) (inp : Inputs) (w : World) :
  Os.path_exists "cache" (os (rerun L inp w).2) = true ∧
  (Os.path_exists "cache" (os w) = false →
   "cache" ∈ dirs (os (rerun L inp w).2)) ∧
  (is_Some (files (os w) !! "cache") →
   dirs (os (rerun L inp w).2) = dirs (os w)).
Proof.
  destruct (rerun_disk L inp w) as (Hsub & _ & Hd).
  assert (Os.path_exists "cache" (os w) = false →
          "cache" ∈ dirs (os (rerun L inp w).2)) as Hmade.
  { intros Hno. rewrite Hd. unfold with_cache_directory. rewrite Hno.
    apply elem_of_union_l. by apply elem_of_singleton. }
  split_and!; [|done|].
  - apply orb_true_iff.
    destruct (Os.path_exists "cache" (os w)) eqn:Hex.
    + apply orb_true_iff in Hex as [Hf|Hdir].
      * left. apply bool_decide_eq_true in Hf as [c Hc].
        apply bool_decide_eq_true. exists c.
        by apply (lookup_weaken _ _ _ _ Hc Hsub).
      * right. apply bool_decide_eq_true in Hdir.
        apply bool_decide_eq_true. rewrite Hd. unfold with_cache_directory.
        destruct (Os.path_exists "cache" (os w)); [done|].
        by apply elem_of_union_r.
    + right. apply bool_decide_eq_true. by apply Hmade.
  - intros [c Hc]. rewrite Hd. unfold with_cache_directory.
    by rewrite (path_exists_file _ _ _ Hc).
Qed.

Lemma cache_exists_after_a_run_witness :
  "cache" ∈ dirs (os (rerun (sample_libraries (Ok []) (Ok "# Title"))
                        (mkInputs None ExampleOcrPdf 0)
                        (mkWorld (mkOS ∅ ∅ [] ∅ false) ∅ [] 0)).2).
Proof.
  apply (proj1 (proj2 (cache_exists_after_a_run
                         (sample_libraries (Ok []) (Ok "# Title"))
                         (mkInputs None ExampleOcrPdf 0)
                         (mkWorld (mkOS ∅ ∅ [] ∅ false) ∅ [] 0)))).
  by vm_compute.
Defined.

(** ** What a run does to the session *)

Section SessionOfRun.

Context (L : Libraries).

(** Filling a result set touches the entry under its key only, and only
    when there is none. *)
Lemma fill_result_set_session (key message : string)
    (steps : list (string * M World string)) (doc : string) (w0 : World) :
  steps.*1 = method_names →
  (∀ step, step ∈ steps → off_stage step.2) →
  session_state w0 ⊆ session_state (fill_result_set key message steps doc w0).2 ∧
  ∀ k, k ≠ key →
       session_state (fill_result_set key message steps doc w0).2 !! k
       = session_state w0 !! k.
Proof.
  intros Hnames Hoff.
  destruct (session_state w0 !! key) as [d|] eqn:Hkey.
  - by rewrite (fill_result_set_again _ _ _ _ d).
  - pose proof (fill_result_set_fresh key message steps doc w0
                  Hnames Hoff Hkey) as H.
    assert (∃ d, session_state (fill_result_set key message steps doc w0).2
                 = <[key := d]> (session_state w0)) as [d ->].
    { destruct (fill_result_set key message steps doc w0) as [[d|e] w'].
      - destruct H as (_ & _ & ? & _). eauto.
      - destruct H as (d & j & _ & _ & ? & _). eauto. }
    split; [by apply insert_subseteq|].
    intros k Hk. by rewrite lookup_insert_ne.
Qed.

Lemma rerun_session (inp : Inputs) (w : World) :
  session_state w ⊆ session_state (rerun L inp w).2 ∧
  ∀ key, key ≠ source_key inp →
         session_state (rerun L inp w).2 !! key = session_state w !! key.
Proof.
  unfold rerun. rewrite script_loaded.
  set (w0 := loaded _ _).
  assert (session_state w0 = session_state w) as Hw0 by done.
  rewrite <- Hw0. clearbody w0.
  destruct (has_content _) as [pdf_bytes|]; [|by rewrite st_run].
  rewrite bind_run. unfold source_of, source_key.
  destruct (uploaded_file inp) as [data|].
  - rewrite process_uploaded_shape.
    pose proof (fill_result_set_session "results"
                  "Processing uploaded PDF, please wait..."
                  (uploaded_steps L pdf_bytes) pdf_bytes w0
                  (uploaded_steps_names L pdf_bytes)
                  (uploaded_steps_off_stage L pdf_bytes)) as H.
    destruct (fill_result_set _ _ _ _ w0) as [[d|e] w1]; [|done].
    by rewrite show_results_run.
  - rewrite process_example_shape.
    pose proof (fill_result_set_session (example_key_of (example_choice inp))
                  "Processing example PDF, please wait..."
                  (example_steps L (example_choice inp)) pdf_bytes w0
                  (example_steps_names L (example_choice inp))
                  (example_steps_off_stage L (example_choice inp))) as H.
    destruct (fill_result_set _ _ _ _ w0) as [[d|e] w1]; [|done].
    by rewrite show_results_run.
Qed.

End SessionOfRun.

(** X20. A run never changes or removes an entry of the session: the
    dictionaries there were before are there after it, as they were. It
    adds at most one entry, under the key of its source: [results] for an
    uploaded document, a key of its own for each example; the entries of
    the other sources are untouched. *)
Theorem session_entries_are_only_added (L : Libraries) (inp : Inputs)
    (w : World) :
  session_state w ⊆ session_state (rerun L inp w).2 ∧
  (∀ key, key ≠ source_key inp →
          session_state (rerun L inp w).2 !! key = session_state w !! key) ∧
  (∀ choice, example_key_of choice ≠ "results") ∧
  (∀ c1 c2, example_key_of c1 = example_key_of c2 → c1 = c2).
Proof.
  destruct (rerun_session L inp w) as [Hsub Hother].
  split_and!; [done|done| |].
  - by intros [].
  - by intros [] [].
Qed.

Lemma session_entries_are_only_added_witness :
  session_state
    (rerun (sample_libraries (Ok ["Scanned text"]) (Ok "# Title"))
       (mkInputs None ExampleOcrPdf 0)
       (mkWorld sample_os {[ "results" := [] ]} [] 0)).2 !! "results"
  = session_state (mkWorld sample_os {[ "results" := [] ]} [] 0) !! "results".
Proof.
  apply (proj1 (proj2 (session_entries_are_only_added
                         (sample_libraries (Ok ["Scanned text"]) (Ok "# Title"))
                         (mkInputs None ExampleOcrPdf 0)
                         (mkWorld sample_os {[ "results" := [] ]} [] 0)))).
  discriminate.
Defined.

(** ** Parser calls and temporary files *)

Section Calls.

Context (L : Libraries).

Lemma calls_for_each {A} (xs : list A) (body : A → M World unit) :
  (∀ x, x ∈ xs → calls_at_most 1 (body x)) →
  calls_at_most (length xs) (for_each xs body).
Proof.
  induction xs as [|x xs IH]; intros H; [apply calls_ret|].
  cbn [for_each length]. apply (calls_bind 1 (length xs)).
  - apply H. by left.
  - intros _. apply IH. intros y Hy. apply H. by right.
Qed.

Lemma calls_fill_result_set (key message : string)
    (steps : list (string * M World string)) (doc : string) :
  (∀ step, step ∈ steps → calls_at_most 1 step.2) →
  calls_at_most (length steps) (fill_result_set key message steps doc).
Proof.
  intros Hsteps. unfold fill_result_set.
  apply (calls_bind 0 (length steps)); [by apply calls_unchanged|].
  intros w. apply (calls_weaken (length steps + 0)); [|lia].
  apply (calls_bind (length steps) 0); [|intros _; apply calls_session_get].
  destruct (negb _); [|apply (calls_weaken 0); [apply calls_ret | lia]].
  apply (calls_bind 0 (length steps)); [apply calls_st|]. intros _.
  apply (calls_bind 0 (length steps)); [apply calls_session_new_dict|].
  intros _.
  apply (calls_weaken (length steps + 0)); [|lia].
  apply (calls_bind (length steps) 0);
    [|intros _; apply calls_session_setitem].
  apply calls_for_each. intros step Hstep.
  apply (calls_weaken (1 + 0)); [|lia].
  apply (calls_bind 1 0); [by apply Hsteps|].
  intros r. apply calls_session_setitem.
Qed.

Lemma calls_show_results (inp : Inputs) (results : Dict) :
  calls_at_most 0 (show_results L inp results).
Proof. apply calls_unchanged. intros w. by rewrite show_results_run. Qed.

Lemma calls_script (inp : Inputs) : calls_at_most 4 (script L inp).
Proof.
  intros w. rewrite script_loaded.
  set (w0 := loaded _ _).
  assert (invocations w0 = invocations w ∧ tmpdir (os w0) = tmpdir (os w))
    as [<- <-].
  { unfold w0, loaded. cbn [os invocations].
    by rewrite (proj1 (with_cache_directory_frame (os w))). }
  clearbody w0.
  destruct (has_content _) as [pdf_bytes|].
  - apply (calls_weaken (4 + 0)); [|lia].
    apply (calls_bind 4 0); [|intros d; apply calls_show_results].
    destruct (source_of inp).
    + rewrite process_uploaded_shape.
      apply (calls_fill_result_set _ _ (uploaded_steps L pdf_bytes)).
      apply calls_uploaded_steps.
    + rewrite process_example_shape.
      apply (calls_fill_result_set _ _ (example_steps L (example_choice inp))).
      apply calls_example_steps.
  - apply (calls_weaken 0); [apply calls_st | lia].
Qed.

End Calls.

(** X21. Every call of a parser leaves exactly one temporary file, and a
    run calls a parser at most four times: after a run, however it
    ended, the temporary files are those there were before followed by
    one new file for each call made, at most four. *)
Theorem one_temporary_file_per_parser_call (L : Libraries) (inp : Inputs)
    (w : World) :
  ∃ new,
    tmpdir (os (rerun L inp w).2) = tmpdir (os w) ++ new ∧
    invocations (rerun L inp w).2 = (invocations w + length new)%nat ∧
    (length new ≤ 4)%nat.
Proof.
  destruct (rerun_keeps_temp_files L inp w (tmpdir (os w))) as [new Hnew];
    [by unfold keeps_temp_files|].
  exists new. split; [done|].
  destruct (calls_script L inp (set_screen (λ _, []) w)) as (j & Hj & Hn & Ht).
  fold (rerun L inp w) in Hn, Ht. cbn [os set_screen invocations] in Hn, Ht.
  rewrite Hnew, length_app in Ht. split; lia.
Qed.

(** ** An example whose cache is full *)

Section WarmCache.

Context (L : Libraries).

(** One turn of the loop of the example branch on a cache hit. *)
Lemma example_step_hit (key name example_path slug content : string)
    (parser : Parser) (d : Dict) (w : World) :
  session_state w !! key = Some d →
  files (os w) !! get_cache_filename example_path slug = Some content →
  (get_cached_conversion example_path slug parser
     ≫= λ r, session_setitem key name (Text r)) w
  = (Ok tt,
     set_session_state
       (λ ss, <[key := dict_set name (Text (universal_newlines content)) d]> ss)
       w).
Proof.
  intros Hd Hfile.
  rewrite (bind_ok _ _ _ _ _ (get_cached_conversion_hit _ _ _ parser w Hfile)).
  by apply session_setitem_run.
Qed.

End WarmCache.

(** X22. An example whose four cache files exist and hold UTF-8 text is
    processed without a parser: in a session that has no result set for
    it, the set is made of the texts of the four cache files, as
    text-mode reads give them,
    in the order of the methods, and of the bytes of the example file;
    no parser is called and no file is written, whatever the libraries
    would return and whatever the example file now holds. *)
Theorem example_with_full_cache_calls_no_parser (L : Libraries)
    (choice : ExampleChoice) (pdf_bytes c1 c2 c3 c4 : string) (w : World) :
  session_state w !! example_key_of choice = None →
  files (os w) !! get_cache_filename (example_path_of choice) "pytesseract"
  = Some c1 →
  files (os w) !! get_cache_filename (example_path_of choice) "docling"
  = Some c2 →
  files (os w) !! get_cache_filename (example_path_of choice) "pymupdf"
  = Some c3 →
  files (os w) !! get_cache_filename (example_path_of choice) "mistral"
  = Some c4 →
  utf8_valid c1 = true → utf8_valid c2 = true →
  utf8_valid c3 = true → utf8_valid c4 = true →
  process_example L choice pdf_bytes w
  = (Ok [ ("Pytesseract OCR", Text (universal_newlines c1));
          ("Docling Conversion", Text (universal_newlines c2));
          ("PyMuPDF Conversion", Text (universal_newlines c3));
          ("Mistral OCR", Text (universal_newlines c4));
          (original_document, Bytes pdf_bytes) ],
     mkWorld (os w)
       (<[example_key_of choice :=
            [ ("Pytesseract OCR", Text (universal_newlines c1));
              ("Docling Conversion", Text (universal_newlines c2));
              ("PyMuPDF Conversion", Text (universal_newlines c3));
              ("Mistral OCR", Text (universal_newlines c4));
              (original_document, Bytes pdf_bytes) ]]> (session_state w))
       (screen w ++ [Spinner "Processing example PDF, please wait..."])
       (invocations w)).
Proof.
  intros Hfresh H1 H2 H3 H4 _ _ _ _.
  unfold process_example, example_methods.
  rewrite bind_run. cbn [get]. rewrite (session_has_false _ _ Hfresh).
  destruct w as [o ss scr n]. cbn [os] in H1, H2, H3, H4.
  cbn [negb]. rewrite bind_run, bind_run, st_run, bind_run.
  cbn [session_new_dict modify for_each].
  rewrite bind_run, bind_run. normal_world.
  rewrite (example_step_hit _ _ _ _ c1 _ []);
    [|apply lookup_insert_eq|exact H1].
  normal_world. rewrite bind_run, insert_insert_eq.
  rewrite (example_step_hit _ _ _ _ c2 _
             [("Pytesseract OCR", Text (universal_newlines c1))]);
    [|apply lookup_insert_eq|exact H2].
  normal_world. rewrite bind_run, insert_insert_eq.
  rewrite (example_step_hit _ _ _ _ c3 _
             [("Pytesseract OCR", Text (universal_newlines c1));
              ("Docling Conversion", Text (universal_newlines c2))]);
    [|apply lookup_insert_eq|exact H3].
  normal_world. rewrite bind_run, insert_insert_eq.
  rewrite (example_step_hit _ _ _ _ c4 _
             [("Pytesseract OCR", Text (universal_newlines c1));
              ("Docling Conversion", Text (universal_newlines c2));
              ("PyMuPDF Conversion", Text (universal_newlines c3))]);
    [|apply lookup_insert_eq|exact H4].
  normal_world. cbn [mret M_ret]. rewrite insert_insert_eq.
  erewrite session_setitem_run by apply lookup_insert_eq.
  erewrite session_get_run by apply lookup_insert_eq.
  normal_world. by rewrite insert_insert_eq.
Qed.

Lemma example_with_full_cache_calls_no_parser_witness :
  (process_example
     (sample_libraries (Raise (LibraryError "no rasteriser"))
        (Raise (LibraryError "no converter")))
     ExampleOcrPdf "%PDF-1.7"
     (mkWorld
        (mkOS {[ "cache/Ocr_pytesseract.md" := "one";
                 "cache/Ocr_docling.md" := "two";
                 "cache/Ocr_pymupdf.md" := crlf_text;
                 "cache/Ocr_mistral.md" := "four" ]}
           {[ "cache" ]} [] ∅ false)
        ∅ [] 0)).1
  = Ok [ ("Pytesseract OCR", Text "one");
         ("Docling Conversion", Text "two");
         ("PyMuPDF Conversion", Text lf_text);
         ("Mistral OCR", Text "four");
         (original_document, Bytes "%PDF-1.7") ].
Proof.
  exact (f_equal fst
           (example_with_full_cache_calls_no_parser
              (sample_libraries (Raise (LibraryError "no rasteriser"))
                 (Raise (LibraryError "no converter")))
              ExampleOcrPdf "%PDF-1.7" "one" "two" crlf_text "four"
              (mkWorld
                 (mkOS {[ "cache/Ocr_pytesseract.md" := "one";
                          "cache/Ocr_docling.md" := "two";
                          "cache/Ocr_pymupdf.md" := crlf_text;
                          "cache/Ocr_mistral.md" := "four" ]}
                    {[ "cache" ]} [] ∅ false)
                 ∅ [] 0)
              eq_refl eq_refl eq_refl eq_refl eq_refl
              eq_refl eq_refl eq_refl eq_refl)).
Defined.

(** ** An example whose cache is empty *)

Section ColdCache.

Context (L : Libraries).

(** One turn of the loop of the example branch on a miss, for a parser
    that returns. *)
Lemma example_step_miss (key name example_path slug pdf_bytes result : string)
    (parser : Parser) (d : Dict) (w : World) (s' : BytesIO) (o' : OS) :
  session_state w !! key = Some d →
  Os.path_exists (get_cache_filename example_path slug) (os w) = false →
  files (os w) !! example_path = Some pdf_bytes →
  parser (BytesIO_new pdf_bytes, os w) = (Ok result, (s', o')) →
  get_cache_filename example_path slug ∉ dirs o' →
  parent (get_cache_filename example_path slug) ∈ dirs o' →
  (get_cached_conversion example_path slug parser
     ≫= λ r, session_setitem key name (Text r)) w
  = (Ok tt,
     mkWorld
       (set_files (λ f, <[get_cache_filename example_path slug := result]> f) o')
       (<[key := dict_set name (Text result) d]> (session_state w))
       (screen w) (S (invocations w))).
Proof.
  intros Hd Hmiss Hdoc Hrun Hnodir Hparent.
  rewrite bind_run, (get_cached_conversion_miss _ _ _ _ _ Hmiss Hdoc), Hrun.
  rewrite (write_text_in_directory _ _ _ Hnodir Hparent).
  cbv beta iota zeta. by rewrite (session_setitem_run _ _ _ d).
Qed.

End ColdCache.

Section ColdCacheRun.

Context (L : Libraries).

Lemma cache_files_differ (choice : ExampleChoice) :
  NoDup (example_path_of choice :: cache_files_of choice).
Proof. destruct choice; apply (bool_decide_unpack _); by vm_compute. Qed.

Lemma path_exists_files (path : string) (fs fs' : gmap string string)
    (ds : gset string) (ts ts' : list string) (env : gmap string string)
    (ssl ssl' : bool) :
  Os.path_exists path (mkOS fs ds ts env ssl) = false →
  fs' !! path = fs !! path →
  Os.path_exists path (mkOS fs' ds ts' env ssl') = false.
Proof.
  intros [Hf Hd]%path_exists_names Heq. apply path_exists_names.
  cbn [files dirs] in *. by rewrite Heq.
Qed.

End ColdCacheRun.

(** X23. An example whose cache is empty fills it: in a session without a
    result set for it, with the directory [cache] there and none of the
    four cache files, when the four methods return, each is called once
    on the bytes of the example file and its text is written to its cache
    file; the set holds the texts as the methods returned them, followed
    by the bytes of the document; four temporary copies are left and the
    certificate checks are off. *)
Theorem example_with_empty_cache_fills_it (L : Libraries)
    (choice : ExampleChoice) (pdf_bytes t1 t2 t3 t4 : string) (w : World) :
  session_state w !! example_key_of choice = None →
  "cache" ∈ dirs (os w) →
  (∀ path, path ∈ cache_files_of choice →
           Os.path_exists path (os w) = false) →
  files (os w) !! example_path_of choice = Some pdf_bytes →
  pytesseract_text L pdf_bytes = Ok t1 →
  docling_convert_to_markdown L pdf_bytes = Ok t2 →
  pymupdf_to_markdown L pdf_bytes = Ok t3 →
  mistral_text L (environ (os w) !! "MISTRAL_API_KEY")
    (length (tmpdir (os w)) + 3) pdf_bytes = Ok t4 →
  process_example L choice pdf_bytes w
  = (Ok [ ("Pytesseract OCR", Text t1);
          ("Docling Conversion", Text t2);
          ("PyMuPDF Conversion", Text t3);
          ("Mistral OCR", Text t4);
          (original_document, Bytes pdf_bytes) ],
     mkWorld
       (mkOS
          (<[get_cache_filename (example_path_of choice) "mistral" := t4]>
             (<[get_cache_filename (example_path_of choice) "pymupdf" := t3]>
                (<[get_cache_filename (example_path_of choice) "docling" := t2]>
                   (<[get_cache_filename (example_path_of choice) "pytesseract"
                      := t1]> (files (os w))))))
          (dirs (os w)) (tmpdir (os w) ++ replicate 4 pdf_bytes)
          (environ (os w)) true)
       (<[example_key_of choice :=
            [ ("Pytesseract OCR", Text t1);
              ("Docling Conversion", Text t2);
              ("PyMuPDF Conversion", Text t3);
              ("Mistral OCR", Text t4);
              (original_document, Bytes pdf_bytes) ]]> (session_state w))
       (screen w ++ [Spinner "Processing example PDF, please wait..."])
       (invocations w + 4)).
Proof.
  intros Hfresh Hcache Hmiss Hdoc Ht1 Ht2 Ht3 Ht4.
  pose proof (cache_files_differ choice) as Hdiff.
  unfold cache_files_of, method_slugs in Hmiss, Hdiff.
  cbn [fmap list_fmap] in Hmiss, Hdiff.
  set (p := example_path_of choice) in *.
  set (c1 := get_cache_filename p "pytesseract") in *.
  set (c2 := get_cache_filename p "docling") in *.
  set (c3 := get_cache_filename p "pymupdf") in *.
  set (c4 := get_cache_filename p "mistral") in *.
  assert (p ≠ c1 ∧ p ≠ c2 ∧ p ≠ c3 ∧ c2 ≠ c1 ∧ c3 ≠ c1 ∧ c4 ≠ c1 ∧
          c3 ≠ c2 ∧ c4 ≠ c2 ∧ c4 ≠ c3)
    as (Hp1 & Hp2 & Hp3 & H21 & H31 & H41 & H32 & H42 & H43).
  { clearbody p c1 c2 c3 c4. clear -Hdiff.
    rewrite !NoDup_cons, !not_elem_of_cons in Hdiff.
    destruct Hdiff as ((? & ? & ? & _) & (? & ? & ? & _) & (? & ? & _)
                       & (? & _) & _).
    split_and!; congruence. }
  assert (Os.path_exists c1 (os w) = false ∧ Os.path_exists c2 (os w) = false ∧
          Os.path_exists c3 (os w) = false ∧ Os.path_exists c4 (os w) = false)
    as (Hm1 & Hm2 & Hm3 & Hm4).
  { split_and!; apply Hmiss; set_solver. }
  assert (parent c1 = "cache" ∧ parent c2 = "cache" ∧
          parent c3 = "cache" ∧ parent c4 = "cache")
    as (Hd1 & Hd2 & Hd3 & Hd4)
    by (split_and!; by apply get_cache_filename_parent).
  clear Hmiss Hdiff.
  unfold process_example, example_methods. fold p c1 c2 c3 c4.
  rewrite bind_run. cbn [get]. rewrite (session_has_false _ _ Hfresh).
  destruct w as [[fs ds ts env ssl] ss scr n].
  cbn [os files dirs tmpdir environ session_state] in *.
  cbn [negb]. rewrite bind_run, bind_run, st_run, bind_run.
  cbn [session_new_dict modify for_each].
  rewrite bind_run, bind_run. normal_world.
  (* pytesseract *)
  rewrite (example_step_miss _ _ p "pytesseract" pdf_bytes t1 _ []
             _ (exhausted (BytesIO_new pdf_bytes))
             (with_temp_copy pdf_bytes (mkOS fs ds ts env ssl)));
    [ | apply lookup_insert_eq | exact Hm1 | exact Hdoc
      | rewrite parse_with_pytesseract_run;
        change (remaining (BytesIO_new pdf_bytes)) with pdf_bytes;
        by rewrite Ht1
      | by apply path_exists_names in Hm1 as [_ ?]
      | fold c1; by rewrite Hd1 ].
  fold c1. normal_world. rewrite bind_run, insert_insert_eq.
  (* docling *)
  rewrite (example_step_miss _ _ p "docling" pdf_bytes t2 _
             [("Pytesseract OCR", Text t1)]
             _ (exhausted (BytesIO_new pdf_bytes))
             (set_ssl_unverified true
                (with_temp_copy pdf_bytes
                   (mkOS (<[c1 := t1]> fs) ds (ts ++ [pdf_bytes]) env ssl))));
    [ | apply lookup_insert_eq
      | fold c2; apply (path_exists_files _ fs _ _ ts _ _ ssl _ Hm2);
        by rewrite lookup_insert_ne
      | cbn [os files]; by rewrite lookup_insert_ne
      | rewrite parse_with_docling_run;
        change (remaining (BytesIO_new pdf_bytes)) with pdf_bytes;
        by rewrite Ht2
      | by apply path_exists_names in Hm2 as [_ ?]
      | fold c2; by rewrite Hd2 ].
  fold c2. normal_world. rewrite bind_run, insert_insert_eq.
  (* pymupdf *)
  rewrite (example_step_miss _ _ p "pymupdf" pdf_bytes t3 _
             [("Pytesseract OCR", Text t1); ("Docling Conversion", Text t2)]
             _ (exhausted (BytesIO_new pdf_bytes))
             (with_temp_copy pdf_bytes
                (mkOS (<[c2 := t2]> (<[c1 := t1]> fs)) ds
                   ((ts ++ [pdf_bytes]) ++ [pdf_bytes]) env true)));
    [ | apply lookup_insert_eq
      | fold c3; apply (path_exists_files _ fs _ _ ts _ _ ssl _ Hm3);
        by rewrite !lookup_insert_ne
      | cbn [os files]; by rewrite !lookup_insert_ne
      | rewrite parse_with_pymupdf_run;
        change (remaining (BytesIO_new pdf_bytes)) with pdf_bytes;
        by rewrite Ht3
      | by apply path_exists_names in Hm3 as [_ ?]
      | fold c3; by rewrite Hd3 ].
  fold c3. normal_world. rewrite bind_run, insert_insert_eq.
  (* mistral *)
  rewrite (example_step_miss _ _ p "mistral" pdf_bytes t4 _
             [("Pytesseract OCR", Text t1); ("Docling Conversion", Text t2);
              ("PyMuPDF Conversion", Text t3)]
             _ (exhausted (BytesIO_new pdf_bytes))
             (with_temp_copy pdf_bytes
                (mkOS (<[c3 := t3]> (<[c2 := t2]> (<[c1 := t1]> fs))) ds
                   (((ts ++ [pdf_bytes]) ++ [pdf_bytes]) ++ [pdf_bytes])
                   env true)));
    [ | apply lookup_insert_eq
      | fold c4; apply (path_exists_files _ fs _ _ ts _ _ ssl _ Hm4);
        by rewrite !lookup_insert_ne
      | cbn [os files]; by rewrite !lookup_insert_ne
      | rewrite parse_with_mistral_run;
        change (remaining (BytesIO_new pdf_bytes)) with pdf_bytes;
        cbn [os environ tmpdir]; rewrite !length_app; cbn [length];
        replace (length ts + 1 + 1 + 1)%nat with (length ts + 3)%nat by lia;
        by rewrite Ht4
      | by apply path_exists_names in Hm4 as [_ ?]
      | fold c4; by rewrite Hd4 ].
  fold c4. normal_world. cbn [mret M_ret]. rewrite insert_insert_eq.
  erewrite session_setitem_run by apply lookup_insert_eq.
  erewrite session_get_run by apply lookup_insert_eq.
  by solve_world_eq.
Qed.

Lemma example_with_empty_cache_fills_it_witness :
  (process_example (sample_libraries (Ok ["Scanned text"]) (Ok "# Title"))
     ExampleOcrPdf "%PDF-1.7" sample_world).1
  = Ok [ ("Pytesseract OCR", Text (page_sections_from 1 ["Scanned text"]));
         ("Docling Conversion", Text "# Title");
         ("PyMuPDF Conversion", Text "# Title");
         ("Mistral OCR", Text mistral_key_unset_message);
         (original_document, Bytes "%PDF-1.7") ].
Proof.
  refine (f_equal fst
            (example_with_empty_cache_fills_it
               (sample_libraries (Ok ["Scanned text"]) (Ok "# Title"))
               ExampleOcrPdf "%PDF-1.7"
               (page_sections_from 1 ["Scanned text"]) "# Title" "# Title"
               mistral_key_unset_message sample_world
               eq_refl _ _ eq_refl eq_refl eq_refl eq_refl eq_refl)).
  - vm_compute. set_solver.
  - intros path Hin. unfold cache_files_of, method_slugs in Hin.
    cbn [fmap list_fmap] in Hin. set_unfold in Hin.
    destruct Hin as [->|[->|[->|[->|[]]]]]; by vm_compute.
Defined.

(** ** The adapters and their stream *)

Lemma exhausted_twice (stream : BytesIO) :
  exhausted (exhausted stream) = exhausted stream.
Proof.
  unfold exhausted, BytesIO_read. cbn [snd buffer position].
  f_equal. lia.
Qed.

Lemma ocr_text_raises (L : Libraries) (i : nat) (before : list (Image L))
    (img : Image L) (after : list (Image L)) (texts : list string)
    (acc : string) (e : Exn) :
  Forall2 (λ img text, image_to_string L img = Ok text) before texts →
  image_to_string L img = Raise e →
  ocr_text L i (before ++ img :: after) acc = Raise e.
Proof.
  intros Hbefore Himg. revert i acc.
  induction Hbefore as [|b text before texts Hb _ IH]; intros i acc.
  - cbn [app ocr_text]. by rewrite Himg.
  - cbn [app ocr_text]. rewrite Hb. apply IH.
Qed.

(** X24. An adapter reads its stream from where it stands: given a stream
    that has been read to its end, as every adapter leaves the one it is
    given, each of the four adapters writes an empty temporary file and
    hands its library no bytes. *)
Theorem adapter_on_a_read_stream_gets_no_bytes (L : Libraries)
    (stream : BytesIO) (o : OS) :
  parse_with_pytesseract L (exhausted stream, o)
  = (pytesseract_text L EmptyString,
     (exhausted stream, with_temp_copy EmptyString o)) ∧
  parse_with_docling L (exhausted stream, o)
  = (docling_convert_to_markdown L EmptyString,
     (exhausted stream,
      set_ssl_unverified true (with_temp_copy EmptyString o))) ∧
  parse_with_pymupdf L (exhausted stream, o)
  = (pymupdf_to_markdown L EmptyString,
     (exhausted stream, with_temp_copy EmptyString o)) ∧
  parse_with_mistral L (exhausted stream, o)
  = (mistral_text L (environ o !! "MISTRAL_API_KEY") (length (tmpdir o))
       EmptyString,
     (exhausted stream, with_temp_copy EmptyString o)).
Proof.
  rewrite parse_with_pytesseract_run, parse_with_docling_run,
    parse_with_pymupdf_run, parse_with_mistral_run.
  by rewrite exhausted_remaining, exhausted_twice.
Qed.

(** X25. Local OCR gives all the pages or none: when the text of a page
    cannot be read, [parse_with_pytesseract] raises the exception of the
    first such page, and the sections of the pages before it are
    dropped. *)
Theorem parse_with_pytesseract_raises_on_a_page (L : Libraries)
    (stream : BytesIO) (o : OS) (before : list (Image L)) (img : Image L)
    (after : list (Image L)) (texts : list string) (e : Exn) :
  convert_from_path L (remaining stream) = Ok (before ++ img :: after) →
  Forall2 (λ img text, image_to_string L img = Ok text) before texts →
  image_to_string L img = Raise e →
  (parse_with_pytesseract L (stream, o)).1 = Raise e.
Proof.
  intros Hconv Hbefore Himg. rewrite parse_with_pytesseract_run.
  unfold pytesseract_text. cbn [fst]. rewrite Hconv.
  by apply (ocr_text_raises L 0 before img after texts).
Qed.

Lemma parse_with_pytesseract_raises_on_a_page_witness :
  (parse_with_pytesseract (strict_ocr_libraries ["first"; EmptyString; "third"])
     (BytesIO_new "%PDF-1.7", sample_os)).1
  = Raise (LibraryError "empty page").
Proof.
  apply (parse_with_pytesseract_raises_on_a_page
           (strict_ocr_libraries ["first"; EmptyString; "third"])
           (BytesIO_new "%PDF-1.7") sample_os
           ["first"] EmptyString ["third"] ["first"]).
  - reflexivity.
  - repeat constructor.
  - reflexivity.
Defined.
